(** * kaizenflow: dataflow runners, forecasting nodes, parallel harness,
      synthetic data generator

    A shallow embedding of the parts of the repository that its
    specification makes checkable statements about:

    - [core/dataflow/runners.py]  (module [Runners])
    - [core/dataflow/models.py]   (module [Models])
    - [helpers/joblib_helpers.py] (module [JoblibHelpers])
    - [im_v2/common/data/transform/test/generate_pq_example_data.py]
      (module [GeneratePqExampleData])

    Python exceptions are values of [PyError]; a call that may raise returns
    a [result].  Objects that the code mutates (source nodes of a graph,
    keyword dictionaries of tasks, the log file) are threaded through
    explicitly.  Third-party engines (pandas, scikit-learn, scipy, joblib)
    and repository modules that are imported but not part of the sources at
    hand appear either as small executable models of the fragment that is
    used, or as section variables. *)

From Stdlib Require Import Ascii ZArith QArith Qcanon Qround Lia Lqa.
From stdpp Require Import base tactics sorting option strings gmap pretty numbers list.

Local Open Scope Z_scope.

(** ** Exceptions and fallible calls *)

Inductive PyError : Type :=
| AssertionError (msg : string)
| ValueError (msg : string)
| KeyError (msg : string)
| TypeError (msg : string)
| RuntimeError (msg : string).

(** [str(e)] of an exception. *)
Definition exn_str (e : PyError) : string :=
  match e with
  | AssertionError m | ValueError m | KeyError m | TypeError m
  | RuntimeError m => m
  end.

Inductive result (A : Type) : Type :=
| Ok (a : A)
| Err (e : PyError).
Arguments Ok {A} a.
Arguments Err {A} e.

#[global] Instance PyError_eq_dec : EqDecision PyError.
Proof. solve_decision. Defined.

#[global] Instance result_eq_dec {A : Type} `{EqDecision A} : EqDecision (result A).
Proof. solve_decision. Defined.

#[global] Instance result_ret : MRet result := fun A a => Ok a.
#[global] Instance result_bind : MBind result := fun A B f m =>
  match m with
  | Ok a => f a
  | Err e => Err e
  end.

#[global] Instance result_fmap : FMap result := fun A B f m =>
  match m with
  | Ok a => Ok (f a)
  | Err e => Err e
  end.

Definition is_ok {A} (r : result A) : bool :=
  match r with Ok _ => true | Err _ => false end.

(** The assertion helpers of [helpers/dbg.py] (imported, not among the
    sources): each raises [AssertionError] when its condition fails.  The
    error carries the message the caller passed; the framing that the helper
    prints around it is left out. *)
Module dbg.

Definition dassert (cond : bool) (msg : string) : result unit :=
  if cond then Ok () else Err (AssertionError msg).

Definition dassert_lt (a b : Z) (msg : string) : result unit :=
  dassert (a <? b) msg.

Definition dassert_lte (a b : Z) (msg : string) : result unit :=
  dassert (a <=? b) msg.

Definition dassert_eq_nat (a b : nat) (msg : string) : result unit :=
  dassert (bool_decide (a = b)) msg.

Definition dassert_in (x : string) (l : list string) (msg : string) : result unit :=
  dassert (bool_decide (x ∈ l)) msg.

Definition dassert_not_in (x : string) (l : list string) (msg : string) : result unit :=
  dassert (negb (bool_decide (x ∈ l))) msg.

End dbg.

(** ** The fragment of pandas the code relies on *)

Module Pandas.

(** Timestamps are seconds since the Unix epoch. *)
Definition Timestamp : Type := Z.

(** A frequency offset: [off_n] multiples of a unit of [off_unit] seconds. *)
Record DateOffset : Type := mkOffset { off_n : Z; off_unit : Z }.

Definition step (o : DateOffset) : Z := off_n o * off_unit o.

Definition is_digit (c : Ascii.ascii) : bool :=
  let n := Ascii.nat_of_ascii c in (48 <=? n)%nat && (n <=? 57)%nat.

Definition digit_value (c : Ascii.ascii) : Z := Z.of_nat (Ascii.nat_of_ascii c) - 48.

(** Splits a string into its longest prefix of decimal digits and the rest. *)
Fixpoint span_digits (s : string) : string * string :=
  match s with
  | String c r =>
      if is_digit c then let '(d, u) := span_digits r in (String c d, u)
      else (EmptyString, s)
  | EmptyString => (EmptyString, EmptyString)
  end.

Fixpoint digits_value_from (acc : Z) (s : string) : Z :=
  match s with
  | String c r => digits_value_from (10 * acc + digit_value c) r
  | EmptyString => acc
  end.

Definition digits_value (s : string) : Z := digits_value_from 0 s.

(** Fixed-length frequency aliases. *)
Definition unit_seconds (u : string) : option Z :=
  if bool_decide (u = "D") then Some 86400
  else if bool_decide (u = "H") then Some 3600
  else if bool_decide (u = "T") then Some 60
  else if bool_decide (u = "min") then Some 60
  else if bool_decide (u = "S") then Some 1
  else None.

Definition parse_stride (s : string) : result DateOffset :=
  let '(d, u) := span_digits s in
  match unit_seconds u with
  | Some sec =>
      Ok (mkOffset (if bool_decide (d = EmptyString) then 1 else digits_value d) sec)
  | None => Err (ValueError ("Invalid frequency: " +:+ s))
  end.

(** [pandas.tseries.frequencies.to_offset] on frequency strings made of an
    optional sign, an optional integer multiple and one fixed-length unit
    ("D", "H", "T", "min", "S").  Every other string is rejected; for the
    calendar-dependent aliases (business days, months) that pandas accepts
    as well this is a restriction of the model. *)
Definition to_offset (freq : string) : result DateOffset :=
  match freq with
  | String "-"%char r =>
      o ← parse_stride r;
      if bool_decide (fst (span_digits r) = EmptyString)
      then Err (ValueError ("Invalid frequency: " +:+ freq))
      else Ok (mkOffset (- off_n o) (off_unit o))
  | String "+"%char r =>
      if bool_decide (fst (span_digits r) = EmptyString)
      then Err (ValueError ("Invalid frequency: " +:+ freq))
      else parse_stride r
  | _ => parse_stride freq
  end.

(** The points [start, start + s, start + 2 s, ...] up to [stop] included. *)
Definition arith_range (start stop s : Z) : list Z :=
  (fun i : nat => start + Z.of_nat i * s) <$> seq 0 (S (Z.to_nat ((stop - start) / s))).

(** [pd.date_range(start=, end=, freq=)] for a fixed-length offset: ascending
    from [start] while not after [end_] for a positive step, descending while
    not before [end_] for a negative one; a zero step is an error. *)
Definition date_range_offset (start end_ : Timestamp) (o : DateOffset)
  : result (list Timestamp) :=
  let s := step o in
  if s =? 0 then Err (ValueError "zero frequency")
  else if 0 <? s then
    Ok (if start <=? end_ then arith_range start end_ s else [])
  else
    Ok (if end_ <=? start then arith_range start end_ s else []).

Definition date_range (start end_ : Timestamp) (freq : string)
  : result (list Timestamp) :=
  o ← to_offset freq; date_range_offset start end_ o.

(** [DatetimeIndex.shift(freq=...)]: every label moves by the offset. *)
Definition index_shift (idx : list Timestamp) (freq : string)
  : result (list Timestamp) :=
  o ← to_offset freq; Ok ((fun t => t + step o) <$> idx).

(** [pd.date_range(end=, freq=, periods=)] for a fixed-length offset: the
    [periods] points one step apart that end at [end_]; no point when
    [periods] is not positive. *)
Definition date_range_end (end_ : Timestamp) (freq : string) (periods : Z)
  : result (list Timestamp) :=
  o ← to_offset freq;
  let s := step o in
  if s =? 0 then Err (ValueError "zero frequency")
  else Ok ((fun i : nat => end_ - (periods - 1 - Z.of_nat i) * s)
             <$> seq 0 (Z.to_nat periods)).

(** Midnight of a calendar day given as days since the epoch. *)
Definition day (d : Z) : Timestamp := d * 86400.

(** A string of decimal digits. *)
Fixpoint all_digits (s : string) : bool :=
  match s with
  | String c r => is_digit c && all_digits r
  | EmptyString => true
  end.

Definition starts_with_digit (s : string) : bool :=
  match s with
  | String c _ => is_digit c
  | EmptyString => false
  end.

(** *** Facts about ranges *)

Lemma StronglySorted_filter {A : Type} (R : relation A) (P : A -> Prop)
  `{!forall x, Decision (P x)} (l : list A) :
  StronglySorted R l -> StronglySorted R (filter P l).
Proof.
  induction 1 as [|x l Hs IH Hall]; [constructor|].
  rewrite filter_cons. destruct (decide (P x)); [|done].
  constructor; [done|].
  apply Forall_forall. intros y [_ Hy]%list_elem_of_filter.
  by eapply Forall_forall in Hall.
Qed.

Lemma filter_all {A : Type} (P : A -> Prop) `{!forall x, Decision (P x)} (l : list A) :
  Forall P l -> filter P l = l.
Proof.
  induction 1 as [|x l Hx Hl IH]; [done|].
  by rewrite filter_cons_True, IH.
Qed.

Lemma arith_range_sorted (start stop s : Z) :
  0 < s -> StronglySorted Z.lt (arith_range start stop s).
Proof.
  intros Hs. unfold arith_range.
  generalize (S (Z.to_nat ((stop - start) / s))) as n.
  generalize 0%nat as k.
  intros k n; revert k; induction n as [|n IH]; intros k; simpl; constructor.
  - apply IH.
  - apply Forall_fmap, Forall_seq. intros j Hj. simpl. nia.
Qed.

Lemma arith_range_nonempty (start stop s : Z) : arith_range start stop s <> [].
Proof. unfold arith_range. simpl. done. Qed.

Lemma arith_range_length (start stop s : Z) :
  length (arith_range start stop s) = S (Z.to_nat ((stop - start) / s)).
Proof. unfold arith_range. by rewrite length_fmap, length_seq. Qed.

Lemma arith_range_lookup (start stop s : Z) (i : nat) :
  (i < length (arith_range start stop s))%nat ->
  arith_range start stop s !! i = Some (start + Z.of_nat i * s).
Proof.
  rewrite arith_range_length. intros Hi. unfold arith_range.
  rewrite list_lookup_fmap, lookup_seq_lt by done. reflexivity.
Qed.

Lemma arith_range_elem (start stop s t : Z) :
  0 < s -> start <= stop ->
  t ∈ arith_range start stop s
  <-> exists i, 0 <= i /\ start + i * s <= stop /\ t = start + i * s.
Proof.
  intros Hs Hle. unfold arith_range. rewrite list_elem_of_fmap.
  assert (0 <= (stop - start) / s) by (apply Z.div_pos; lia). split.
  - intros (i & -> & Hi). apply elem_of_seq in Hi.
    exists (Z.of_nat i). split; [lia|]. split; [|done].
    assert (Z.of_nat i <= (stop - start) / s) by lia.
    pose proof (Z.mul_div_le (stop - start) s Hs). nia.
  - intros (i & Hi & Hstop & ->). exists (Z.to_nat i).
    split; [by rewrite Z2Nat.id|]. apply elem_of_seq.
    assert (i <= (stop - start) / s) by (apply Z.div_le_lower_bound; lia).
    lia.
Qed.

(** *** Facts about frequency strings *)

Lemma append_cons (c : Ascii.ascii) (a b : string) :
  String c a +:+ b = String c (a +:+ b).
Proof. reflexivity. Qed.

Lemma append_nil_r (a : string) : a +:+ EmptyString = a.
Proof. induction a as [|c a IH]; [done|]. by rewrite append_cons, IH. Qed.

Lemma append_assoc (a b c : string) : (a +:+ b) +:+ c = a +:+ (b +:+ c).
Proof. induction a as [|x a IH]; [done|]. by rewrite !append_cons, IH. Qed.

Lemma all_digits_app (a b : string) :
  all_digits (a +:+ b) = all_digits a && all_digits b.
Proof.
  induction a as [|c a IH]; [done|].
  rewrite append_cons. cbn [all_digits]. by rewrite IH, andb_assoc.
Qed.

Lemma length_append (a b : string) :
  String.length (a +:+ b) = (String.length a + String.length b)%nat.
Proof. induction a as [|c a IH]; [done|]. rewrite append_cons. simpl. by rewrite IH. Qed.

Lemma digits_value_from_app (a b : string) :
  forall acc, digits_value_from acc (a +:+ b)
              = digits_value_from (digits_value_from acc a) b.
Proof.
  induction a as [|c a IH]; intros acc; [done|].
  rewrite append_cons. cbn [digits_value_from]. by rewrite IH.
Qed.

Lemma digits_value_from_acc (d : string) :
  forall acc, digits_value_from acc d
              = acc * 10 ^ Z.of_nat (String.length d) + digits_value d.
Proof.
  unfold digits_value.
  induction d as [|c d IH]; intros acc.
  - simpl. lia.
  - cbn [digits_value_from String.length].
    rewrite IH, (IH (10 * 0 + digit_value c)).
    rewrite Nat2Z.inj_succ, Z.pow_succ_r by lia. lia.
Qed.

(** The digits of one number followed by those of another. *)
Lemma digits_value_app (a b : string) :
  digits_value (a +:+ b)
  = digits_value a * 10 ^ Z.of_nat (String.length b) + digits_value b.
Proof.
  unfold digits_value at 1. rewrite digits_value_from_app.
  fold (digits_value a). apply digits_value_from_acc.
Qed.

Lemma is_digit_value (c : Ascii.ascii) :
  is_digit c = true -> 0 <= digit_value c <= 9.
Proof.
  unfold is_digit, digit_value. intros [H1 H2]%andb_true_iff.
  apply Nat.leb_le in H1, H2. lia.
Qed.

Lemma digits_value_bounds (d : string) :
  all_digits d = true -> 0 <= digits_value d < 10 ^ Z.of_nat (String.length d).
Proof.
  induction d as [|c d IH]; intros Hd.
  - by vm_compute.
  - cbn [all_digits] in Hd. apply andb_true_iff in Hd as [Hc Hd].
    change (String c d) with (String c EmptyString +:+ d).
    rewrite digits_value_app, length_append.
    change (digits_value (String c "")) with (10 * 0 + digit_value c).
    change (String.length (String c "")) with 1%nat.
    rewrite Nat2Z.inj_add, Z.pow_add_r by lia. change (10 ^ Z.of_nat 1) with 10.
    pose proof (is_digit_value c Hc). specialize (IH Hd). nia.
Qed.

Lemma span_digits_app (d u : string) :
  all_digits d = true -> starts_with_digit u = false ->
  span_digits (d +:+ u) = (d, u).
Proof.
  intros Hd Hu. induction d as [|c d IH].
  - change (EmptyString +:+ u) with u. destruct u as [|c u]; [done|].
    cbn [span_digits starts_with_digit] in *. by rewrite Hu.
  - cbn [all_digits] in Hd. apply andb_true_iff in Hd as [Hc Hd].
    rewrite append_cons. cbn [span_digits]. by rewrite Hc, IH.
Qed.

Lemma pretty_N_char_digit (m : N) :
  (m < 10)%N ->
  is_digit (pretty_N_char m) = true /\ digit_value (pretty_N_char m) = Z.of_N m.
Proof.
  intros Hm.
  assert (m = 0 \/ m = 1 \/ m = 2 \/ m = 3 \/ m = 4 \/ m = 5 \/ m = 6 \/ m = 7
          \/ m = 8 \/ m = 9)%N as H by lia.
  repeat (destruct H as [->|H]; [by vm_compute|]). subst. by vm_compute.
Qed.

(** The digits that [pretty_N_go] puts in front of its accumulator. *)
Lemma pretty_N_go_digits (x : N) :
  forall s, exists d,
    pretty_N_go x s = d +:+ s /\ all_digits d = true
    /\ digits_value d = Z.of_N x
    /\ (0 < x -> d <> EmptyString)%N.
Proof.
  induction (N.lt_wf_0 x) as [x _ IH]; intros s.
  destruct (decide (x = 0)%N) as [->|Hx].
  - exists EmptyString. rewrite pretty_N_go_0. repeat split; try done; lia.
  - rewrite pretty_N_go_step by lia.
    destruct (IH (x `div` 10)%N (N.div_lt x 10 ltac:(lia) ltac:(lia))
                 (String (pretty_N_char (x `mod` 10)) s)) as (d & Hd & Hall & Hval & _).
    destruct (pretty_N_char_digit (x `mod` 10)%N) as [Hdig Hdv];
      [by apply N.mod_lt|].
    exists (d +:+ String (pretty_N_char (x `mod` 10)) EmptyString).
    split; [|split; [|split]].
    + rewrite Hd. by rewrite append_assoc.
    + rewrite all_digits_app, Hall. cbn [all_digits]. by rewrite Hdig.
    + unfold digits_value. rewrite digits_value_from_app. fold (digits_value d).
      rewrite Hval. cbn [digits_value_from]. rewrite Hdv.
      rewrite (N.div_mod x 10) at 3 by lia. lia.
    + intros _. by destruct d.
Qed.

(** [str(n)] of a number that is not negative is its decimal digits. *)
Lemma pretty_Z_digits (n : Z) :
  0 <= n ->
  all_digits (pretty n) = true /\ digits_value (pretty n) = n
  /\ pretty n <> EmptyString.
Proof.
  intros Hn. destruct n as [|p|p]; [by vm_compute| |lia].
  unfold pretty, pretty_Z, pretty, pretty_positive, pretty, pretty_N.
  rewrite decide_False by lia.
  destruct (pretty_N_go_digits (N.pos p) EmptyString) as (d & Hd & Hall & Hval & Hne).
  rewrite Hd, append_nil_r.
  split; [done|]. split; [by rewrite Hval|]. apply Hne. lia.
Qed.

Lemma unit_seconds_inv (u : string) (sec : Z) :
  unit_seconds u = Some sec ->
  starts_with_digit u = false /\ 0 < sec
  /\ (u = "D" \/ u = "H" \/ u = "T" \/ u = "min" \/ u = "S").
Proof.
  unfold unit_seconds. repeat case_bool_decide; intros [= <-]; subst;
    (split; [reflexivity|split; [lia|]]); auto 10.
Qed.

Lemma to_offset_digit_first (c : Ascii.ascii) (r : string) :
  is_digit c = true -> to_offset (String c r) = parse_stride (String c r).
Proof.
  intros Hc. destruct c as [[] [] [] [] [] [] [] []]; try done.
Qed.

(** An integer multiple written in digits, followed by a unit. *)
Lemma to_offset_digits_unit (d u : string) (sec : Z) :
  all_digits d = true -> unit_seconds u = Some sec ->
  to_offset (d +:+ u)
  = Ok (mkOffset (if bool_decide (d = EmptyString) then 1 else digits_value d) sec).
Proof.
  intros Hd Hu. destruct (unit_seconds_inv u sec Hu) as (Hnd & _ & Hcases).
  assert (Hparse : parse_stride (d +:+ u)
            = Ok (mkOffset (if bool_decide (d = EmptyString) then 1
                            else digits_value d) sec)).
  { unfold parse_stride. by rewrite span_digits_app, Hu. }
  destruct d as [|c d].
  - rewrite <- Hparse.
    destruct Hcases as [H|[H|[H|[H|H]]]]; subst u; reflexivity.
  - cbn [all_digits] in Hd. apply andb_true_iff in Hd as [Hc _].
    rewrite append_cons in *. by rewrite to_offset_digit_first.
Qed.

End Pandas.

(** ** core/dataflow/runners.py *)

Module Runners.
Import Pandas.

Inductive Method : Type := Fit | Predict.

(** An interval bounds the visible history; [None] leaves a side open. *)
Definition Interval : Type := (option Timestamp * option Timestamp)%type.
Definition Intervals : Type := list Interval.

Definition in_interval (t : Timestamp) (i : Interval) : bool :=
  match fst i with None => true | Some lo => lo <=? t end
  && match snd i with None => true | Some hi => t <=? hi end.

Definition visible (ivs : option Intervals) (t : Timestamp) : bool :=
  match ivs with
  | None => true
  | Some l => existsb (in_interval t) l
  end.

Section Dataflow.
Context {Row NodeInfo FitState Config Tags LoopKwargs Event : Type}.

(** A time-indexed table: rows in order, each with its timestamp. *)
Definition Table : Type := list (Timestamp * Row).

(** Modelled from the spec: the source nodes of the graph engine
    ([core/dataflow/core.py] and [nodes.py] are imported by the runners but
    are not among the sources).  A source node holds the underlying data and
    accepts a fit interval and a predict interval, each restricting which
    rows are visible to [fit] and to [predict]; setting an interval
    overwrites the previous one. *)
Record DataSource : Type := mkDataSource {
  ds_data : Table;
  ds_fit_intervals : option Intervals;
  ds_predict_intervals : option Intervals
}.

Definition set_fit_intervals (ivs : Intervals) (n : DataSource) : DataSource :=
  mkDataSource (ds_data n) (Some ivs) (ds_predict_intervals n).

Definition set_predict_intervals (ivs : Intervals) (n : DataSource) : DataSource :=
  mkDataSource (ds_data n) (ds_fit_intervals n) (Some ivs).

Definition ds_intervals (m : Method) (n : DataSource) : option Intervals :=
  match m with
  | Fit => ds_fit_intervals n
  | Predict => ds_predict_intervals n
  end.

Definition ds_output (m : Method) (n : DataSource) : Table :=
  filter (fun r => visible (ds_intervals m n) (fst r) = true) (ds_data n).

(** Modelled from the spec: the graph.  Source nodes are kept by node id;
    the nodes downstream of them are a pair of functions from the learned
    state and the tables the sources emit to the output table of the sink
    and the diagnostics.  Only [fit] changes the learned state.  [dag_calls]
    records the methods the graph has been run with. *)
Record DAG : Type := mkDAG {
  dag_sources : gmap string DataSource;
  dag_sinks : list string;
  dag_state : FitState;
  dag_fit : string -> FitState -> gmap string Table -> result (Table * NodeInfo * FitState);
  dag_predict : string -> FitState -> gmap string Table -> result (Table * NodeInfo);
  dag_info : Method -> option NodeInfo;
  dag_calls : list Method
}.

Definition get_sources (d : DAG) : list string := elements (dom (dag_sources d)).

Definition alter_node (f : DataSource -> DataSource) (nid : string) (d : DAG) : DAG :=
  mkDAG (alter f nid (dag_sources d)) (dag_sinks d) (dag_state d) (dag_fit d)
        (dag_predict d) (dag_info d) (dag_calls d).

Definition get_unique_sink (d : DAG) : result string :=
  match dag_sinks d with
  | [nid] => Ok nid
  | _ => Err (AssertionError "sink is not unique")
  end.

(** [core.dataflow.visitors.set_fit_state]: restores externalized learned
    state into the graph. *)
Definition set_fit_state (d : DAG) (fit_state : FitState) : DAG :=
  mkDAG (dag_sources d) (dag_sinks d) fit_state (dag_fit d) (dag_predict d)
        (dag_info d) (dag_calls d).

Definition set_info (m : Method) (i : NodeInfo) (info : Method -> option NodeInfo)
  : Method -> option NodeInfo :=
  fun m' => match m, m' with
            | Fit, Fit | Predict, Predict => Some i
            | _, _ => info m'
            end.

(** [dag.run_leq_node(nid, method)]: runs every node on the way into [nid]. *)
Definition run_leq_node (d : DAG) (nid : string) (method : Method)
  : result (Table * DAG) :=
  let inputs := ds_output method <$> dag_sources d in
  match method with
  | Fit =>
      r ← dag_fit d nid (dag_state d) inputs;
      Ok (fst (fst r),
          mkDAG (dag_sources d) (dag_sinks d) (snd r) (dag_fit d) (dag_predict d)
                (set_info Fit (snd (fst r)) (dag_info d)) (dag_calls d ++ [Fit]))
  | Predict =>
      r ← dag_predict d nid (dag_state d) inputs;
      Ok (fst r,
          mkDAG (dag_sources d) (dag_sinks d) (dag_state d) (dag_fit d) (dag_predict d)
                (set_info Predict (snd r) (dag_info d)) (dag_calls d ++ [Predict]))
  end.

(** [core.dataflow.visitors.extract_info(dag, [method])]. *)
Definition extract_info (d : DAG) (method : Method) : option NodeInfo :=
  dag_info d method.

Record DagBuilder : Type := mkDagBuilder {
  get_dag : Config -> DAG;
  methods : list string;
  get_column_to_tags_mapping : Config -> Tags
}.

Record ResultBundle : Type := mkResultBundle {
  rb_config : Config;
  rb_result_nid : string;
  rb_method : Method;
  rb_result_df : Table;
  rb_column_to_tags : Tags;
  rb_info : option NodeInfo
}.

(** *** _AbstractDagRunner *)

Record AbstractDagRunner : Type := mkAbstractDagRunner {
  config : Config;
  _dag_builder : DagBuilder;
  dag : DAG;
  _column_to_tags_mapping : Tags;
  _result_nid : string
}.

Definition with_dag (d : DAG) (r : AbstractDagRunner) : AbstractDagRunner :=
  mkAbstractDagRunner (config r) (_dag_builder r) d (_column_to_tags_mapping r)
                      (_result_nid r).

Definition AbstractDagRunner_init (cfg : Config) (dag_builder : DagBuilder)
  : result AbstractDagRunner :=
  let d := get_dag dag_builder cfg in
  let ms := methods dag_builder in
  _ ← dbg.dassert_in "fit" ms "";
  _ ← dbg.dassert_in "predict" ms "";
  let tags := get_column_to_tags_mapping dag_builder cfg in
  nid ← get_unique_sink d;
  Ok (mkAbstractDagRunner cfg dag_builder d tags nid).

Definition _run_dag_helper (r : AbstractDagRunner) (method : Method)
  : result (Table * option NodeInfo * AbstractDagRunner) :=
  let nid := _result_nid r in
  x ← run_leq_node (dag r) nid method;
  let info := extract_info (snd x) method in
  Ok (fst x, info, with_dag (snd x) r).

Definition _to_result_bundle (r : AbstractDagRunner) (method : Method)
  (df_out : Table) (info : option NodeInfo) : ResultBundle :=
  mkResultBundle (config r) (_result_nid r) method df_out
                 (_column_to_tags_mapping r) info.

Definition _run_dag (r : AbstractDagRunner) (method : Method)
  : result (ResultBundle * AbstractDagRunner) :=
  x ← _run_dag_helper r method;
  Ok (_to_result_bundle r method (fst (fst x)) (snd (fst x)), snd x).

(** The loop [for input_nid in self.dag.get_sources(): ...set_..._intervals]. *)
Definition set_all_predict_intervals (ivs : Intervals) (d : DAG) : DAG :=
  foldl (fun d nid => alter_node (set_predict_intervals ivs) nid d) d (get_sources d).

Definition set_all_fit_intervals (ivs : Intervals) (d : DAG) : DAG :=
  foldl (fun d nid => alter_node (set_fit_intervals ivs) nid d) d (get_sources d).

(** [_set_fit_predict_intervals]: [None] returns at once; the check of
    the method name cannot fail for a [Method]. *)
Definition _set_fit_predict_intervals (r : AbstractDagRunner) (method : Method)
  (intervals : option Intervals) : AbstractDagRunner :=
  match intervals with
  | None => r
  | Some ivs =>
      match method with
      | Fit => with_dag (set_all_fit_intervals ivs (dag r)) r
      | Predict => with_dag (set_all_predict_intervals ivs (dag r)) r
      end
  end.

(** *** FitPredictDagRunner *)

Definition FitPredictDagRunner_set_fit_intervals (r : AbstractDagRunner)
  (intervals : option Intervals) : AbstractDagRunner :=
  _set_fit_predict_intervals r Fit intervals.

Definition FitPredictDagRunner_set_predict_intervals (r : AbstractDagRunner)
  (intervals : option Intervals) : AbstractDagRunner :=
  _set_fit_predict_intervals r Predict intervals.

Definition FitPredictDagRunner_fit (r : AbstractDagRunner)
  : result (ResultBundle * AbstractDagRunner) := _run_dag r Fit.

Definition FitPredictDagRunner_predict (r : AbstractDagRunner)
  : result (ResultBundle * AbstractDagRunner) := _run_dag r Predict.

(** *** RollingFitPredictDagRunner *)

Definition _generate_retraining_datetimes (start end_ : Timestamp)
  (retraining_freq : string) (retraining_lookback : Z) : result (list Timestamp) :=
  grid ← date_range start end_ retraining_freq;
  _ ← dbg.dassert (negb (bool_decide (grid = [])))
        "Not enough data for requested training schedule!";
  _ ← dbg.dassert_lt retraining_lookback (Z.of_nat (length grid))
        ("Input data does not have " +:+ pretty retraining_lookback +:+ " periods");
  let lookback := pretty retraining_lookback +:+ retraining_freq in
  idx ← index_shift grid lookback;
  let idx := filter (fun t => t < end_) idx in
  _ ← dbg.dassert (negb (bool_decide (idx = []))) "";
  Ok idx.

Record RollingFitPredictDagRunner : Type := mkRollingFitPredictDagRunner {
  rolling_base : AbstractDagRunner;
  rolling_start : Timestamp;
  rolling_end : Timestamp;
  _retraining_freq : string;
  _retraining_lookback : Z;
  _retraining_datetimes : list Timestamp
}.

Definition RollingFitPredictDagRunner_init (cfg : Config) (dag_builder : DagBuilder)
  (start end_ : Timestamp) (retraining_freq : string) (retraining_lookback : Z)
  : result RollingFitPredictDagRunner :=
  base ← AbstractDagRunner_init cfg dag_builder;
  dts ← _generate_retraining_datetimes start end_ retraining_freq retraining_lookback;
  Ok (mkRollingFitPredictDagRunner base start end_ retraining_freq
        retraining_lookback dts).

Definition rolling_with_base (b : AbstractDagRunner) (r : RollingFitPredictDagRunner)
  : RollingFitPredictDagRunner :=
  mkRollingFitPredictDagRunner b (rolling_start r) (rolling_end r) (_retraining_freq r)
    (_retraining_lookback r) (_retraining_datetimes r).

Definition _run_fit (r : RollingFitPredictDagRunner) (interval : Interval)
  : result (ResultBundle * RollingFitPredictDagRunner) :=
  let base := with_dag (set_all_fit_intervals [interval] (dag (rolling_base r)))
                       (rolling_base r) in
  x ← _run_dag_helper base Fit;
  Ok (_to_result_bundle base Fit (fst (fst x)) (snd (fst x)),
      rolling_with_base (snd x) r).

(** [df_out.loc[oos_start:]]: on an index in ascending order, the rows from
    [oos_start] on, that label included.  What pandas does on an index in
    another order is left open. *)
Variable loc_from_unsorted : Timestamp -> Table -> result Table.

Definition loc_from (oos_start : Timestamp) (df : Table) : result Table :=
  if bool_decide (Sorted Z.le (fst <$> df))
  then Ok (filter (fun row => oos_start <= fst row) df)
  else loc_from_unsorted oos_start df.

Definition _run_predict (r : RollingFitPredictDagRunner) (interval : Interval)
  (oos_start : Timestamp) : result (ResultBundle * RollingFitPredictDagRunner) :=
  let base := with_dag (set_all_predict_intervals [interval] (dag (rolling_base r)))
                       (rolling_base r) in
  x ← _run_dag_helper base Predict;
  df_out ← loc_from oos_start (fst (fst x));
  Ok (_to_result_bundle base Predict df_out (snd (fst x)),
      rolling_with_base (snd x) r).

Definition fit_predict_at_datetime (r : RollingFitPredictDagRunner)
  (datetime_ : Timestamp)
  : result (ResultBundle * ResultBundle * RollingFitPredictDagRunner) :=
  idx ← date_range_end datetime_ (_retraining_freq r) (_retraining_lookback r);
  start_datetime ← match head idx with
                   | Some t => Ok t
                   | None => Err (KeyError "index 0 is out of bounds")
                   end;
  let fit_interval := (Some start_datetime, Some datetime_) in
  fitted ← _run_fit r fit_interval;
  idx ← index_shift idx (_retraining_freq r);
  end_datetime ← match last idx with
                 | Some t => Ok t
                 | None => Err (KeyError "index -1 is out of bounds")
                 end;
  let predict_interval := (Some start_datetime, Some end_datetime) in
  predicted ← _run_predict (snd fitted) predict_interval datetime_;
  Ok (fst fitted, fst predicted, snd predicted).

(** *** IncrementalDagRunner *)

Record IncrementalDagRunner : Type := mkIncrementalDagRunner {
  inc_base : AbstractDagRunner;
  inc_start : Timestamp;
  inc_end : Timestamp;
  inc_freq : string;
  inc_fit_state : FitState;
  _date_range : list Timestamp
}.

Definition inc_with_base (b : AbstractDagRunner) (r : IncrementalDagRunner)
  : IncrementalDagRunner :=
  mkIncrementalDagRunner b (inc_start r) (inc_end r) (inc_freq r)
                         (inc_fit_state r) (_date_range r).

Definition IncrementalDagRunner_init (cfg : Config) (dag_builder : DagBuilder)
  (start end_ : Timestamp) (freq : string) (fit_state : FitState)
  : result IncrementalDagRunner :=
  base ← AbstractDagRunner_init cfg dag_builder;
  let base := with_dag (set_fit_state (dag base) fit_state) base in
  rng ← date_range start end_ freq;
  Ok (mkIncrementalDagRunner base start end_ freq fit_state rng).

Definition predict_at_datetime (r : IncrementalDagRunner) (dt : Timestamp)
  : result (ResultBundle * IncrementalDagRunner) :=
  let interval : Intervals := [(None, Some dt)] in
  let base := with_dag (set_all_predict_intervals interval (dag (inc_base r)))
                       (inc_base r) in
  x ← _run_dag base Predict;
  Ok (fst x, inc_with_base (snd x) r).

(** The generator [predict], run to exhaustion. *)
Fixpoint predict_over (dts : list Timestamp) (r : IncrementalDagRunner)
  : result (list ResultBundle * IncrementalDagRunner) :=
  match dts with
  | [] => Ok ([], r)
  | end_dt :: rest =>
      x ← predict_at_datetime r end_dt;
      y ← predict_over rest (snd x);
      Ok (fst x :: fst y, snd y)
  end.

Definition predict (r : IncrementalDagRunner)
  : result (list ResultBundle * IncrementalDagRunner) :=
  predict_over (_date_range r) r.

(** *** RealTimeDagRunner *)



(** [core.dataflow.real_time.execute_with_real_time_loop] is an external
    collaborator: it decides when the loop wakes up.  [wake_ups] gives the
    events it fires for a loop configuration; at each of them it awaits the
    workload once and yields the event with the workload's result. *)
Variable wake_ups : LoopKwargs -> list Event.



(** *** What a prediction as of [t] may depend on *)

Definition rows_upto (t : Timestamp) (tb : Table) : Table :=
  filter (fun r => fst r <= t) tb.

Definition rows_between (lo hi : Timestamp) (tb : Table) : Table :=
  filter (fun r => lo <= fst r <= hi) tb.

(** Two graphs have the same source nodes, and the data of each agrees on
    all rows with timestamp at most [t]. *)
Definition same_inputs_upto (t : Timestamp) (d1 d2 : DAG) : Prop :=
  forall nid,
    (fun n => rows_upto t (ds_data n)) <$> (dag_sources d1 !! nid)
    = (fun n => rows_upto t (ds_data n)) <$> (dag_sources d2 !! nid).

Definition same_graph (d1 d2 : DAG) : Prop :=
  dag_sinks d1 = dag_sinks d2 /\ dag_state d1 = dag_state d2
  /\ dag_predict d1 = dag_predict d2.

Definition same_runner (r1 r2 : AbstractDagRunner) : Prop :=
  config r1 = config r2
  /\ _column_to_tags_mapping r1 = _column_to_tags_mapping r2
  /\ _result_nid r1 = _result_nid r2
  /\ same_graph (dag r1) (dag r2).

Definition bundle_of {S : Type} (x : result (ResultBundle * S)) : result ResultBundle :=
  match x with Ok y => Ok (fst y) | Err e => Err e end.

Definition bundles_of {S : Type} (x : result (list ResultBundle * S))
  : result (list ResultBundle) :=
  match x with Ok y => Ok (fst y) | Err e => Err e end.

(** *** Facts about the graph model *)

Lemma foldl_alter_lookup {A : Type} (f : A -> A) (l : list string) :
  forall (m : gmap string A) (k : string),
    NoDup l ->
    foldl (fun m n => alter f n m) m l !! k
    = if decide (k ∈ l) then f <$> m !! k else m !! k.
Proof.
  induction l as [|a l IH]; intros m k Hnd.
  - simpl. destruct (decide (k ∈ [])) as [Hin|_]; [|done].
    by apply not_elem_of_nil in Hin.
  - pose proof (NoDup_cons_1_1 _ _ Hnd) as Ha.
    apply NoDup_cons_1_2 in Hnd.
    cbn [foldl]. rewrite IH by done.
    destruct (decide (k = a)) as [->|Hne].
    + rewrite lookup_alter_eq.
      destruct (decide (a ∈ l)) as [?|_]; [done|].
      destruct (decide (a ∈ a :: l)) as [_|Hn]; [done|].
      exfalso; apply Hn, list_elem_of_here.
    + rewrite lookup_alter_ne by done.
      destruct (decide (k ∈ l)) as [Hin|Hnin];
        destruct (decide (k ∈ a :: l)) as [Hin'|Hnin']; try done.
      * exfalso; apply Hnin'. by apply list_elem_of_further.
      * exfalso. apply elem_of_cons in Hin' as [?|?]; done.
Qed.

Lemma foldl_alter_all {A : Type} (f : A -> A) (m : gmap string A) :
  foldl (fun m n => alter f n m) m (elements (dom m)) = f <$> m.
Proof.
  apply map_eq; intros k.
  rewrite foldl_alter_lookup by apply NoDup_elements.
  rewrite lookup_fmap.
  destruct (decide (k ∈ elements (dom m))) as [Hin|Hnin]; [done|].
  rewrite elem_of_elements, elem_of_dom in Hnin.
  destruct (m !! k) eqn:E; [|done].
  exfalso; apply Hnin; eauto.
Qed.

Lemma foldl_alter_node (f : DataSource -> DataSource) (l : list string) :
  forall d : DAG,
    foldl (fun d nid => alter_node f nid d) d l
    = mkDAG (foldl (fun m n => alter f n m) (dag_sources d) l) (dag_sinks d)
            (dag_state d) (dag_fit d) (dag_predict d) (dag_info d) (dag_calls d).
Proof.
  induction l as [|a l IH]; intros d; simpl.
  - by destruct d.
  - by rewrite IH.
Qed.

Lemma set_all_predict_intervals_eq (ivs : Intervals) (d : DAG) :
  set_all_predict_intervals ivs d
  = mkDAG (set_predict_intervals ivs <$> dag_sources d) (dag_sinks d)
          (dag_state d) (dag_fit d) (dag_predict d) (dag_info d) (dag_calls d).
Proof.
  unfold set_all_predict_intervals, get_sources.
  rewrite foldl_alter_node. by rewrite foldl_alter_all.
Qed.

(** A source whose predict interval is [(None, t)] shows exactly the rows
    with timestamp at most [t]. *)
Lemma ds_output_upto (t : Timestamp) (n : DataSource) :
  ds_output Predict (set_predict_intervals [(None, Some t)] n)
  = rows_upto t (ds_data n).
Proof.
  unfold ds_output, rows_upto; simpl.
  apply list_filter_iff; intros [ts row]; simpl.
  unfold in_interval; simpl.
  rewrite orb_false_r. apply Z.leb_le.
Qed.

Lemma predict_inputs_upto (t : Timestamp) (d : DAG) :
  ds_output Predict <$> dag_sources (set_all_predict_intervals [(None, Some t)] d)
  = (fun n => rows_upto t (ds_data n)) <$> dag_sources d.
Proof.
  rewrite set_all_predict_intervals_eq; simpl.
  rewrite <- map_fmap_compose.
  apply map_fmap_ext; intros nid n _; simpl.
  apply ds_output_upto.
Qed.

Lemma same_inputs_upto_fmap (t : Timestamp) (d1 d2 : DAG) :
  same_inputs_upto t d1 d2 ->
  (fun n => rows_upto t (ds_data n)) <$> dag_sources d1
  = (fun n => rows_upto t (ds_data n)) <$> dag_sources d2.
Proof.
  intros H. apply map_eq; intros nid. rewrite !lookup_fmap. apply H.
Qed.

Lemma rows_upto_mono (t t' : Timestamp) (tb1 tb2 : Table) :
  t' <= t -> rows_upto t tb1 = rows_upto t tb2 ->
  rows_upto t' tb1 = rows_upto t' tb2.
Proof.
  intros Hle H. unfold rows_upto in *.
  assert (Hf : forall tb : Table,
             filter (fun r => fst r <= t') tb
             = filter (fun r => fst r <= t') (filter (fun r => fst r <= t) tb)).
  { intros tb. symmetry. apply list_filter_filter_l. intros r; lia. }
  rewrite (Hf tb1), (Hf tb2). by rewrite H.
Qed.

Lemma same_inputs_upto_mono (t t' : Timestamp) (d1 d2 : DAG) :
  t' <= t -> same_inputs_upto t d1 d2 -> same_inputs_upto t' d1 d2.
Proof.
  intros Hle H nid. specialize (H nid).
  destruct (dag_sources d1 !! nid) as [n1|], (dag_sources d2 !! nid) as [n2|];
    simpl in *; try done.
  f_equal. apply (rows_upto_mono t); [done | congruence].
Qed.

Lemma _run_dag_predict_eq (b : AbstractDagRunner) :
  _run_dag b Predict
  = match dag_predict (dag b) (_result_nid b) (dag_state (dag b))
            (ds_output Predict <$> dag_sources (dag b)) with
    | Ok out =>
        Ok (mkResultBundle (config b) (_result_nid b) Predict (fst out)
              (_column_to_tags_mapping b) (Some (snd out)),
            with_dag (mkDAG (dag_sources (dag b)) (dag_sinks (dag b))
                        (dag_state (dag b)) (dag_fit (dag b)) (dag_predict (dag b))
                        (set_info Predict (snd out) (dag_info (dag b)))
                        (dag_calls (dag b) ++ [Predict])) b)
    | Err e => Err e
    end.
Proof.
  unfold _run_dag, _run_dag_helper, run_leq_node.
  destruct (dag_predict _ _ _ _) as [[df info]|e]; reflexivity.
Qed.

(** The prediction as of [t] is the graph's [predict] applied to the rows
    of every source with timestamp at most [t]; afterwards every source
    node carries the predict interval [(None, t)]. *)
Lemma predict_at_datetime_eq (r : IncrementalDagRunner) (t : Timestamp) :
  let b := inc_base r in
  predict_at_datetime r t
  = match dag_predict (dag b) (_result_nid b) (dag_state (dag b))
            ((fun n => rows_upto t (ds_data n)) <$> dag_sources (dag b)) with
    | Ok out =>
        Ok (mkResultBundle (config b) (_result_nid b) Predict (fst out)
              (_column_to_tags_mapping b) (Some (snd out)),
            inc_with_base
              (with_dag (mkDAG (set_predict_intervals [(None, Some t)]
                                  <$> dag_sources (dag b))
                          (dag_sinks (dag b)) (dag_state (dag b)) (dag_fit (dag b))
                          (dag_predict (dag b))
                          (set_info Predict (snd out) (dag_info (dag b)))
                          (dag_calls (dag b) ++ [Predict])) b) r)
    | Err e => Err e
    end.
Proof.
  intros b. unfold predict_at_datetime. fold b.
  rewrite _run_dag_predict_eq.
  cbn [dag with_dag _result_nid config _column_to_tags_mapping].
  rewrite predict_inputs_upto.
  rewrite set_all_predict_intervals_eq.
  cbn [dag_state dag_predict dag_sources dag_sinks dag_fit dag_info dag_calls].
  destruct (dag_predict _ _ _ _) as [out|e]; reflexivity.
Qed.

Lemma same_inputs_upto_refl (t : Timestamp) (d : DAG) : same_inputs_upto t d d.
Proof. by intros nid. Qed.

Lemma same_inputs_upto_trans (t : Timestamp) (d1 d2 d3 : DAG) :
  same_inputs_upto t d1 d2 -> same_inputs_upto t d2 d3 -> same_inputs_upto t d1 d3.
Proof. intros H1 H2 nid. by rewrite H1. Qed.

Lemma same_inputs_upto_sym (t : Timestamp) (d1 d2 : DAG) :
  same_inputs_upto t d1 d2 -> same_inputs_upto t d2 d1.
Proof. intros H nid. by rewrite H. Qed.

(** Predicting touches neither the data of the sources nor what the result
    bundle is assembled from. *)
Lemma predict_at_datetime_frame (r r' : IncrementalDagRunner) (t : Timestamp)
  (bundle : ResultBundle) :
  predict_at_datetime r t = Ok (bundle, r') ->
  same_runner (inc_base r) (inc_base r')
  /\ (forall t0, same_inputs_upto t0 (dag (inc_base r)) (dag (inc_base r')))
  /\ (forall nid n, dag_sources (dag (inc_base r')) !! nid = Some n ->
        ds_predict_intervals n = Some [(None, Some t)]).
Proof.
  rewrite predict_at_datetime_eq.
  destruct (dag_predict _ _ _ _) as [out|e]; [|done].
  intros [= <- <-]. simpl. split; [by repeat split|]. split.
  - intros t0 nid. simpl. rewrite lookup_fmap.
    by destruct (dag_sources (dag (inc_base r)) !! nid).
  - intros nid n. rewrite lookup_fmap.
    destruct (dag_sources (dag (inc_base r)) !! nid); [|done].
    by intros [= <-].
Qed.

Lemma bundle_of_predict_at_datetime (r1 r2 : IncrementalDagRunner) (t : Timestamp) :
  same_runner (inc_base r1) (inc_base r2) ->
  same_inputs_upto t (dag (inc_base r1)) (dag (inc_base r2)) ->
  bundle_of (predict_at_datetime r1 t) = bundle_of (predict_at_datetime r2 t).
Proof.
  intros (Hc & Ht & Hn & Hs & Hst & Hp) Hin.
  rewrite !predict_at_datetime_eq.
  rewrite (same_inputs_upto_fmap _ _ _ Hin).
  rewrite Hc, Ht, Hn, Hst, Hp.
  destruct (dag_predict _ _ _ _) as [out|e]; reflexivity.
Qed.

(** C1. For a prediction that [IncrementalDagRunner] issues as of [t]: the
    runner sets the predict interval of every source node to [(None, t)]
    before it runs the graph, and the result bundle depends only on rows
    with timestamp at most [t].  Two runners over the same graph whose
    source data agree on all rows with timestamp at most [t] (and differ
    arbitrarily after [t]) produce the same result, be it a bundle or an
    error. *)
Theorem incremental_non_anticipation (r1 r2 : IncrementalDagRunner) (t : Timestamp) :
  same_runner (inc_base r1) (inc_base r2) ->
  same_inputs_upto t (dag (inc_base r1)) (dag (inc_base r2)) ->
  bundle_of (predict_at_datetime r1 t) = bundle_of (predict_at_datetime r2 t)
  /\ (forall bundle r1',
        predict_at_datetime r1 t = Ok (bundle, r1') ->
        forall nid n, dag_sources (dag (inc_base r1')) !! nid = Some n ->
                      ds_predict_intervals n = Some [(None, Some t)])
  /\ (forall nid, ds_output Predict
                    <$> dag_sources (set_all_predict_intervals [(None, Some t)]
                                       (dag (inc_base r1))) !! nid
                  = (fun n => rows_upto t (ds_data n))
                    <$> dag_sources (dag (inc_base r1)) !! nid).
Proof.
  intros Hr Hin. split; [by apply bundle_of_predict_at_datetime|]. split.
  - intros bundle r1' Hrun. by apply (predict_at_datetime_frame _ _ _ _ Hrun).
  - intros nid. rewrite <- !lookup_fmap. by rewrite predict_inputs_upto.
Qed.

Lemma same_runner_trans (a b c : AbstractDagRunner) :
  same_runner a b -> same_runner b c -> same_runner a c.
Proof.
  intros (?&?&?&?&?&?) (?&?&?&?&?&?). repeat split; congruence.
Qed.

Lemma same_runner_sym (a b : AbstractDagRunner) : same_runner a b -> same_runner b a.
Proof. intros (?&?&?&?&?&?). repeat split; congruence. Qed.

(** The whole filtration: as long as every prediction time is at most [t],
    the sequence of bundles the generator yields is the same for two data
    sets that agree up to [t]. *)
Lemma predict_over_non_anticipating (dts : list Timestamp) (t : Timestamp) :
  Forall (fun dt => dt <= t) dts ->
  forall r1 r2 : IncrementalDagRunner,
    same_runner (inc_base r1) (inc_base r2) ->
    same_inputs_upto t (dag (inc_base r1)) (dag (inc_base r2)) ->
    bundles_of (predict_over dts r1) = bundles_of (predict_over dts r2).
Proof.
  induction 1 as [|dt dts Hdt Hall IH]; intros r1 r2 Hr Hin; [done|].
  cbn [predict_over].
  pose proof (bundle_of_predict_at_datetime r1 r2 dt Hr
                (same_inputs_upto_mono _ _ _ _ Hdt Hin)) as Hb.
  destruct (predict_at_datetime r1 dt) as [[b1 r1']|e1] eqn:E1;
    destruct (predict_at_datetime r2 dt) as [[b2 r2']|e2] eqn:E2;
    simpl in Hb; try done; [|by inversion Hb].
  injection Hb as ->.
  destruct (predict_at_datetime_frame _ _ _ _ E1) as (Hr1 & Hd1 & _).
  destruct (predict_at_datetime_frame _ _ _ _ E2) as (Hr2 & Hd2 & _).
  assert (Hr' : same_runner (inc_base r1') (inc_base r2')).
  { eapply same_runner_trans; [apply same_runner_sym, Hr1|].
    eapply same_runner_trans; [apply Hr | apply Hr2]. }
  assert (Hin' : same_inputs_upto t (dag (inc_base r1')) (dag (inc_base r2'))).
  { eapply same_inputs_upto_trans; [apply same_inputs_upto_sym, Hd1|].
    eapply same_inputs_upto_trans; [apply Hin | apply Hd2]. }
  specialize (IH r1' r2' Hr' Hin').
  simpl.
  destruct (predict_over dts r1') as [[bs1 ?]|?], (predict_over dts r2') as [[bs2 ?]|?];
    simpl in *; congruence.
Qed.

(** *** The real-time runner *)


Lemma AbstractDagRunner_init_dag (cfg : Config) (b : DagBuilder) (r : AbstractDagRunner) :
  AbstractDagRunner_init cfg b = Ok r -> dag r = get_dag b cfg.
Proof.
  unfold AbstractDagRunner_init.
  destruct (dbg.dassert_in "fit" _ _); [|done]. simpl.
  destruct (dbg.dassert_in "predict" _ _); [|done]. simpl.
  destruct (get_unique_sink _); [|done]. simpl.
  by intros [= <-].
Qed.



(** *** What every runner constructor checks first *)


(** *** The incremental runner's range *)

Lemma predict_over_shape (dts : list Timestamp) :
  forall (r r' : IncrementalDagRunner) (bundles : list ResultBundle),
    predict_over dts r = Ok (bundles, r') ->
    length bundles = length dts
    /\ Forall (fun x => rb_method x = Predict) bundles
    /\ dag_state (dag (inc_base r')) = dag_state (dag (inc_base r))
    /\ dag_calls (dag (inc_base r'))
       = dag_calls (dag (inc_base r)) ++ replicate (length dts) Predict.
Proof.
  induction dts as [|dt dts IH]; intros r r' bundles; cbn [predict_over].
  - intros [= <- <-]. simpl. by rewrite app_nil_r.
  - rewrite predict_at_datetime_eq.
    destruct (dag_predict _ _ _ _) as [out|e]; [|done]. cbn [mbind result_bind snd fst].
    match goal with
    | |- context [predict_over dts ?x] =>
        destruct (predict_over dts x) as [[bs r'']|e] eqn:E
    end; [|done].
    cbn [mbind result_bind snd fst]. intros [= <- <-].
    destruct (IH _ _ _ E) as (Hlen & Hm & Hst & Hcalls). simpl in *.
    rewrite Hst, Hcalls, <- !app_assoc. simpl.
    repeat split; try done.
    + by rewrite Hlen.
    + by constructor.
Qed.

(** X2. The incremental runner restores the fit-state it is given and
    predicts once for each timestamp [start, start + freq, ...] up to
    [end_]: a run of the generator that completes yields exactly one bundle
    per timestamp, each of method "predict"; it runs the graph with
    [predict] only, so the learned state is still the restored fit-state
    afterwards.  A range that is empty ([end_] before [start]) yields no
    bundle and leaves the runner as it is, the graph not being run. *)
Theorem incremental_predict_covers_range (cfg : Config) (b : DagBuilder)
  (start end_ : Timestamp) (freq : string) (o : DateOffset) (fit_state : FitState)
  (r : IncrementalDagRunner) :
  IncrementalDagRunner_init cfg b start end_ freq fit_state = Ok r ->
  to_offset freq = Ok o -> 0 < step o ->
  dag_state (dag (inc_base r)) = fit_state
  /\ _date_range r = (if start <=? end_ then arith_range start end_ (step o) else [])
  /\ (end_ < start -> predict r = Ok ([], r))
  /\ (forall bundles r',
        predict r = Ok (bundles, r') ->
        length bundles = (if start <=? end_
                          then S (Z.to_nat ((end_ - start) / step o)) else 0%nat)
        /\ Forall (fun x => rb_method x = Predict) bundles
        /\ dag_state (dag (inc_base r')) = fit_state
        /\ dag_calls (dag (inc_base r'))
           = dag_calls (get_dag b cfg) ++ replicate (length bundles) Predict).
Proof.
  intros Hinit Ho Hpos. unfold IncrementalDagRunner_init in Hinit.
  destruct (AbstractDagRunner_init cfg b) as [base|e] eqn:Ebase; [|done].
  pose proof (AbstractDagRunner_init_dag _ _ _ Ebase) as Hdag.
  cbn [mbind result_bind] in Hinit. unfold date_range in Hinit. rewrite Ho in Hinit.
  cbn [mbind result_bind] in Hinit. unfold date_range_offset in Hinit.
  rewrite (proj2 (Z.eqb_neq _ _)) in Hinit by lia.
  rewrite (proj2 (Z.ltb_lt _ _) Hpos) in Hinit.
  cbn [mbind result_bind] in Hinit. injection Hinit as <-.
  cbn [inc_base dag with_dag set_fit_state dag_state _date_range].
  split; [done|]. split; [done|]. split.
  - intros Hlt. unfold predict. cbn [_date_range].
    by rewrite (proj2 (Z.leb_gt _ _) Hlt).
  - intros bundles r' Hrun. unfold predict in Hrun. cbn [_date_range] in Hrun.
    destruct (predict_over_shape _ _ _ _ Hrun) as (Hlen & Hm & Hst & Hcalls).
    cbn [inc_base dag with_dag set_fit_state dag_state dag_calls] in *.
    rewrite Hlen, Hcalls, Hdag.
    split; [by destruct (start <=? end_); rewrite ?arith_range_length|].
    by repeat split.
Qed.

(** *** The windows of a rolling fit and predict *)

Lemma set_all_fit_intervals_eq (ivs : Intervals) (d : DAG) :
  set_all_fit_intervals ivs d
  = mkDAG (set_fit_intervals ivs <$> dag_sources d) (dag_sinks d)
          (dag_state d) (dag_fit d) (dag_predict d) (dag_info d) (dag_calls d).
Proof.
  unfold set_all_fit_intervals, get_sources.
  rewrite foldl_alter_node. by rewrite foldl_alter_all.
Qed.

Lemma ds_output_between_fit (lo hi : Timestamp) (n : DataSource) :
  ds_output Fit (set_fit_intervals [(Some lo, Some hi)] n)
  = rows_between lo hi (ds_data n).
Proof.
  unfold ds_output, rows_between; simpl.
  apply list_filter_iff; intros [ts row]; simpl.
  unfold in_interval; simpl.
  rewrite orb_false_r, andb_true_iff, !Z.leb_le. done.
Qed.

Lemma ds_output_between_predict (lo hi : Timestamp) (n : DataSource) :
  ds_output Predict (set_predict_intervals [(Some lo, Some hi)] n)
  = rows_between lo hi (ds_data n).
Proof.
  unfold ds_output, rows_between; simpl.
  apply list_filter_iff; intros [ts row]; simpl.
  unfold in_interval; simpl.
  rewrite orb_false_r, andb_true_iff, !Z.leb_le. done.
Qed.

Lemma date_range_end_ends (dt : Timestamp) (freq : string) (o : DateOffset) (n : Z) :
  to_offset freq = Ok o -> step o <> 0 -> 1 <= n ->
  exists idx,
    date_range_end dt freq n = Ok idx
    /\ head idx = Some (dt - (n - 1) * step o)
    /\ last ((fun t => t + step o) <$> idx) = Some (dt + step o).
Proof.
  intros Ho Hs Hn. unfold date_range_end. rewrite Ho. cbn [mbind result_bind].
  rewrite (proj2 (Z.eqb_neq _ _) Hs). eexists. split; [reflexivity|].
  destruct (Z.to_nat n) as [|k] eqn:Ek; [lia|]. split.
  - cbn [seq fmap list_fmap head]. f_equal. lia.
  - rewrite seq_S, !fmap_app. cbn [fmap list_fmap]. rewrite last_snoc. f_equal. lia.
Qed.

Lemma _run_fit_eq (r : RollingFitPredictDagRunner) (lo hi : Timestamp) :
  let b := rolling_base r in
  _run_fit r (Some lo, Some hi)
  = match dag_fit (dag b) (_result_nid b) (dag_state (dag b))
            ((fun n => rows_between lo hi (ds_data n)) <$> dag_sources (dag b)) with
    | Ok out =>
        Ok (mkResultBundle (config b) (_result_nid b) Fit (fst (fst out))
              (_column_to_tags_mapping b) (Some (snd (fst out))),
            rolling_with_base
              (with_dag (mkDAG (set_fit_intervals [(Some lo, Some hi)]
                                  <$> dag_sources (dag b))
                          (dag_sinks (dag b)) (snd out) (dag_fit (dag b))
                          (dag_predict (dag b))
                          (set_info Fit (snd (fst out)) (dag_info (dag b)))
                          (dag_calls (dag b) ++ [Fit])) b) r)
    | Err e => Err e
    end.
Proof.
  intros b. unfold _run_fit, _run_dag_helper, run_leq_node. fold b.
  rewrite set_all_fit_intervals_eq.
  cbn [dag with_dag _result_nid dag_sources dag_state dag_fit dag_sinks dag_predict
       dag_info dag_calls].
  rewrite <- map_fmap_compose.
  rewrite (map_fmap_ext (ds_output Fit ∘ set_fit_intervals [(Some lo, Some hi)])
             (fun n => rows_between lo hi (ds_data n)))
    by (intros; apply ds_output_between_fit).
  destruct (dag_fit _ _ _ _) as [[[df info] st]|e]; reflexivity.
Qed.

Lemma _run_predict_eq (r : RollingFitPredictDagRunner) (lo hi oos_start : Timestamp) :
  let b := rolling_base r in
  fst <$> _run_predict r (Some lo, Some hi) oos_start
  = (out ← dag_predict (dag b) (_result_nid b) (dag_state (dag b))
             ((fun n => rows_between lo hi (ds_data n)) <$> dag_sources (dag b));
     df_out ← loc_from oos_start (fst out);
     Ok (mkResultBundle (config b) (_result_nid b) Predict df_out
           (_column_to_tags_mapping b) (Some (snd out)))).
Proof.
  intros b. unfold _run_predict, _run_dag_helper, run_leq_node. fold b.
  rewrite set_all_predict_intervals_eq.
  cbn [dag with_dag _result_nid dag_sources dag_state dag_fit dag_sinks dag_predict
       dag_info dag_calls].
  rewrite <- map_fmap_compose.
  rewrite (map_fmap_ext (ds_output Predict ∘ set_predict_intervals [(Some lo, Some hi)])
             (fun n => rows_between lo hi (ds_data n)))
    by (intros; apply ds_output_between_predict).
  destruct (dag_predict _ _ _ _) as [[df info]|e]; [|done].
  cbn [mbind result_bind fst snd].
  destruct (loc_from oos_start df); reflexivity.
Qed.

Lemma result_fmap_bind {A B C : Type} (m : result A) (f : A -> result B) (g : B -> C) :
  g <$> (m ≫= f) = m ≫= (fun a => g <$> f a).
Proof. by destruct m. Qed.

(** X19. One retraining step of [RollingFitPredictDagRunner], for a
    frequency of positive step [s] and a lookback of [L] periods.  With
    [L <= 0] the step fails.  With [L >= 1] the graph is fitted on the
    source rows with timestamps in [[dt - (L - 1) s, dt]]: [L] grid points,
    that is [L - 1] periods.  Then it predicts, with the state this fit has
    learned, on the rows in [[dt - (L - 1) s, dt + s]], which again include
    the rows it was fitted on; of the predictions, those with an index
    label at or after [dt] are returned, so the row at [dt], which the fit
    has seen, counts as out of sample. *)
Theorem rolling_fit_predict_windows (r : RollingFitPredictDagRunner) (dt : Timestamp)
  (o : DateOffset) :
  to_offset (_retraining_freq r) = Ok o -> 0 < step o ->
  let b := rolling_base r in
  let lo := dt - (_retraining_lookback r - 1) * step o in
  (_retraining_lookback r <= 0 -> is_ok (fit_predict_at_datetime r dt) = false)
  /\ (1 <= _retraining_lookback r ->
      fst <$> fit_predict_at_datetime r dt
      = (fitted ← dag_fit (dag b) (_result_nid b) (dag_state (dag b))
                    ((fun n => rows_between lo dt (ds_data n)) <$> dag_sources (dag b));
         predicted ← dag_predict (dag b) (_result_nid b) (snd fitted)
                       ((fun n => rows_between lo (dt + step o) (ds_data n))
                          <$> dag_sources (dag b));
         df_out ← loc_from dt (fst predicted);
         Ok (mkResultBundle (config b) (_result_nid b) Fit (fst (fst fitted))
               (_column_to_tags_mapping b) (Some (snd (fst fitted))),
             mkResultBundle (config b) (_result_nid b) Predict df_out
               (_column_to_tags_mapping b) (Some (snd predicted)))))
  /\ (forall df : Table,
        Sorted Z.le (fst <$> df) ->
        loc_from dt df = Ok (filter (fun row => dt <= fst row) df)).
Proof.
  intros Ho Hpos b lo. split; [|split].
  - intros Hle. unfold fit_predict_at_datetime, date_range_end.
    rewrite Ho. cbn [mbind result_bind].
    rewrite (proj2 (Z.eqb_neq _ _)) by lia.
    replace (Z.to_nat (_retraining_lookback r)) with 0%nat by lia. done.
  - intros Hge. unfold fit_predict_at_datetime.
    destruct (date_range_end_ends dt _ o _ Ho ltac:(lia) Hge) as (idx & -> & Hhead & Hlast).
    cbn [mbind result_bind]. rewrite Hhead. cbn [mbind result_bind].
    rewrite _run_fit_eq. fold b. fold lo.
    destruct (dag_fit (dag b) (_result_nid b) (dag_state (dag b)) _)
      as [[[df_fit info_fit] state]|e]; [|done].
    cbn [mbind result_bind fst snd].
    unfold index_shift. rewrite Ho. cbn [mbind result_bind].
    unfold Timestamp in *. rewrite Hlast. cbn [mbind result_bind].
    rewrite result_fmap_bind.
    pose proof (_run_predict_eq
                  (rolling_with_base
                     (with_dag (mkDAG (set_fit_intervals [(Some lo, Some dt)]
                                         <$> dag_sources (dag b))
                                 (dag_sinks (dag b)) state (dag_fit (dag b))
                                 (dag_predict (dag b))
                                 (set_info Fit info_fit (dag_info (dag b)))
                                 (dag_calls (dag b) ++ [Fit])) b) r)
                  lo (dt + step o) dt) as Hp.
    cbn [rolling_with_base rolling_base with_dag dag dag_sources dag_state dag_predict
         _result_nid config _column_to_tags_mapping] in Hp.
    rewrite <- map_fmap_compose in Hp.
    rewrite (map_fmap_ext ((fun n => rows_between lo (dt + step o) (ds_data n))
                             ∘ set_fit_intervals [(Some lo, Some dt)])
               (fun n => rows_between lo (dt + step o) (ds_data n))) in Hp
      by done.
    destruct (_run_predict _ _ _) as [[bundle r']|e]; cbn [fmap result_fmap fst] in *.
    + destruct (dag_predict (dag b) (_result_nid b) state _) as [[df_pred info_pred]|e];
        [|done].
      cbn [mbind result_bind fst snd] in *.
      destruct (loc_from dt df_pred); [|done]. by injection Hp as ->.
    + destruct (dag_predict (dag b) (_result_nid b) state _) as [[df_pred info_pred]|e'];
        [|by injection Hp as ->].
      cbn [mbind result_bind fst snd] in *.
      destruct (loc_from dt df_pred); [done|]. by injection Hp as ->.
  - intros df Hsorted. unfold loc_from. by rewrite bool_decide_eq_true_2.
Qed.

(** *** The intervals of FitPredictDagRunner *)

Lemma _run_dag_fit_eq (b : AbstractDagRunner) :
  _run_dag b Fit
  = match dag_fit (dag b) (_result_nid b) (dag_state (dag b))
            (ds_output Fit <$> dag_sources (dag b)) with
    | Ok out =>
        Ok (mkResultBundle (config b) (_result_nid b) Fit (fst (fst out))
              (_column_to_tags_mapping b) (Some (snd (fst out))),
            with_dag (mkDAG (dag_sources (dag b)) (dag_sinks (dag b))
                        (snd out) (dag_fit (dag b)) (dag_predict (dag b))
                        (set_info Fit (snd (fst out)) (dag_info (dag b)))
                        (dag_calls (dag b) ++ [Fit])) b)
    | Err e => Err e
    end.
Proof.
  unfold _run_dag, _run_dag_helper, run_leq_node.
  destruct (dag_fit _ _ _ _) as [[[df info] st]|e]; reflexivity.
Qed.

(** X24. The intervals of [FitPredictDagRunner].  Intervals that have been
    set stay until others are set: [set_fit_intervals(None)] and
    [set_predict_intervals(None)] change nothing, they do not lift a
    restriction.  After fit intervals [fi] and predict intervals [pi] have
    been set, in either order, [fit] runs the graph on the rows of every
    source that lie in one of [fi] and [predict] on those in one of [pi],
    with the state the graph holds; the fit intervals have no effect on
    [predict] nor the predict intervals on [fit]. *)
Theorem fit_predict_runner_intervals (r : AbstractDagRunner) (fi pi : Intervals) :
  let r' := FitPredictDagRunner_set_predict_intervals
              (FitPredictDagRunner_set_fit_intervals r (Some fi)) (Some pi) in
  let rows ivs := (fun n : DataSource =>
                     filter (fun row => existsb (in_interval (fst row)) ivs = true)
                            (ds_data n)) <$> dag_sources (dag r) in
  FitPredictDagRunner_set_fit_intervals r' None = r'
  /\ FitPredictDagRunner_set_predict_intervals r' None = r'
  /\ FitPredictDagRunner_set_fit_intervals
       (FitPredictDagRunner_set_predict_intervals r (Some pi)) (Some fi) = r'
  /\ fst <$> FitPredictDagRunner_fit r'
     = (out ← dag_fit (dag r) (_result_nid r) (dag_state (dag r)) (rows fi);
        Ok (mkResultBundle (config r) (_result_nid r) Fit (fst (fst out))
              (_column_to_tags_mapping r) (Some (snd (fst out)))))
  /\ fst <$> FitPredictDagRunner_predict r'
     = (out ← dag_predict (dag r) (_result_nid r) (dag_state (dag r)) (rows pi);
        Ok (mkResultBundle (config r) (_result_nid r) Predict (fst out)
              (_column_to_tags_mapping r) (Some (snd out)))).
Proof.
  intros r' rows.
  assert (Hr' : r' = with_dag
                       (mkDAG ((fun n => mkDataSource (ds_data n) (Some fi) (Some pi))
                                 <$> dag_sources (dag r))
                          (dag_sinks (dag r)) (dag_state (dag r)) (dag_fit (dag r))
                          (dag_predict (dag r)) (dag_info (dag r)) (dag_calls (dag r)))
                       r).
  { subst r'. unfold FitPredictDagRunner_set_predict_intervals,
      FitPredictDagRunner_set_fit_intervals, _set_fit_predict_intervals.
    rewrite set_all_predict_intervals_eq. cbn [dag with_dag].
    rewrite set_all_fit_intervals_eq.
    cbn [dag_sources dag_sinks dag_state dag_fit dag_predict dag_info dag_calls].
    unfold with_dag. cbn [config _dag_builder _column_to_tags_mapping _result_nid].
    do 2 f_equal. by rewrite <- map_fmap_compose. }
  split; [done|]. split; [done|]. split.
  { rewrite Hr'. unfold FitPredictDagRunner_set_predict_intervals,
      FitPredictDagRunner_set_fit_intervals, _set_fit_predict_intervals.
    rewrite set_all_fit_intervals_eq. cbn [dag with_dag].
    rewrite set_all_predict_intervals_eq.
    cbn [dag_sources dag_sinks dag_state dag_fit dag_predict dag_info dag_calls].
    unfold with_dag. cbn [config _dag_builder _column_to_tags_mapping _result_nid].
    do 2 f_equal. by rewrite <- map_fmap_compose. }
  rewrite Hr'. split.
  - unfold FitPredictDagRunner_fit. rewrite _run_dag_fit_eq.
    cbn [dag with_dag _result_nid config _column_to_tags_mapping dag_sources dag_state
         dag_fit].
    rewrite <- map_fmap_compose.
    rewrite (map_fmap_ext (ds_output Fit ∘ _)
               (fun n => filter (fun row => existsb (in_interval (fst row)) fi = true)
                                (ds_data n))) by done.
    fold (rows fi). by destruct (dag_fit _ _ _ _) as [[[df info] st]|e].
  - unfold FitPredictDagRunner_predict. rewrite _run_dag_predict_eq.
    cbn [dag with_dag _result_nid config _column_to_tags_mapping dag_sources dag_state
         dag_predict].
    rewrite <- map_fmap_compose.
    rewrite (map_fmap_ext (ds_output Predict ∘ _)
               (fun n => filter (fun row => existsb (in_interval (fst row)) pi = true)
                                (ds_data n))) by done.
    fold (rows pi). by destruct (dag_predict _ _ _ _) as [[df info]|e].
Qed.

End Dataflow.

(** *** The retraining schedule *)

(** Whenever a schedule is returned, it is the grid over [start, end_]
    moved by the offset that the string [str(retraining_lookback) +
    retraining_freq] denotes, cut at [end_]; it is not empty and lies
    strictly before [end_]; for an ascending grid it is strictly
    increasing. *)
Lemma retraining_datetimes_shape (start end_ : Timestamp) (freq : string)
  (lookback : Z) (idx : list Timestamp) :
  _generate_retraining_datetimes start end_ freq lookback = Ok idx ->
  exists o o' grid,
    to_offset freq = Ok o
    /\ to_offset (pretty lookback +:+ freq) = Ok o'
    /\ date_range_offset start end_ o = Ok grid
    /\ grid <> [] /\ lookback < Z.of_nat (length grid)
    /\ idx = filter (fun t => t < end_) ((fun t => t + step o') <$> grid)
    /\ idx <> []
    /\ Forall (fun t => t < end_) idx
    /\ (0 < step o -> StronglySorted Z.lt idx).
Proof.
  unfold _generate_retraining_datetimes, date_range, index_shift.
  destruct (to_offset freq) as [o|] eqn:Eo; [|done]. simpl.
  destruct (date_range_offset start end_ o) as [grid|] eqn:Eg; [|done]. simpl.
  unfold dbg.dassert_lt, dbg.dassert.
  destruct (bool_decide (grid = [])) eqn:Egrid; [done|]. simpl.
  destruct (lookback <? Z.of_nat (length grid)) eqn:Elb; [|done]. simpl.
  destruct (to_offset (pretty lookback +:+ freq)) as [o'|] eqn:Eo'; [|done]. simpl.
  destruct (bool_decide (filter _ _ = [])) eqn:Eidx; [done|]. simpl.
  intros [= <-].
  apply bool_decide_eq_false in Egrid, Eidx. apply Z.ltb_lt in Elb.
  exists o, o', grid. repeat split; try done.
  - apply Forall_forall. by intros t [Ht _]%list_elem_of_filter.
  - intros Hpos. apply StronglySorted_filter.
    apply (StronglySorted_fmap _ Z.lt Z.lt); [intros; lia|].
    unfold date_range_offset in Eg.
    destruct (step o =? 0); [done|].
    rewrite (proj2 (Z.ltb_lt 0 (step o)) Hpos) in Eg.
    injection Eg as <-.
    destruct (start <=? end_); [by apply arith_range_sorted | constructor].
Qed.

(** X3. The schedule in closed form, for a frequency written as a (possibly
    absent) multiple [d] and a fixed-length unit [u], and a lookback that is
    not negative.  The grid steps by [n] units, [n] being the multiple (1
    when absent).  The offset string is [str(lookback)] followed by the
    frequency, so the grid is moved by the number whose decimal digits are
    those of the lookback followed by those of the multiple: [lookback *
    10^len(d) + d] units.  For a bare unit this is [lookback] periods, and
    the schedule is [start + lookback * u, ...] below [end_], empty (an
    assertion failure) exactly when [start + lookback * u] is not before
    [end_].  With a multiple the grid is always moved by more than
    [lookback] periods. *)
Theorem retraining_schedule_closed_form (start end_ : Timestamp) (d u : string)
  (sec lookback : Z) :
  all_digits d = true -> unit_seconds u = Some sec -> 0 <= lookback ->
  let n := if bool_decide (d = EmptyString) then 1 else digits_value d in
  let moved := (lookback * 10 ^ Z.of_nat (String.length d) + digits_value d) * sec in
  let grid := arith_range start end_ (n * sec) in
  let idx := filter (fun t => t < end_) ((fun t => t + moved) <$> grid) in
  0 < n -> start <= end_ -> lookback < Z.of_nat (length grid) ->
  _generate_retraining_datetimes start end_ (d +:+ u) lookback
  = (if bool_decide (idx = []) then Err (AssertionError "") else Ok idx)
  /\ (d = EmptyString ->
      moved = lookback * (n * sec)
      /\ (idx <> [] <-> start + lookback * sec < end_))
  /\ (d <> EmptyString -> lookback * (n * sec) < moved).
Proof.
  intros Hd Hu Hlb n moved grid idx Hn Hle Hlen.
  destruct (unit_seconds_inv u sec Hu) as (_ & Hsec & _).
  destruct (pretty_Z_digits lookback Hlb) as (Hpd & Hpv & Hpne).
  split; [|split].
  - unfold _generate_retraining_datetimes, date_range, index_shift.
    rewrite (to_offset_digits_unit d u sec Hd Hu). cbn [mbind result_bind].
    unfold date_range_offset, step. cbn [off_n off_unit]. fold n.
    rewrite (proj2 (Z.eqb_neq _ _)) by nia.
    rewrite (proj2 (Z.ltb_lt 0 (n * sec))) by nia.
    rewrite (proj2 (Z.leb_le _ _) Hle). cbn [mbind result_bind]. fold grid.
    unfold dbg.dassert_lt, dbg.dassert.
    rewrite bool_decide_eq_false_2 by apply arith_range_nonempty.
    cbn [negb mbind result_bind].
    unfold Timestamp in *.
    rewrite (proj2 (Z.ltb_lt _ _) Hlen). cbn [mbind result_bind].
    rewrite <- append_assoc.
    rewrite (to_offset_digits_unit (pretty lookback +:+ d) u sec);
      [|by rewrite all_digits_app, Hpd, Hd | done].
    cbn [mbind result_bind off_n off_unit].
    rewrite bool_decide_eq_false_2 by (by destruct (pretty lookback)).
    rewrite digits_value_app, Hpv. fold moved. fold idx.
    by destruct (bool_decide (idx = [])).
  - intros ->. subst n moved. cbn [String.length bool_decide decide_rel].
    rewrite bool_decide_eq_true_2 by done.
    change (digits_value "") with 0. change (10 ^ Z.of_nat 0) with 1.
    split; [lia|].
    assert (Hmoved : (lookback * 1 + 0) * sec = lookback * sec) by lia.
    subst idx grid. cbn [String.length] in *.
    rewrite bool_decide_eq_true_2 in * by done.
    change (digits_value "") with 0 in *. change (10 ^ Z.of_nat 0) with 1 in *.
    rewrite Hmoved. split.
    + intros Hne.
      destruct (filter _ _) as [|t l] eqn:E; [done|].
      assert (Ht : t ∈ filter (fun t => t < end_)
                     ((fun t => t + lookback * sec) <$> arith_range start end_ (1 * sec)))
        by (rewrite E; apply list_elem_of_here).
      apply list_elem_of_filter in Ht as [Hlt Ht].
      apply list_elem_of_fmap in Ht as (t0 & -> & Ht0).
      apply arith_range_elem in Ht0 as (i & Hi & _ & ->); [nia|lia|done].
    + intros Hlt Hempty.
      assert (Hin : start + lookback * sec
                    ∈ filter (fun t => t < end_)
                        ((fun t => t + lookback * sec)
                           <$> arith_range start end_ (1 * sec))).
      { apply list_elem_of_filter. split; [done|].
        apply list_elem_of_fmap. exists start. split; [done|].
        apply arith_range_elem; [lia|done|]. exists 0. lia. }
      rewrite Hempty in Hin. by apply elem_of_nil in Hin.
  - intros Hne. subst n moved.
    rewrite bool_decide_eq_false_2 in * by done.
    pose proof (digits_value_bounds d Hd) as Hb. nia.
Qed.

(** X4. When the schedule cannot be built.  With a frequency of positive
    step, an [end_] before [start] gives an empty grid and the assertion
    "Not enough data for requested training schedule!"; a lookback that is
    not below the number of grid points, [(end_ - start) / step + 1], gives
    the assertion "Input data does not have <lookback> periods". *)
Theorem retraining_schedule_rejects (start end_ : Timestamp) (freq : string)
  (o : DateOffset) (lookback : Z) :
  to_offset freq = Ok o -> 0 < step o ->
  (end_ < start ->
   _generate_retraining_datetimes start end_ freq lookback
   = Err (AssertionError "Not enough data for requested training schedule!"))
  /\ (start <= end_ -> (end_ - start) / step o + 1 <= lookback ->
      _generate_retraining_datetimes start end_ freq lookback
      = Err (AssertionError ("Input data does not have " +:+ pretty lookback
                             +:+ " periods"))).
Proof.
  intros Ho Hpos.
  unfold _generate_retraining_datetimes, date_range, date_range_offset.
  rewrite Ho. cbn [mbind result_bind].
  rewrite (proj2 (Z.eqb_neq _ _)) by lia.
  rewrite (proj2 (Z.ltb_lt _ _) Hpos). split.
  - intros Hlt. by rewrite (proj2 (Z.leb_gt _ _) Hlt).
  - intros Hle Hlb. rewrite (proj2 (Z.leb_le _ _) Hle). cbn [mbind result_bind].
    unfold dbg.dassert_lt, dbg.dassert.
    rewrite bool_decide_eq_false_2 by apply arith_range_nonempty.
    cbn [negb mbind result_bind].
    rewrite arith_range_length.
    assert (0 <= (end_ - start) / step o) by (apply Z.div_pos; lia).
    by rewrite (proj2 (Z.ltb_ge _ _)) by lia.
Qed.

Section RollingFacts.
Context {Row NodeInfo FitState Config Tags : Type}.
Variable loc_from_unsorted : Timestamp -> @Table Row -> result (@Table Row).

(** X20. The schedule and the windows together, for a frequency that is a
    bare unit of [sec] seconds and a lookback [L >= 0] that the constructor
    of [RollingFitPredictDagRunner] has accepted.  Every retraining date
    lies in [[start + L sec, end_)], so the window it is fitted on,
    [[dt - (L - 1) sec, dt]], begins at [start + sec] or later: the rows of
    the first period, from [start] on, are never fitted on.  A runner
    constructed with [L = 0] cannot take a single step: every
    [fit_predict_at_datetime] fails. *)
Theorem rolling_schedule_skips_start (cfg : Config)
  (b : @DagBuilder Row NodeInfo FitState Config Tags) (start end_ : Timestamp)
  (u : string) (sec L : Z) (r : RollingFitPredictDagRunner) :
  unit_seconds u = Some sec -> 0 <= L ->
  RollingFitPredictDagRunner_init cfg b start end_ u L = Ok r ->
  _retraining_freq r = u /\ _retraining_lookback r = L
  /\ _retraining_datetimes r <> []
  /\ (forall dt, dt ∈ _retraining_datetimes r ->
                 start + L * sec <= dt < end_
                 /\ start + sec <= dt - (L - 1) * sec)
  /\ (L = 0 -> forall dt, is_ok (fit_predict_at_datetime loc_from_unsorted r dt) = false).
Proof.
  intros Hu HL Hinit. unfold RollingFitPredictDagRunner_init in Hinit.
  destruct (AbstractDagRunner_init cfg b) as [base|]; [|done].
  cbn [mbind result_bind] in Hinit.
  destruct (_generate_retraining_datetimes start end_ u L) as [idx|] eqn:Eidx; [|done].
  cbn [mbind result_bind] in Hinit. injection Hinit as <-.
  cbn [_retraining_freq _retraining_lookback _retraining_datetimes].
  destruct (unit_seconds_inv u sec Hu) as (_ & Hsec & _).
  pose proof (to_offset_digits_unit "" u sec eq_refl Hu) as Ho.
  change (EmptyString +:+ u) with u in Ho. rewrite bool_decide_eq_true_2 in Ho by done.
  destruct (pretty_Z_digits L HL) as (Hpd & Hpv & Hpne).
  pose proof (to_offset_digits_unit (pretty L) u sec Hpd Hu) as Ho'.
  rewrite bool_decide_eq_false_2, Hpv in Ho' by done.
  destruct (retraining_datetimes_shape _ _ _ _ _ Eidx)
    as (o & o' & grid & Eo & Eo' & Egrid & _ & _ & -> & Hne & _ & _).
  rewrite Ho in Eo. injection Eo as <-. rewrite Ho' in Eo'. injection Eo' as <-.
  split; [done|]. split; [done|]. split; [done|]. split.
  - intros dt [Hlt Hin]%list_elem_of_filter.
    apply list_elem_of_fmap in Hin as (t0 & -> & Ht0).
    unfold date_range_offset, step in Egrid. cbn [off_n off_unit] in *.
    rewrite (proj2 (Z.eqb_neq _ _)) in Egrid by lia.
    rewrite (proj2 (Z.ltb_lt 0 (1 * sec))) in Egrid by lia.
    injection Egrid as <-.
    destruct (start <=? end_) eqn:Ele; [|by apply elem_of_nil in Ht0].
    apply Z.leb_le in Ele.
    apply arith_range_elem in Ht0 as (i & Hi & _ & ->); [|lia|done].
    unfold step in *. cbn [off_n off_unit] in *. nia.
  - intros -> dt. unfold fit_predict_at_datetime, date_range_end.
    cbn [_retraining_freq _retraining_lookback]. rewrite Ho. cbn [mbind result_bind].
    unfold step. cbn [off_n off_unit].
    by rewrite (proj2 (Z.eqb_neq _ _)) by lia.
Qed.

End RollingFacts.

(** 2020-01-01 and 2020-01-31 are days 18262 and 18292 of the epoch. *)
Definition jan_2020 (d : Z) : Timestamp := day (18261 + d).

(** C8 at the input of the specification's own example.  With a frequency
    that carries its multiple ("1D") and a lookback of five periods, the
    code builds the offset string "51D": the grid of 31 days is moved by 51
    days, nothing is left before the end, and the schedule fails.  With the
    bare unit "D" the same call moves the grid by five periods and returns
    the 25 days from 2020-01-06 to 2020-01-30. *)
Theorem retraining_lookback_is_concatenated :
  to_offset (pretty 5 +:+ "1D") = Ok (mkOffset 51 86400)
  /\ _generate_retraining_datetimes (jan_2020 1) (jan_2020 31) "1D" 5
     = Err (AssertionError "")
  /\ _generate_retraining_datetimes (jan_2020 1) (jan_2020 31) "D" 5
     = Ok (jan_2020 <$> seqZ 6 25).
Proof. repeat split; vm_compute; reflexivity. Qed.

(** *** A small graph to run the runners on *)

Module Example.

(** One source node ["src"] with integer rows; the sink sums the visible
    rows and adds the learned state. *)
Definition sum_rows (tb : @Table Z) : Z := foldr (fun r acc => snd r + acc) 0 tb.

Definition example_predict (nid : string) (st : Z) (inputs : gmap string (@Table Z))
  : result (@Table Z * unit) :=
  match inputs !! "src" with
  | Some tb => Ok ([(0, st + sum_rows tb)], ())
  | None => Err (KeyError "src")
  end.

Definition example_fit (nid : string) (st : Z) (inputs : gmap string (@Table Z))
  : result (@Table Z * unit * Z) :=
  match inputs !! "src" with
  | Some tb => Ok ([(0, sum_rows tb)], (), sum_rows tb)
  | None => Err (KeyError "src")
  end.

Definition example_dag (data : @Table Z) : @DAG Z unit Z :=
  mkDAG {[ "src" := mkDataSource data None None ]} ["out"] 0
        example_fit example_predict (fun _ => None) [].

Definition example_builder (data : @Table Z) : @DagBuilder Z unit Z unit unit :=
  mkDagBuilder (fun _ => example_dag data) ["fit"; "predict"] (fun _ => ()).

Definition data_a : @Table Z := [(1, 10); (2, 20); (3, 30)].
Definition data_b : @Table Z := [(1, 10); (2, 20); (3, 99); (4, 7)].

Definition incremental (data : @Table Z) : result (@IncrementalDagRunner Z unit Z unit unit) :=
  IncrementalDagRunner_init () (example_builder data) 1 4 "S" 5.

Definition runner_of {A : Type} (d : A) (r : result A) : A :=
  match r with Ok a => a | Err _ => d end.

Definition dummy_incremental : @IncrementalDagRunner Z unit Z unit unit :=
  mkIncrementalDagRunner
    (mkAbstractDagRunner () (example_builder []) (example_dag []) () "")
    0 0 "" 0 [].

Definition runner_a := runner_of dummy_incremental (incremental data_a).
Definition runner_b := runner_of dummy_incremental (incremental data_b).


(** A graph whose prediction keeps the rows it is given and adds the
    learned state to each, and a rolling runner over it that retrains every
    second on the last two grid points. *)
Definition echo_predict (nid : string) (st : Z) (inputs : gmap string (@Table Z))
  : result (@Table Z * unit) :=
  match inputs !! "src" with
  | Some tb => Ok ((fun r => (fst r, snd r + st)) <$> tb, ())
  | None => Err (KeyError "src")
  end.

Definition echo_dag (data : @Table Z) : @DAG Z unit Z :=
  mkDAG {[ "src" := mkDataSource data None None ]} ["out"] 0
        example_fit echo_predict (fun _ => None) [].

Definition echo_builder : @DagBuilder Z unit Z unit unit :=
  mkDagBuilder (fun _ => echo_dag data_b) ["fit"; "predict"] (fun _ => ()).

Definition rolling : @RollingFitPredictDagRunner Z unit Z unit unit :=
  mkRollingFitPredictDagRunner
    (mkAbstractDagRunner () echo_builder (echo_dag data_b) () "out") 1 4 "S" 2 [3].

Definition no_loc (t : Timestamp) (tb : @Table Z) : result (@Table Z) :=
  Err (KeyError "unsorted index").

End Example.

Lemma example_same_inputs_upto_2 :
  same_inputs_upto 2 (dag (inc_base Example.runner_a)) (dag (inc_base Example.runner_b)).
Proof.
  assert (H : (fun n => rows_upto 2 (ds_data n))
                <$> dag_sources (dag (inc_base Example.runner_a))
              = (fun n => rows_upto 2 (ds_data n))
                <$> dag_sources (dag (inc_base Example.runner_b)))
    by (vm_compute; reflexivity).
  intros nid. rewrite <- !lookup_fmap. by rewrite H.
Qed.

Lemma incremental_non_anticipation_witness :
  same_runner (inc_base Example.runner_a) (inc_base Example.runner_b)
  /\ same_inputs_upto 2 (dag (inc_base Example.runner_a))
                        (dag (inc_base Example.runner_b))
  /\ bundle_of (predict_at_datetime Example.runner_a 2)
     = bundle_of (predict_at_datetime Example.runner_b 2).
Proof.
  split; [by repeat split|].
  split; [exact example_same_inputs_upto_2|].
  apply (incremental_non_anticipation Example.runner_a Example.runner_b 2).
  - by repeat split.
  - exact example_same_inputs_upto_2.
Defined.

(** The bundles as of 2 are equal although the data differ at 3 and 4; as
    of 3 they differ. *)
Example incremental_example_values :
  bundle_of (predict_at_datetime Example.runner_a 2)
  = Ok (mkResultBundle () "out" Predict [(0, 35)] () (Some ()))
  /\ bundle_of (predict_at_datetime Example.runner_b 2)
     = Ok (mkResultBundle () "out" Predict [(0, 35)] () (Some ()))
  /\ bundle_of (predict_at_datetime Example.runner_a 3)
     <> bundle_of (predict_at_datetime Example.runner_b 3).
Proof. repeat split; vm_compute; congruence. Qed.




Lemma incremental_predict_covers_range_witness :
  dag_state (dag (inc_base Example.runner_a)) = 5
  /\ _date_range Example.runner_a = [1; 2; 3; 4].
Proof.
  destruct (incremental_predict_covers_range ()
              (Example.example_builder Example.data_a) 1 4 "S" (mkOffset 1 1) 5
              Example.runner_a)
    as (Hst & Hrange & _); [reflexivity | reflexivity | reflexivity |].
  split; [exact Hst | exact Hrange].
Defined.

(** The specification's example once more: with "1D" the grid of January
    2020 is moved by 51 days, more than the 5 days asked for; with "D" it
    is moved by 5 days. *)
Lemma retraining_schedule_closed_form_witness :
  5 * (1 * 86400) < (5 * 10 ^ Z.of_nat (String.length "1") + digits_value "1") * 86400
  /\ _generate_retraining_datetimes (jan_2020 1) (jan_2020 31) "D" 5
     = Ok (filter (fun t => t < jan_2020 31)
             ((fun t => t + 5 * 86400)
                <$> arith_range (jan_2020 1) (jan_2020 31) 86400)).
Proof.
  split.
  - refine (proj2 (proj2 (retraining_schedule_closed_form (jan_2020 1) (jan_2020 31)
                            "1" "D" 86400 5 _ _ _ _ _ _)) _);
      try reflexivity; try done.
  - etrans;
      [exact (proj1 (retraining_schedule_closed_form (jan_2020 1) (jan_2020 31)
                       "" "D" 86400 5 eq_refl eq_refl ltac:(done) eq_refl
                       ltac:(done) eq_refl))
      | vm_compute; reflexivity].
Defined.

Lemma retraining_schedule_rejects_witness :
  _generate_retraining_datetimes (jan_2020 31) (jan_2020 1) "D" 5
  = Err (AssertionError "Not enough data for requested training schedule!")
  /\ _generate_retraining_datetimes (jan_2020 1) (jan_2020 31) "D" 31
     = Err (AssertionError "Input data does not have 31 periods").
Proof.
  destruct (retraining_schedule_rejects (jan_2020 31) (jan_2020 1) "D"
              (mkOffset 1 86400) 5 eq_refl eq_refl) as [H1 _].
  destruct (retraining_schedule_rejects (jan_2020 1) (jan_2020 31) "D"
              (mkOffset 1 86400) 31 eq_refl eq_refl) as [_ H2].
  split; [apply H1; reflexivity | apply H2; [done | reflexivity]].
Defined.

Lemma rolling_fit_predict_windows_witness :
  fst <$> fit_predict_at_datetime Example.no_loc Example.rolling 3
  = Ok (mkResultBundle () "out" Fit [(0, 119)] () (Some ()),
        mkResultBundle () "out" Predict [(3, 218); (4, 126)] () (Some ())).
Proof.
  etrans;
    [exact (proj1 (proj2 (rolling_fit_predict_windows Example.no_loc Example.rolling 3
                            (mkOffset 1 1) eq_refl eq_refl))
              ltac:(vm_compute; discriminate))|].
  vm_compute. reflexivity.
Defined.

Lemma rolling_schedule_skips_start_witness :
  RollingFitPredictDagRunner_init () Example.echo_builder 1 4 "S" 2 = Ok Example.rolling
  /\ (forall dt, dt ∈ _retraining_datetimes Example.rolling ->
                 1 + 2 * 1 <= dt < 4 /\ 1 + 1 <= dt - (2 - 1) * 1)
  /\ exists r0,
       RollingFitPredictDagRunner_init () Example.echo_builder 1 4 "S" 0 = Ok r0
       /\ is_ok (fit_predict_at_datetime Example.no_loc r0 1) = false.
Proof.
  assert (Hinit : RollingFitPredictDagRunner_init () Example.echo_builder 1 4 "S" 2
                  = Ok Example.rolling) by (vm_compute; reflexivity).
  split; [exact Hinit|]. split.
  - exact (proj1 (proj2 (proj2 (proj2
             (rolling_schedule_skips_start Example.no_loc () Example.echo_builder 1 4 "S"
                1 2 Example.rolling eq_refl ltac:(vm_compute; discriminate) Hinit))))).
  - assert (Hok : is_ok (RollingFitPredictDagRunner_init () Example.echo_builder 1 4 "S" 0)
                  = true) by (vm_compute; reflexivity).
    destruct (RollingFitPredictDagRunner_init () Example.echo_builder 1 4 "S" 0)
      as [r0|] eqn:Hinit0; [|discriminate].
    exists r0. split; [reflexivity|].
    exact (proj2 (proj2 (proj2 (proj2
             (rolling_schedule_skips_start Example.no_loc () Example.echo_builder 1 4 "S"
                1 0 r0 eq_refl ltac:(vm_compute; discriminate) Hinit0)))) eq_refl 1).
Defined.

End Runners.

(** ** helpers/joblib_helpers.py *)

Module JoblibHelpers.

(** Python values as far as the harness looks at them. *)
Inductive Value : Type :=
| VNone
| VBool (b : bool)
| VInt (z : Z)
| VStr (s : string).

#[global] Instance Value_eq_dec : EqDecision Value.
Proof. solve_decision. Defined.

(** Keyword dictionaries are mutable objects: a task refers to its
    dictionary by location, and two tasks may refer to the same one. *)
Definition Loc : Type := nat.

(** A [Task] is the pair [(args, kwargs)]. *)
Record Task : Type := mkTask {
  task_args : list Value;
  task_kwargs : Loc
}.

Record Callable : Type := mkCallable {
  call : list Value -> gmap string Value -> result Value;
  __name__ : string
}.

(** A [Workload] is the triple [(workload_func, func_name, tasks)]. *)
Record Workload : Type := mkWorkload {
  workload_func : Callable;
  func_name : string;
  tasks : list Task
}.

(** One block of text appended to the log file by the wrapper.  The fields
    are the lines of the block; the readings of the clock ([start_ts],
    [end_ts], [elapsed_time_in_secs]) are left out. *)
Record LogEntry : Type := mkLogEntry {
  log_tag : Z * Z;
  log_workload_func : string;
  log_func_name : string;
  log_task : list Value * gmap string Value;
  log_exception : option string;
  log_func_res : Value;
  log_error : bool
}.

(** The store: the dictionaries of the tasks and the files written with
    [hio.to_file(..., mode="a")]. *)
Record State : Type := mkState {
  heap : gmap Loc (gmap string Value);
  files : gmap string (list LogEntry)
}.

Definition read_kwargs (st : State) (task : Task) : gmap string Value :=
  default ∅ (heap st !! task_kwargs task).

Definition read_log (st : State) (log_file : string) : list LogEntry :=
  default [] (files st !! log_file).

(** [kwargs.update({"incremental": incremental, "num_attempts": num_attempts})]. *)
Definition update_kwargs (incremental : bool) (num_attempts : Z)
  (kwargs : gmap string Value) : gmap string Value :=
  <["num_attempts" := VInt num_attempts]> (<["incremental" := VBool incremental]> kwargs).

Definition to_file_append (log_file : string) (txt : LogEntry) (st : State) : State :=
  mkState (heap st) (<[log_file := read_log st log_file ++ [txt]]> (files st)).

(** The function returned by [_parallel_execute_decorator]. *)
Definition wrapper (task_idx task_len : Z) (incremental abort_on_error : bool)
  (num_attempts : Z) (log_file : string) (workload_func : Callable)
  (func_name : string) (task : Task) (st : State) : result Value * State :=
  let checks :=
    _ ← dbg.dassert_lte 0 task_idx "";
    _ ← dbg.dassert_lt task_idx task_len "";
    dbg.dassert_lte 1 num_attempts "" in
  match checks with
  | Err e => (Err e, st)
  | Ok _ =>
      let tag := (task_idx + 1, task_len) in
      let rendered := (task_args task, read_kwargs st task) in
      let kwargs := update_kwargs incremental num_attempts (read_kwargs st task) in
      let st := mkState (<[task_kwargs task := kwargs]> (heap st)) (files st) in
      let outcome := call workload_func (task_args task) kwargs in
      let exception := match outcome with Ok _ => None | Err e => Some (exn_str e) end in
      let res := match outcome with Ok v => v | Err _ => VNone end in
      let error := match outcome with Ok _ => false | Err _ => true end in
      let txt := mkLogEntry tag (__name__ workload_func) func_name rendered
                            exception res error in
      let st := to_file_append log_file txt st in
      match outcome with
      | Ok v => (Ok v, st)
      | Err e =>
          if abort_on_error then (Err e, st)
          else (Ok (VStr (exn_str e)), st)
      end
  end.

(** [num_threads] is the string "serial" or a worker count, possibly given
    as a string. *)
Inductive NumThreads : Type :=
| NtStr (s : string)
| NtInt (n : Z).

#[global] Instance NumThreads_eq_dec : EqDecision NumThreads.
Proof. solve_decision. Defined.

(** [int(num_threads)]. *)
Definition py_int (x : NumThreads) : result Z :=
  match x with
  | NtInt n => Ok n
  | NtStr s =>
      let '(neg, body) :=
        match s with
        | String "-"%char r => (true, r)
        | String "+"%char r => (false, r)
        | _ => (false, s)
        end in
      let '(d, rest) := Pandas.span_digits body in
      if bool_decide (d = EmptyString) || negb (bool_decide (rest = EmptyString))
      then Err (ValueError ("invalid literal for int(): " +:+ s))
      else Ok (if neg then - Pandas.digits_value d else Pandas.digits_value d)
  end.

(** [_workload_function], the template of a function to run: it takes the
    entry "incremental" out of its keyword arguments and returns the empty
    summary.  [str] of the [KeyError] it raises without that entry is the
    key in quotes. *)
Definition _workload_function : Callable :=
  mkCallable
    (fun args kwargs =>
       match kwargs !! "incremental" with
       | Some incremental => Ok (VStr EmptyString)
       | None => Err (KeyError "'incremental'")
       end)
    "_workload_function".

Section Execute.

(** [joblib.Parallel(n_jobs, backend="loky")(delayed(f)(...) for ...)]: the
    external worker pool, given the calls in task order. *)
Variable joblib_Parallel :
  Z -> list (State -> result Value * State) -> State -> result (list Value) * State.

(** The loop of the serial branch, from the results collected so far. *)
Fixpoint serial_loop (incremental abort_on_error : bool) (num_attempts : Z)
  (log_file : string) (workload_func : Callable) (func_name : string)
  (task_len : Z) (indexed : list (nat * Task)) (res : list Value) (st : State)
  : result (list Value) * State :=
  match indexed with
  | [] => (Ok res, st)
  | (task_idx, task) :: rest =>
      match wrapper (Z.of_nat task_idx) task_len incremental abort_on_error
                    num_attempts log_file workload_func func_name task st with
      | (Ok res_tmp, st') =>
          serial_loop incremental abort_on_error num_attempts log_file
                      workload_func func_name task_len rest (res ++ [res_tmp]) st'
      | (Err e, st') => (Err e, st')
      end
  end.

Definition enumerate {A : Type} (l : list A) : list (nat * A) :=
  zip (seq 0 (length l)) l.

Definition parallel_execute (workload : Workload) (dry_run : bool)
  (num_threads : NumThreads) (incremental abort_on_error : bool)
  (num_attempts : Z) (log_file : string) (st : State)
  : result (option (list Value)) * State :=
  let workload_func := workload_func workload in
  let func_name := func_name workload in
  let tasks := tasks workload in
  if dry_run then (Ok None, st)
  else
    let task_len := Z.of_nat (length tasks) in
    let out :=
      if bool_decide (num_threads = NtStr "serial") then
        serial_loop incremental abort_on_error num_attempts log_file
                    workload_func func_name task_len (enumerate tasks) [] st
      else
        match py_int num_threads with
        | Err e => (Err e, st)
        | Ok n =>
            joblib_Parallel n
              ((fun it : nat * Task =>
                  wrapper (Z.of_nat (fst it)) task_len incremental abort_on_error
                          num_attempts log_file workload_func func_name (snd it))
                 <$> enumerate tasks) st
        end in
    match out with
    | (Ok res, st') => (Ok (Some res), st')
    | (Err e, st') => (Err e, st')
    end.

End Execute.

(** *** Facts about the wrapper and the serial loop *)

(** What the task function is called with, and what it answers, for a task
    run from a given store. *)
Definition call_kwargs (incremental : bool) (num_attempts : Z) (st : State)
  (task : Task) : gmap string Value :=
  update_kwargs incremental num_attempts (read_kwargs st task).

Definition outcome (f : Callable) (incremental : bool) (num_attempts : Z)
  (st : State) (task : Task) : result Value :=
  call f (task_args task) (call_kwargs incremental num_attempts st task).

(** The entry of a task in the result list when errors do not abort. *)
Definition entry_of (r : result Value) : Value :=
  match r with Ok v => v | Err e => VStr (exn_str e) end.


(** The blocks a run appended to the log file. *)
Definition appended (log_file : string) (st st' : State) (new : list LogEntry) : Prop :=
  read_log st' log_file = read_log st log_file ++ new.


Definition is_success_record (x : LogEntry) : Prop :=
  log_error x = false /\ log_exception x = None.

Definition enumerate_from {A : Type} (k : nat) (l : list A) : list (nat * A) :=
  zip (seq k (length l)) l.

Section SerialFacts.

Variable f : Callable.
Variable fname : string.
Variable incremental : bool.
Variable num_attempts : Z.
Variable log_file : string.
Variable task_len : Z.

(** The log block of the task at position [idx], run from store [st]. *)
Definition record_of (idx : nat) (task : Task) (st : State) : LogEntry :=
  let o := outcome f incremental num_attempts st task in
  mkLogEntry (Z.of_nat idx + 1, task_len) (__name__ f) fname
             (task_args task, read_kwargs st task)
             (match o with Ok _ => None | Err e => Some (exn_str e) end)
             (match o with Ok v => v | Err _ => VNone end)
             (match o with Ok _ => false | Err _ => true end).

(** The store after the wrapper ran the task at position [idx]. *)
Definition after (idx : nat) (task : Task) (st : State) : State :=
  to_file_append log_file (record_of idx task st)
    (mkState (<[task_kwargs task := call_kwargs incremental num_attempts st task]> (heap st))
             (files st)).

Fixpoint after_all (k : nat) (ts : list Task) (st : State) : State :=
  match ts with
  | [] => st
  | t :: rest => after_all (S k) rest (after k t st)
  end.

Fixpoint records_of (k : nat) (ts : list Task) (st : State) : list LogEntry :=
  match ts with
  | [] => []
  | t :: rest => record_of k t st :: records_of (S k) rest (after k t st)
  end.

Lemma update_kwargs_idemp (kw : gmap string Value) :
  update_kwargs incremental num_attempts (update_kwargs incremental num_attempts kw)
  = update_kwargs incremental num_attempts kw.
Proof.
  unfold update_kwargs. apply map_eq; intros k.
  rewrite !lookup_insert. by repeat case_decide.
Qed.

Lemma update_kwargs_lookup (kw : gmap string Value) :
  update_kwargs incremental num_attempts kw !! "incremental" = Some (VBool incremental)
  /\ update_kwargs incremental num_attempts kw !! "num_attempts" = Some (VInt num_attempts).
Proof.
  unfold update_kwargs. split.
  - rewrite lookup_insert_ne by done. apply lookup_insert_eq.
  - apply lookup_insert_eq.
Qed.

Lemma wrapper_eq (idx : nat) (abort_on_error : bool) (task : Task) (st : State) :
  Z.of_nat idx < task_len -> 1 <= num_attempts ->
  wrapper (Z.of_nat idx) task_len incremental abort_on_error num_attempts log_file
          f fname task st
  = (match outcome f incremental num_attempts st task with
     | Ok v => Ok v
     | Err e => if abort_on_error then Err e else Ok (VStr (exn_str e))
     end, after idx task st).
Proof.
  intros Hidx Hna. unfold wrapper, dbg.dassert_lte, dbg.dassert_lt, dbg.dassert.
  rewrite (proj2 (Z.leb_le 0 (Z.of_nat idx))) by lia. cbn [mbind result_bind].
  rewrite (proj2 (Z.ltb_lt _ _) Hidx). cbn [mbind result_bind].
  rewrite (proj2 (Z.leb_le _ _) Hna).
  unfold after, record_of, outcome, call_kwargs.
  destruct (call f _ _); [done|]. by destruct abort_on_error.
Qed.

Lemma after_read_kwargs (idx : nat) (task other : Task) (st : State) :
  read_kwargs (after idx task st) other
  = if decide (task_kwargs task = task_kwargs other)
    then call_kwargs incremental num_attempts st task
    else read_kwargs st other.
Proof.
  unfold read_kwargs, after, to_file_append. cbn [heap].
  destruct (decide _) as [<-|Hne].
  - by rewrite lookup_insert_eq.
  - by rewrite lookup_insert_ne.
Qed.

Lemma after_call_kwargs (idx : nat) (task other : Task) (st : State) :
  call_kwargs incremental num_attempts (after idx task st) other
  = call_kwargs incremental num_attempts st other.
Proof.
  unfold call_kwargs at 1. rewrite after_read_kwargs.
  destruct (decide _) as [Heq|]; [|done].
  unfold call_kwargs. rewrite update_kwargs_idemp.
  unfold read_kwargs. by rewrite Heq.
Qed.

Lemma after_outcome (idx : nat) (task other : Task) (st : State) :
  outcome f incremental num_attempts (after idx task st) other
  = outcome f incremental num_attempts st other.
Proof. unfold outcome. by rewrite after_call_kwargs. Qed.



Lemma after_read_log (idx : nat) (task : Task) (st : State) :
  read_log (after idx task st) log_file
  = read_log st log_file ++ [record_of idx task st].
Proof.
  unfold after, to_file_append, read_log. cbn [files].
  by rewrite lookup_insert_eq.
Qed.

Lemma after_all_outcome (ts : list Task) :
  forall (k : nat) (st : State) (other : Task),
    outcome f incremental num_attempts (after_all k ts st) other
    = outcome f incremental num_attempts st other.
Proof.
  induction ts as [|t ts IH]; intros k st other; [done|].
  cbn [after_all]. by rewrite IH, after_outcome.
Qed.



Lemma after_all_read_log (ts : list Task) :
  forall (k : nat) (st : State),
    read_log (after_all k ts st) log_file
    = read_log st log_file ++ records_of k ts st.
Proof.
  induction ts as [|t ts IH]; intros k st; cbn [after_all records_of].
  - by rewrite app_nil_r.
  - by rewrite IH, after_read_log, <- app_assoc.
Qed.

Lemma records_of_length (ts : list Task) :
  forall (k : nat) (st : State), length (records_of k ts st) = length ts.
Proof. induction ts as [|t ts IH]; intros k st; simpl; [done | by rewrite IH]. Qed.

Lemma records_of_lookup (ts : list Task) :
  forall (k : nat) (st : State) (i : nat) (t : Task),
    ts !! i = Some t ->
    exists st_i,
      records_of k ts st !! i = Some (record_of (k + i) t st_i)
      /\ outcome f incremental num_attempts st_i t
         = outcome f incremental num_attempts st t.
Proof.
  induction ts as [|t0 ts IH]; intros k st i t Hi; [done|].
  destruct i as [|i]; simpl in *.
  - injection Hi as ->. exists st. by rewrite Nat.add_0_r.
  - destruct (IH (S k) (after k t0 st) i t Hi) as (st_i & Hrec & Hout).
    exists st_i. rewrite Hrec, Hout, after_outcome.
    by replace (S k + i)%nat with (k + S i)%nat by lia.
Qed.

Lemma enumerate_from_cons {A : Type} (k : nat) (x : A) (l : list A) :
  enumerate_from k (x :: l) = (k, x) :: enumerate_from (S k) l.
Proof. reflexivity. Qed.

(** Tasks that do not stop the loop: those that answer, and all of them
    when errors do not abort. *)
Lemma serial_loop_continues (abort_on_error : bool) (ts : list Task) :
  forall (k : nat) (rest : list (nat * Task)) (res : list Value) (st : State),
    1 <= num_attempts ->
    Z.of_nat (k + length ts) <= task_len ->
    Forall (fun t => abort_on_error = false
                     \/ is_ok (outcome f incremental num_attempts st t) = true) ts ->
    serial_loop incremental abort_on_error num_attempts log_file f fname task_len
                (enumerate_from k ts ++ rest) res st
    = serial_loop incremental abort_on_error num_attempts log_file f fname task_len
                  rest
                  (res ++ ((fun t => entry_of (outcome f incremental num_attempts st t))
                             <$> ts))
                  (after_all k ts st).
Proof.
  induction ts as [|t ts IH]; intros k rest res st Hna Hlen Hall.
  - simpl. by rewrite app_nil_r.
  - rewrite enumerate_from_cons. cbn [app serial_loop after_all length] in *.
    rewrite wrapper_eq by lia.
    apply Forall_cons in Hall as [Ht Hall].
    assert (Hstep :
      match outcome f incremental num_attempts st t with
      | Ok v => Ok v
      | Err e => if abort_on_error then Err e else Ok (VStr (exn_str e))
      end = Ok (entry_of (outcome f incremental num_attempts st t))).
    { destruct (outcome f incremental num_attempts st t) as [v|e]; [done|].
      destruct Ht as [->|Ht]; [done | by simpl in Ht]. }
    rewrite Hstep, IH; [|done|lia|].
    + rewrite fmap_cons, <- app_assoc. simpl.
      do 3 f_equal. apply list_fmap_ext. intros _ t' _.
      by rewrite after_outcome.
    + eapply Forall_impl; [exact Hall|]. intros t' Ht'. by rewrite after_outcome.
Qed.

(** A task that raises while errors abort stops the loop after its log
    block was written. *)
Lemma serial_loop_aborts (t : Task) (e : PyError) (k : nat)
  (rest : list (nat * Task)) (res : list Value) (st : State) :
  1 <= num_attempts ->
  Z.of_nat k < task_len ->
  outcome f incremental num_attempts st t = Err e ->
  serial_loop incremental true num_attempts log_file f fname task_len
              ((k, t) :: rest) res st
  = (Err e, after k t st).
Proof.
  intros Hna Hk Hout. cbn [serial_loop].
  rewrite wrapper_eq by done. by rewrite Hout.
Qed.

End SerialFacts.

Lemma enumerate_from_app {A : Type} (l1 l2 : list A) :
  forall k : nat,
    enumerate_from k (l1 ++ l2)
    = enumerate_from k l1 ++ enumerate_from (k + length l1) l2.
Proof.
  induction l1 as [|x l1 IH]; intros k.
  - simpl. by rewrite Nat.add_0_r.
  - rewrite <- app_comm_cons, !enumerate_from_cons, IH. simpl.
    by rewrite Nat.add_succ_r.
Qed.

Lemma after_all_app (f : Callable) (fname : string) (incremental : bool)
  (num_attempts : Z) (log_file : string) (task_len : Z) (l1 l2 : list Task) :
  forall (k : nat) (st : State),
    after_all f fname incremental num_attempts log_file task_len k (l1 ++ l2) st
    = after_all f fname incremental num_attempts log_file task_len (k + length l1) l2
        (after_all f fname incremental num_attempts log_file task_len k l1 st).
Proof.
  induction l1 as [|x l1 IH]; intros k st; simpl.
  - by rewrite Nat.add_0_r.
  - rewrite IH. simpl. by rewrite Nat.add_succ_r.
Qed.




(** *** What a serial run leaves behind *)

Section SerialFrame.

Variable f : Callable.
Variable fname : string.
Variable incremental : bool.
Variable num_attempts : Z.
Variable log_file : string.
Variable task_len : Z.

Let after_all' := after_all f fname incremental num_attempts log_file task_len.



(** The dictionary at a location after a run over [ts]: updated with the
    two control entries if a task of [ts] refers to it, untouched if not. *)
Lemma after_all_heap (ts : list Task) (l : Loc) :
  forall (k : nat) (st : State),
    heap (after_all' k ts st) !! l
    = if decide (l ∈ task_kwargs <$> ts)
      then Some (update_kwargs incremental num_attempts (default ∅ (heap st !! l)))
      else heap st !! l.
Proof.
  induction ts as [|t ts IH]; intros k st.
  - cbn [fmap list_fmap]. destruct (decide _) as [Hin|_]; [|done].
    by apply elem_of_nil in Hin.
  - unfold after_all'. cbn [after_all]. fold after_all'. rewrite IH.
    unfold after, to_file_append, call_kwargs, read_kwargs. cbn [heap].
    rewrite fmap_cons.
    destruct (decide (l = task_kwargs t)) as [->|Hne].
    + rewrite lookup_insert_eq. cbn [default].
      destruct (decide (task_kwargs t ∈ task_kwargs t :: _)) as [_|Hn];
        [|exfalso; apply Hn, list_elem_of_here].
      destruct (decide (task_kwargs t ∈ task_kwargs <$> ts)); [|done].
      unfold id. by rewrite update_kwargs_idemp.
    + rewrite lookup_insert_ne by done.
      destruct (decide (l ∈ task_kwargs <$> ts)) as [Hin|Hnin];
        destruct (decide (l ∈ task_kwargs t :: (task_kwargs <$> ts))) as [Hin'|Hnin'];
        try done.
      * exfalso; apply Hnin'. by apply list_elem_of_further.
      * exfalso. apply elem_of_cons in Hin' as [?|?]; done.
Qed.


End SerialFrame.

(** X5. A serial run in which errors do not abort never raises, however
    many tasks fail: given valid control parameters it returns a list with
    one entry per task, in task order, the entry being what the task
    function returned or, if it raised, the string form of the exception;
    and it appends one block per task to the log file, the block of task
    [i] tagged [i + 1] of [len(tasks)] and recording whether it failed. *)
Theorem parallel_execute_collects_every_task
  (joblib_Parallel : Z -> list (State -> result Value * State) -> State
                     -> result (list Value) * State)
  (w : Workload) (incremental : bool) (num_attempts : Z) (log_file : string)
  (st : State) :
  1 <= num_attempts ->
  let out := parallel_execute joblib_Parallel w false (NtStr "serial") incremental
                              false num_attempts log_file st in
  let answer := fun t => outcome (workload_func w) incremental num_attempts st t in
  fst out = Ok (Some ((fun t => entry_of (answer t)) <$> tasks w))
  /\ exists new,
       appended log_file st (snd out) new
       /\ length new = length (tasks w)
       /\ forall i t, tasks w !! i = Some t ->
            exists x, new !! i = Some x
                      /\ log_tag x = (Z.of_nat i + 1, Z.of_nat (length (tasks w)))
                      /\ log_func_name x = func_name w
                      /\ log_error x = negb (is_ok (answer t))
                      /\ log_exception x
                         = match answer t with Ok _ => None | Err e => Some (exn_str e) end.
Proof.
  intros Hna out answer.
  assert (Hrun : out
                 = (Ok (Some ((fun t => entry_of (answer t)) <$> tasks w)),
                    after_all (workload_func w) (func_name w) incremental num_attempts
                              log_file (Z.of_nat (length (tasks w))) 0 (tasks w) st)).
  { unfold out, parallel_execute. cbn [negb].
    rewrite bool_decide_eq_true_2 by done.
    unfold enumerate. fold (enumerate_from 0 (tasks w)).
    rewrite <- (app_nil_r (enumerate_from 0 (tasks w))).
    rewrite serial_loop_continues; [done|done|lia|].
    apply Forall_forall. intros; by left. }
  rewrite Hrun. cbn [fst snd]. split; [done|].
  exists (records_of (workload_func w) (func_name w) incremental num_attempts
                     log_file (Z.of_nat (length (tasks w))) 0 (tasks w) st).
  split; [apply after_all_read_log|].
  split; [apply records_of_length|].
  intros i t Hi.
  destruct (records_of_lookup (workload_func w) (func_name w) incremental
              num_attempts log_file (Z.of_nat (length (tasks w)))
              (tasks w) 0 st i t Hi) as (st_i & Hrec & Hout).
  eexists. split; [exact Hrec|].
  unfold record_of. cbn [log_tag log_func_name log_error log_exception].
  rewrite Hout. fold (answer t). repeat split.
  by destruct (answer t).
Qed.

(** X6. A serial run in which errors abort stops at the first task that
    raises, whatever the later tasks would do: the exception of that task
    is raised, the log file has received one block for it and one for each
    task before it, and the dictionary of a later task is untouched unless
    it is shared with one of the tasks that ran. *)
Theorem parallel_execute_stops_at_first_failure
  (joblib_Parallel : Z -> list (State -> result Value * State) -> State
                     -> result (list Value) * State)
  (w : Workload) (incremental : bool) (num_attempts : Z) (log_file : string)
  (st : State) (pre post : list Task) (t : Task) (e : PyError) :
  1 <= num_attempts ->
  tasks w = pre ++ t :: post ->
  Forall (fun t' => is_ok (outcome (workload_func w) incremental num_attempts st t') = true)
         pre ->
  outcome (workload_func w) incremental num_attempts st t = Err e ->
  let out := parallel_execute joblib_Parallel w false (NtStr "serial") incremental
                              true num_attempts log_file st in
  fst out = Err e
  /\ (exists new, appended log_file st (snd out) new /\ length new = S (length pre))
  /\ (forall t', t' ∈ post ->
        task_kwargs t' ∉ task_kwargs <$> (pre ++ [t]) ->
        heap (snd out) !! task_kwargs t' = heap st !! task_kwargs t').
Proof.
  intros Hna Htasks Hpre Hfail out.
  assert (Hlen : length (tasks w) = (length pre + S (length post))%nat)
    by (by rewrite Htasks, length_app).
  assert (Hrun : out
                 = (Err e,
                    after_all (workload_func w) (func_name w) incremental num_attempts
                              log_file (Z.of_nat (length (tasks w))) 0 (pre ++ [t]) st)).
  { unfold out, parallel_execute. cbn [negb].
    rewrite bool_decide_eq_true_2 by done.
    unfold enumerate. fold (enumerate_from 0 (tasks w)).
    rewrite Htasks at 2. rewrite enumerate_from_app, enumerate_from_cons.
    rewrite serial_loop_continues; [|done|lia|].
    2:{ eapply Forall_impl; [exact Hpre|]. intros; by right. }
    rewrite serial_loop_aborts with (e := e); [|done|lia|].
    2:{ by rewrite after_all_outcome. }
    rewrite after_all_app. reflexivity. }
  rewrite Hrun. cbn [fst snd]. split; [done|]. split.
  - exists (records_of (workload_func w) (func_name w) incremental num_attempts
                       log_file (Z.of_nat (length (tasks w))) 0 (pre ++ [t]) st).
    split; [apply after_all_read_log|].
    by rewrite records_of_length, length_app, Nat.add_comm.
  - intros t' _ Hfresh. rewrite after_all_heap. by destruct (decide _).
Qed.

(** X7. The control parameters are checked by the wrapper, task by task,
    not by [parallel_execute] itself.  With [num_attempts] below 1 a serial
    run of a workload that has tasks fails with an assertion at the first
    task, before anything is logged, any dictionary is changed or the task
    function is called; a workload without tasks returns the empty list all
    the same. *)
Theorem parallel_execute_checks_num_attempts
  (joblib_Parallel : Z -> list (State -> result Value * State) -> State
                     -> result (list Value) * State)
  (w : Workload) (incremental abort_on_error : bool) (num_attempts : Z)
  (log_file : string) (st : State) :
  num_attempts < 1 ->
  parallel_execute joblib_Parallel w false (NtStr "serial") incremental
                   abort_on_error num_attempts log_file st
  = (if bool_decide (tasks w = []) then Ok (Some []) else Err (AssertionError ""), st).
Proof.
  intros Hna. unfold parallel_execute. cbn [negb].
  rewrite bool_decide_eq_true_2 by done.
  destruct (tasks w) as [|t ts] eqn:Ets; [done|].
  rewrite bool_decide_eq_false_2 by done.
  unfold enumerate. cbn [length seq zip zip_with serial_loop].
  unfold wrapper, dbg.dassert_lte, dbg.dassert_lt, dbg.dassert.
  rewrite (proj2 (Z.leb_le 0 (Z.of_nat 0))) by lia. cbn [mbind result_bind].
  rewrite (proj2 (Z.ltb_lt (Z.of_nat 0) (Z.of_nat (S (length ts))))) by lia.
  cbn [mbind result_bind].
  by rewrite (proj2 (Z.leb_gt 1 num_attempts)) by lia.
Qed.

(** X8. The template function raises [KeyError] when it is called without
    the keyword "incremental"; run through [parallel_execute] it never
    does, because the wrapper puts that entry into the keyword arguments of
    every call: a serial run with valid control parameters returns the
    empty summary for every task, whatever the tasks hold. *)
Theorem parallel_execute_feeds_template
  (joblib_Parallel : Z -> list (State -> result Value * State) -> State
                     -> result (list Value) * State)
  (w : Workload) (incremental abort_on_error : bool) (num_attempts : Z)
  (log_file : string) (st : State) :
  workload_func w = _workload_function ->
  1 <= num_attempts ->
  (forall args kwargs,
      kwargs !! "incremental" = None ->
      call _workload_function args kwargs = Err (KeyError "'incremental'"))
  /\ fst (parallel_execute joblib_Parallel w false (NtStr "serial") incremental
                           abort_on_error num_attempts log_file st)
     = Ok (Some (replicate (length (tasks w)) (VStr EmptyString))).
Proof.
  intros Hf Hna. split.
  - intros args kwargs Hnone. cbn [call _workload_function]. by rewrite Hnone.
  - assert (Hanswer : forall st' t,
              outcome (workload_func w) incremental num_attempts st' t
              = Ok (VStr EmptyString)).
    { intros st' t. unfold outcome, call_kwargs. rewrite Hf.
      cbn [call _workload_function].
      by rewrite (proj1 (update_kwargs_lookup incremental num_attempts _)). }
    unfold parallel_execute. cbn [negb].
    rewrite bool_decide_eq_true_2 by done.
    unfold enumerate. fold (enumerate_from 0 (tasks w)).
    rewrite <- (app_nil_r (enumerate_from 0 (tasks w))).
    rewrite serial_loop_continues; [|done|lia|].
    2:{ apply Forall_forall. intros t _. right. by rewrite Hanswer. }
    cbn [serial_loop app fst]. do 2 f_equal.
    induction (tasks w) as [|t ts IH]; [done|].
    cbn [fmap list_fmap length replicate]. rewrite Hanswer. cbn [entry_of].
    f_equal. exact IH.
Qed.


(** *** A workload of three tasks, the second of which raises *)

Module Example.

Definition boom_on_one : Callable :=
  mkCallable
    (fun args kwargs =>
       match args with
       | [VInt 1] => Err (ValueError "boom")
       | [v] => Ok v
       | _ => Err (TypeError "one positional argument expected")
       end)
    "boom_on_one".

Definition t0 : Task := mkTask [VInt 0] 0%nat.
Definition t1 : Task := mkTask [VInt 1] 1%nat.
Definition t2 : Task := mkTask [VInt 2] 2%nat.

Definition workload : Workload := mkWorkload boom_on_one "example" [t0; t1; t2].

Definition store : State :=
  mkState (<[0%nat := ∅]> (<[1%nat := ∅]> (<[2%nat := ∅]> ∅))) ∅.

Definition no_pool (n : Z) (calls : list (State -> result Value * State)) (st : State)
  : result (list Value) * State := (Err (RuntimeError "no worker pool"), st).

Definition run (abort_on_error : bool) : result (option (list Value)) * State :=
  parallel_execute no_pool workload false (NtStr "serial") false abort_on_error 1
                   "log.txt" store.

Definition template_workload : Workload :=
  mkWorkload _workload_function "template" [t0; t1; t2].

End Example.


(** The run, spelled out: results, the log blocks, and the dictionaries of
    the tasks, which were empty before. *)
Example parallel_execute_example :
  fst (Example.run false) = Ok (Some [VInt 0; VStr "boom"; VInt 2])
  /\ fst (Example.run true) = Err (ValueError "boom")
  /\ (log_error <$> read_log (snd (Example.run false)) "log.txt") = [false; true; false]
  /\ (log_error <$> read_log (snd (Example.run true)) "log.txt") = [false; true]
  /\ heap (snd (Example.run true)) !! 1%nat
     = Some (<["num_attempts" := VInt 1]> (<["incremental" := VBool false]> ∅))
  /\ heap (snd (Example.run true)) !! 2%nat = Some ∅.
Proof. repeat split; vm_compute; reflexivity. Qed.

Lemma parallel_execute_collects_every_task_witness :
  fst (Example.run false) = Ok (Some [VInt 0; VStr "boom"; VInt 2]).
Proof.
  destruct (parallel_execute_collects_every_task Example.no_pool Example.workload
              false 1 "log.txt" Example.store ltac:(lia)) as [H _].
  exact H.
Defined.

Lemma parallel_execute_stops_at_first_failure_witness :
  fst (Example.run true) = Err (ValueError "boom")
  /\ heap (snd (Example.run true)) !! 2%nat = heap Example.store !! 2%nat.
Proof.
  destruct (parallel_execute_stops_at_first_failure Example.no_pool Example.workload
              false 1 "log.txt" Example.store [Example.t0] [Example.t2] Example.t1
              (ValueError "boom"))
    as (Hres & _ & Hheap).
  - lia.
  - reflexivity.
  - repeat constructor.
  - reflexivity.
  - split; [exact Hres|].
    apply (Hheap Example.t2).
    + apply list_elem_of_here.
    + intros H. apply (bool_decide_pack _) in H. by vm_compute in H.
Defined.

Lemma parallel_execute_checks_num_attempts_witness :
  parallel_execute Example.no_pool Example.workload false (NtStr "serial") false
                   false 0 "log.txt" Example.store
  = (Err (AssertionError ""), Example.store).
Proof.
  apply (parallel_execute_checks_num_attempts Example.no_pool Example.workload
           false false 0 "log.txt" Example.store).
  lia.
Defined.

Lemma parallel_execute_feeds_template_witness :
  fst (parallel_execute Example.no_pool Example.template_workload false
                        (NtStr "serial") true true 3 "log.txt" Example.store)
  = Ok (Some [VStr EmptyString; VStr EmptyString; VStr EmptyString]).
Proof.
  apply (parallel_execute_feeds_template Example.no_pool Example.template_workload
           true true 3 "log.txt" Example.store); [reflexivity | lia].
Defined.

End JoblibHelpers.

(** ** im_v2/common/data/transform/test/generate_pq_example_data.py *)

Module GeneratePqExampleData.
Import Pandas.

(** A row of the generic table: the index label and the four columns. *)
Record GenericRow : Type := mkGenericRow {
  g_index : Timestamp;
  g_idx : nat;
  g_asset : string;
  g_val1 : nat;
  g_val2 : nat
}.

(** A row of the verbose table, indexed by [vendor_date]. *)
Record VerboseRow : Type := mkVerboseRow {
  v_vendor_date : Timestamp;
  v_interval : Z;
  v_start_time : Z;
  v_end_time : Z;
  v_ticker : string;
  v_currency : string;
  v_open : nat;
  v_id : nat
}.

Inductive DailyDf : Type :=
| Generic (rows : list GenericRow)
| Verbose (rows : list VerboseRow).

(** [df_tmp.drop(df_tmp.tail(1).index, inplace=True)]: drops by label, that
    is every row that carries the label of the last row. *)
Definition drop_tail_label {R : Type} (label : R -> Timestamp) (rows : list R) : list R :=
  match last rows with
  | None => rows
  | Some r => filter (fun x => label x <> label r) rows
  end.

(** [pd.concat(df)] of a list of frames. *)
Definition pd_concat {R : Type} (frames : list (list R)) : result (list R) :=
  match frames with
  | [] => Err (ValueError "No objects to concatenate")
  | _ => Ok (concat frames)
  end.

(** [s.split(",")]. *)
Fixpoint split_commas (s : string) : list string :=
  match s with
  | EmptyString => [EmptyString]
  | String c r =>
      if Ascii.eqb c ","%char then EmptyString :: split_commas r
      else match split_commas r with
           | p :: ps => String c p :: ps
           | [] => [String c EmptyString]
           end
  end.

Record Args : Type := mkArgs {
  start_date : string;
  end_date : string;
  assets : string;
  dst_dir : string;
  freq : option string;
  verbose : bool
}.

Section Generator.

(** How pandas reads a date string is external to the script. *)
Variable to_datetime : string -> result Timestamp.

Definition date_range_str (start_date end_date freq : string)
  : result (list Timestamp) :=
  s ← to_datetime start_date;
  e ← to_datetime end_date;
  date_range s e freq.

Definition _get_generic_daily_df (start_date end_date : string)
  (assets : list string) (freq : string) : result (list GenericRow) :=
  df_idx ← date_range_str start_date end_date freq;
  (* The debug line takes [min(df_idx)] and [max(df_idx)]. *)
  _ ← (if bool_decide (df_idx = []) then Err (ValueError "min() arg is an empty sequence")
       else Ok ());
  let df :=
    imap (fun idx asset =>
            let df_tmp := imap (fun i ts => mkGenericRow ts idx asset i i) df_idx in
            drop_tail_label g_index df_tmp) assets in
  pd_concat df.

Definition _get_verbose_daily_df (start_date end_date : string)
  (assets : list string) (freq : string) : result (list VerboseRow) :=
  df_idx ← date_range_str start_date end_date freq;
  match df_idx with
  | t0 :: t1 :: _ =>
      (* [Timedelta.seconds]: the seconds within the day. *)
      let interval := (t1 - t0) `mod` 86400 in
      let df :=
        imap (fun idx asset =>
                let df_tmp :=
                  imap (fun i ts => mkVerboseRow ts interval ts (ts + interval)
                                                 asset "USD" i idx) df_idx in
                drop_tail_label v_vendor_date df_tmp) assets in
      pd_concat df
  | _ => Err (KeyError "index 1 is out of bounds")
  end.

(** [_main], up to the call that writes the table: it returns the table and
    the directory handed to [hparque.save_daily_df_as_pq]. *)
Definition _main (args : Args) : result (DailyDf * string) :=
  let start_date := start_date args in
  let end_date := end_date args in
  _ ← dbg.dassert (String.ltb start_date end_date) "";
  timespan ← date_range_str start_date end_date "D";
  _ ← dbg.dassert_lt 2 (Z.of_nat (length timespan)) "";
  let assets := split_commas (assets args) in
  let dst_dir := dst_dir args in
  let freq := match freq args with
              | Some f => if bool_decide (f = EmptyString) then "1H" else f
              | None => "1H"
              end in
  dummy_df ← (if verbose args
              then Verbose <$> (_get_verbose_daily_df start_date end_date assets freq)
              else Generic <$> (_get_generic_daily_df start_date end_date assets freq));
  Ok (dummy_df, dst_dir).

End Generator.

(** *** Facts about the generator *)

Lemma sorted_snoc_lt (l : list Z) (x : Z) :
  StronglySorted Z.lt (l ++ [x]) -> Forall (fun y => y < x) l.
Proof.
  intros Hs. apply Forall_forall. intros y Hy.
  eapply (StronglySorted_app_1_elem_of Z.lt); [exact Hs | exact Hy |].
  apply list_elem_of_here.
Qed.

(** On a frame whose labels are strictly increasing, dropping the label of
    the last row removes exactly the last row; the rows that stay keep
    their position. *)
Lemma drop_tail_label_imap {R : Type} (label : R -> Timestamp)
  (mk : nat -> Timestamp -> R) (grid : list Timestamp) :
  (forall i ts, label (mk i ts) = ts) ->
  StronglySorted Z.lt grid ->
  drop_tail_label label (imap mk grid) = imap mk (removelast grid).
Proof.
  intros Hlabel Hs.
  destruct (last grid) as [x|] eqn:Hlast.
  - apply last_Some in Hlast as [g ->].
    rewrite removelast_last, imap_app. unfold drop_tail_label.
    simpl. rewrite last_snoc, filter_app, Hlabel.
    rewrite filter_all.
    + rewrite filter_cons_False, filter_nil, app_nil_r; [done|].
      rewrite Hlabel. by intros H.
    + apply Forall_forall. intros r Hr.
      apply list_elem_of_lookup in Hr as [i Hi].
      rewrite list_lookup_imap in Hi.
      destruct (g !! i) as [ts|] eqn:Hg; [|done]. injection Hi as <-.
      rewrite Hlabel.
      assert (ts < x); [|lia].
      pose proof (sorted_snoc_lt _ _ Hs) as Hall.
      eapply Forall_forall in Hall; [exact Hall|].
      by eapply list_elem_of_lookup_2.
  - apply last_None in Hlast as ->. reflexivity.
Qed.

Lemma split_commas_nonempty (s : string) : split_commas s <> [].
Proof.
  induction s as [|c r IH]; simpl; [done|].
  destruct (Ascii.eqb c ","); [done|]. by destruct (split_commas r).
Qed.

Lemma removelast_below_last (grid : list Timestamp) (ts : Timestamp) :
  StronglySorted Z.lt grid -> ts ∈ removelast grid -> Some ts <> last grid.
Proof.
  intros Hs Hin.
  destruct (last grid) as [x|] eqn:Hlast; [|done].
  apply last_Some in Hlast as [g ->]. rewrite removelast_last in Hin.
  pose proof (sorted_snoc_lt _ _ Hs) as Hall.
  eapply Forall_forall in Hall; [|exact Hin]. intros [= ->]. lia.
Qed.

Lemma arith_range_last (start stop s : Z) :
  0 < s -> start <= stop -> (s | stop - start) ->
  last (arith_range start stop s) = Some stop.
Proof.
  intros Hs Hle [q Hq].
  rewrite last_lookup, arith_range_length. simpl.
  rewrite arith_range_lookup by (rewrite arith_range_length; lia).
  f_equal. rewrite Hq, Z.div_mul by lia.
  rewrite Z2Nat.id by nia. lia.
Qed.

Section GeneratorFacts.

Variable to_datetime : string -> result Timestamp.

(** The table of the generic shape, asset after asset: the grid without
    its last point, each row carrying its position twice. *)
Definition generic_rows (assets : list string) (grid : list Timestamp)
  : list GenericRow :=
  concat (imap (fun idx asset =>
                  imap (fun i ts => mkGenericRow ts idx asset i i) (removelast grid))
               assets).

Lemma _get_generic_daily_df_eq (start_date end_date : string) (assets : list string)
  (freq : string) (s e : Timestamp) (o : DateOffset) :
  to_datetime start_date = Ok s ->
  to_datetime end_date = Ok e ->
  to_offset freq = Ok o ->
  0 < step o -> s <= e -> assets <> [] ->
  _get_generic_daily_df to_datetime start_date end_date assets freq
  = Ok (generic_rows assets (arith_range s e (step o))).
Proof.
  intros Hs He Ho Hpos Hle Hassets.
  unfold _get_generic_daily_df, date_range_str, date_range, date_range_offset.
  rewrite Hs, He. cbn [mbind result_bind]. rewrite Ho. cbn [mbind result_bind].
  rewrite (proj2 (Z.eqb_neq _ _)) by lia.
  rewrite (proj2 (Z.ltb_lt _ _) Hpos), (proj2 (Z.leb_le _ _) Hle).
  cbn [mbind result_bind].
  rewrite bool_decide_eq_false_2 by apply arith_range_nonempty.
  cbn [mbind result_bind]. unfold pd_concat, generic_rows.
  assert (Hmap :
    imap (fun idx asset =>
            drop_tail_label g_index
              (imap (fun i ts => mkGenericRow ts idx asset i i)
                    (arith_range s e (step o)))) assets
    = imap (fun idx asset =>
              imap (fun i ts => mkGenericRow ts idx asset i i)
                   (removelast (arith_range s e (step o)))) assets).
  { apply imap_ext. intros idx asset _.
    apply (drop_tail_label_imap g_index (fun i ts => mkGenericRow ts idx asset i i));
      [done | by apply arith_range_sorted]. }
  rewrite Hmap. by destruct assets.
Qed.

Lemma generic_rows_index (assets : list string) (grid : list Timestamp) (r : GenericRow) :
  r ∈ generic_rows assets grid ->
  g_index r ∈ removelast grid /\ g_val1 r = g_val2 r
  /\ removelast grid !! g_val1 r = Some (g_index r)
  /\ assets !! g_idx r = Some (g_asset r).
Proof.
  unfold generic_rows. rewrite list_elem_of_In, in_concat.
  intros (frame & Hframe & Hr).
  apply list_elem_of_In, list_elem_of_lookup in Hframe as [idx Hidx].
  rewrite list_lookup_imap in Hidx.
  destruct (assets !! idx) as [asset|] eqn:Ha; [|done]. injection Hidx as <-.
  apply list_elem_of_In, list_elem_of_lookup in Hr as [i Hi].
  rewrite list_lookup_imap in Hi.
  destruct (removelast grid !! i) as [ts|] eqn:Hg; [|done]. injection Hi as <-.
  simpl. repeat split; try done. by eapply list_elem_of_lookup_2.
Qed.

(** C9. The generator fails with an assertion when [start_date] is not
    below [end_date], and when the daily range from [start_date] to
    [end_date] has two timestamps or fewer.  With valid arguments and
    [verbose] off, the table handed to the writer is, for each asset in
    turn, the grid over [start, end] without its final row, and [val1] and
    [val2] of a row are its position 0, 1, 2, ... in the series of its
    asset.  The final row is the one at [end_date] itself when the
    frequency divides the span. *)
Theorem generate_main_spec (args : Args) :
  (String.ltb (start_date args) (end_date args) = false ->
   _main to_datetime args = Err (AssertionError ""))
  /\ (forall s e timespan,
        String.ltb (start_date args) (end_date args) = true ->
        to_datetime (start_date args) = Ok s ->
        to_datetime (end_date args) = Ok e ->
        date_range s e "D" = Ok timespan ->
        (length timespan <= 2)%nat ->
        _main to_datetime args = Err (AssertionError ""))
  /\ (forall s e timespan f o,
        String.ltb (start_date args) (end_date args) = true ->
        to_datetime (start_date args) = Ok s ->
        to_datetime (end_date args) = Ok e ->
        date_range s e "D" = Ok timespan ->
        (2 < length timespan)%nat ->
        verbose args = false ->
        f = match freq args with
            | Some f => if bool_decide (f = EmptyString) then "1H" else f
            | None => "1H"
            end ->
        to_offset f = Ok o -> 0 < step o ->
        let grid := arith_range s e (step o) in
        let rows := generic_rows (split_commas (assets args)) grid in
        _main to_datetime args = Ok (Generic rows, dst_dir args)
        /\ Forall (fun r => Some (g_index r) <> last grid
                            /\ g_val1 r = g_val2 r
                            /\ grid !! g_val1 r = Some (g_index r)
                            /\ split_commas (assets args) !! g_idx r = Some (g_asset r))
                  rows
        /\ ((step o | e - s) -> last grid = Some e)).
Proof.
  split; [|split].
  - intros Hlt. unfold _main. by rewrite Hlt.
  - intros s e timespan Hlt Hs He Hspan Hlen.
    unfold _main, date_range_str. rewrite Hlt. cbn [dbg.dassert mbind result_bind].
    rewrite Hs, He. cbn [mbind result_bind]. rewrite Hspan. cbn [mbind result_bind].
    unfold dbg.dassert_lt, dbg.dassert.
    by rewrite (proj2 (Z.ltb_ge _ _)) by lia.
  - intros s e timespan f o Hlt Hs He Hspan Hlen Hverbose Hf Ho Hpos grid rows.
    assert (Hle : s <= e).
    { unfold date_range in Hspan. simpl in Hspan.
      unfold date_range_offset in Hspan. simpl in Hspan.
      destruct (s <=? e) eqn:E; [by apply Z.leb_le|].
      injection Hspan as <-. simpl in Hlen. lia. }
    assert (Hsorted : StronglySorted Z.lt grid) by by apply arith_range_sorted.
    split; [|split].
    + unfold _main, date_range_str. rewrite Hlt. cbn [dbg.dassert mbind result_bind].
      rewrite Hs, He. cbn [mbind result_bind]. rewrite Hspan. cbn [mbind result_bind].
      unfold dbg.dassert_lt, dbg.dassert.
      rewrite (proj2 (Z.ltb_lt _ _)) by lia. cbn [mbind result_bind].
      rewrite Hverbose, <- Hf.
      rewrite (_get_generic_daily_df_eq _ _ _ _ s e o); try done.
      apply split_commas_nonempty.
    + apply Forall_forall. intros r Hr.
      apply generic_rows_index in Hr as (Hin & Hval & Hpos' & Hasset).
      split; [by apply removelast_below_last|]. split; [done|]. split; [|done].
      destruct (last grid) as [x|] eqn:Hlast.
      * apply last_Some in Hlast as [g Hg]. rewrite Hg in *.
        rewrite removelast_last in Hpos'. by apply lookup_app_l_Some.
      * apply last_None in Hlast. by destruct (arith_range_nonempty s e (step o)).
    + intros Hdiv. by apply arith_range_last.
Qed.

(** The table of the verbose shape: as the generic one, each row carrying
    the interval, its own timestamp in epoch seconds as start time, and
    the start time plus the interval as end time. *)
Definition verbose_rows (assets : list string) (grid : list Timestamp) (interval : Z)
  : list VerboseRow :=
  concat (imap (fun idx asset =>
                  imap (fun i ts => mkVerboseRow ts interval ts (ts + interval)
                                                 asset "USD" i idx)
                       (removelast grid))
               assets).

Lemma removelast_arith_range_bounds (s e st ts : Z) :
  0 < st -> s <= e -> ts ∈ removelast (arith_range s e st) -> s <= ts < e.
Proof.
  intros Hst Hle Hin.
  pose proof (arith_range_sorted s e st Hst) as Hsorted.
  destruct (last (arith_range s e st)) as [x|] eqn:Hlast.
  - apply last_Some in Hlast as [g Hg]. rewrite Hg in *.
    rewrite removelast_last in Hin.
    pose proof (sorted_snoc_lt _ _ Hsorted) as Hall.
    eapply Forall_forall in Hall; [|exact Hin].
    assert (Hx : x ∈ arith_range s e st)
      by (rewrite Hg; apply elem_of_app; right; apply list_elem_of_here).
    assert (Hts : ts ∈ arith_range s e st)
      by (rewrite Hg; apply elem_of_app; by left).
    apply arith_range_elem in Hx as (i & ? & ? & ->); [|done..].
    apply arith_range_elem in Hts as (j & ? & ? & ->); [|done..].
    nia.
  - apply last_None in Hlast. by destruct (arith_range_nonempty s e st).
Qed.

Lemma arith_range_two (s e st : Z) :
  0 < st -> s + st <= e -> exists rest, arith_range s e st = s :: s + st :: rest.
Proof.
  intros Hst Hle.
  assert (Hq : 1 <= (e - s) / st) by (apply Z.div_le_lower_bound; lia).
  unfold arith_range.
  destruct (Z.to_nat ((e - s) / st)) as [|m] eqn:Em; [lia|].
  eexists. cbn [seq fmap list_fmap]. f_equal; [lia|]. f_equal. lia.
Qed.

Lemma drop_tail_label_singleton {R : Type} (label : R -> Timestamp) (r : R) :
  drop_tail_label label [r] = [].
Proof.
  unfold drop_tail_label. cbn [last].
  rewrite filter_cons_False; [done|]. by intros H.
Qed.

Lemma concat_imap_nil {A B : Type} (l : list A) :
  forall (g : nat -> A -> list B),
    (forall i x, g i x = []) -> concat (imap g l) = [].
Proof.
  induction l as [|a l IH]; intros g Hg; [done|].
  cbn [imap concat]. rewrite Hg, IH; [done|]. intros i x. apply Hg.
Qed.

Lemma pd_concat_imap {A R : Type} (g : nat -> A -> list R) (l : list A) :
  l <> [] -> pd_concat (imap g l) = Ok (concat (imap g l)).
Proof. by destruct l. Qed.

Lemma length_concat_imap {A B : Type} (n : nat) (l : list A) :
  forall (g : nat -> A -> list B),
    (forall i x, length (g i x) = n) ->
    length (concat (imap g l)) = (length l * n)%nat.
Proof.
  induction l as [|a l IH]; intros g Hg; [done|].
  cbn [imap concat length]. rewrite length_app, Hg, IH; [lia|].
  intros i x. apply Hg.
Qed.

Lemma length_removelast {A : Type} (l : list A) :
  length (removelast l) = pred (length l).
Proof.
  destruct (last l) as [x|] eqn:Hlast.
  - apply last_Some in Hlast as [g ->].
    rewrite removelast_last, length_app. simpl. lia.
  - by apply last_None in Hlast as ->.
Qed.

Lemma _get_verbose_daily_df_eq (start_date end_date : string) (assets : list string)
  (freq : string) (s e : Timestamp) (o : DateOffset) :
  to_datetime start_date = Ok s ->
  to_datetime end_date = Ok e ->
  to_offset freq = Ok o ->
  0 < step o -> s + step o <= e -> assets <> [] ->
  _get_verbose_daily_df to_datetime start_date end_date assets freq
  = Ok (verbose_rows assets (arith_range s e (step o)) (step o `mod` 86400)).
Proof.
  intros Hs He Ho Hpos Hle Hassets.
  unfold _get_verbose_daily_df, date_range_str, date_range, date_range_offset.
  rewrite Hs, He. cbn [mbind result_bind]. rewrite Ho. cbn [mbind result_bind].
  rewrite (proj2 (Z.eqb_neq _ _)) by lia.
  rewrite (proj2 (Z.ltb_lt _ _) Hpos), (proj2 (Z.leb_le s e)) by lia.
  cbn [mbind result_bind].
  destruct (arith_range_two s e (step o) Hpos Hle) as [rest E].
  pose proof (arith_range_sorted s e (step o) Hpos) as Hsorted.
  rewrite E in *. cbv beta iota zeta.
  replace ((s + step o - s) `mod` 86400) with (step o `mod` 86400) by (f_equal; lia).
  rewrite pd_concat_imap by done. unfold verbose_rows. do 2 f_equal.
  apply imap_ext. intros idx asset _.
  by apply (drop_tail_label_imap v_vendor_date
              (fun i ts => mkVerboseRow ts (step o `mod` 86400) ts
                             (ts + step o `mod` 86400) asset "USD" i idx)).
Qed.

Lemma verbose_rows_index (assets : list string) (grid : list Timestamp) (interval : Z)
  (r : VerboseRow) :
  r ∈ verbose_rows assets grid interval ->
  v_vendor_date r ∈ removelast grid
  /\ v_interval r = interval
  /\ v_start_time r = v_vendor_date r
  /\ v_end_time r = v_vendor_date r + interval
  /\ v_currency r = "USD"
  /\ removelast grid !! v_open r = Some (v_vendor_date r)
  /\ assets !! v_id r = Some (v_ticker r).
Proof.
  unfold verbose_rows. rewrite list_elem_of_In, in_concat.
  intros (frame & Hframe & Hr).
  apply list_elem_of_In, list_elem_of_lookup in Hframe as [idx Hidx].
  rewrite list_lookup_imap in Hidx.
  destruct (assets !! idx) as [asset|] eqn:Ha; [|done]. injection Hidx as <-.
  apply list_elem_of_In, list_elem_of_lookup in Hr as [i Hi].
  rewrite list_lookup_imap in Hi.
  destruct (removelast grid !! i) as [ts|] eqn:Hg; [|done]. injection Hi as <-.
  simpl. repeat split; try done. by eapply list_elem_of_lookup_2.
Qed.

(** X10. The verbose table.  When the grid over [start, end] has at least
    two points, the table is, asset after asset, the grid without its final
    row; every row carries the seconds-within-a-day of the grid step as
    [interval], its own timestamp (epoch seconds) as [start_time],
    [start_time + interval] as [end_time], "USD" as currency, its position
    as [open] and the position of its asset as [id]; all timestamps lie in
    the half-open range from [start] to [end].  For a step of whole days
    the interval is 0, so [end_time] equals [start_time]. *)
Theorem verbose_daily_df_spec (start_date end_date : string) (assets : list string)
  (freq : string) (s e : Timestamp) (o : DateOffset) :
  to_datetime start_date = Ok s ->
  to_datetime end_date = Ok e ->
  to_offset freq = Ok o ->
  0 < step o -> s + step o <= e -> assets <> [] ->
  let grid := arith_range s e (step o) in
  let interval := step o `mod` 86400 in
  _get_verbose_daily_df to_datetime start_date end_date assets freq
  = Ok (verbose_rows assets grid interval)
  /\ Forall (fun r => v_interval r = interval
                      /\ v_start_time r = v_vendor_date r
                      /\ v_end_time r = v_start_time r + interval
                      /\ v_currency r = "USD"
                      /\ grid !! v_open r = Some (v_vendor_date r)
                      /\ assets !! v_id r = Some (v_ticker r)
                      /\ s <= v_vendor_date r < e)
            (verbose_rows assets grid interval)
  /\ length (verbose_rows assets grid interval)
     = (length assets * Z.to_nat ((e - s) / step o))%nat
  /\ ((86400 | step o) -> interval = 0).
Proof.
  intros Hs He Ho Hpos Hle Hassets grid interval.
  split; [by apply _get_verbose_daily_df_eq|]. split; [|split].
  - apply Forall_forall. intros r Hr.
    apply verbose_rows_index in Hr as (Hin & Hi & Hst & Hend & Hcur & Hopen & Hid).
    repeat split; try done.
    + by rewrite Hst.
    + destruct (last grid) as [x|] eqn:Hlast.
      * apply last_Some in Hlast as [g Hg]. rewrite Hg in *.
        rewrite removelast_last in Hopen. by apply lookup_app_l_Some.
      * apply last_None in Hlast. by destruct (arith_range_nonempty s e (step o)).
    + apply (removelast_arith_range_bounds s e (step o)); [done|lia|done].
    + apply (removelast_arith_range_bounds s e (step o)); [done|lia|done].
  - unfold verbose_rows.
    rewrite (length_concat_imap (length (removelast grid))).
    + unfold grid. by rewrite length_removelast, arith_range_length.
    + intros i x. by rewrite length_imap.
  - intros Hdiv. unfold interval. by apply Z.mod_divide.
Qed.

(** X11. The generic table in numbers: with valid arguments it has
    [floor((end - start) / step)] rows for each asset, and every row lies
    in the half-open range from [start] (included, the first row of each
    asset) to [end] (excluded). *)
Theorem generic_daily_df_shape (start_date end_date : string) (assets : list string)
  (freq : string) (s e : Timestamp) (o : DateOffset) :
  to_datetime start_date = Ok s ->
  to_datetime end_date = Ok e ->
  to_offset freq = Ok o ->
  0 < step o -> s <= e -> assets <> [] ->
  exists rows,
    _get_generic_daily_df to_datetime start_date end_date assets freq = Ok rows
    /\ length rows = (length assets * Z.to_nat ((e - s) / step o))%nat
    /\ Forall (fun r => s <= g_index r < e) rows
    /\ (s + step o <= e ->
        forall idx asset, assets !! idx = Some asset ->
                          mkGenericRow s idx asset 0 0 ∈ rows).
Proof.
  intros Hs He Ho Hpos Hle Hassets.
  exists (generic_rows assets (arith_range s e (step o))).
  split; [by apply _get_generic_daily_df_eq|]. split; [|split].
  - unfold generic_rows.
    rewrite (length_concat_imap (length (removelast (arith_range s e (step o))))).
    + by rewrite length_removelast, arith_range_length.
    + intros i x. by rewrite length_imap.
  - apply Forall_forall. intros r Hr.
    apply generic_rows_index in Hr as (Hin & _).
    by apply (removelast_arith_range_bounds s e (step o)).
  - intros Hle2 idx asset Hidx. unfold generic_rows.
    apply list_elem_of_In, in_concat.
    exists (imap (fun i ts => mkGenericRow ts idx asset i i)
                 (removelast (arith_range s e (step o)))).
    split.
    + apply list_elem_of_In, list_elem_of_lookup. exists idx.
      by rewrite list_lookup_imap, Hidx.
    + apply list_elem_of_In, list_elem_of_lookup. exists 0%nat.
      rewrite list_lookup_imap.
      destruct (arith_range_two s e (step o) Hpos Hle2) as [rest ->].
      reflexivity.
Qed.

(** X12. Ranges without rows.  When [end] is before [start] the grid is
    empty and both generators fail, the generic one with the [ValueError]
    of taking the minimum of an empty index.  When the grid has the single
    point [start] (the end lies less than one step after the start) the
    generic generator returns a table without rows, whereas the verbose
    one fails for want of a second grid point. *)
Theorem daily_df_degenerate_ranges (start_date end_date : string)
  (assets : list string) (freq : string) (s e : Timestamp) (o : DateOffset) :
  to_datetime start_date = Ok s ->
  to_datetime end_date = Ok e ->
  to_offset freq = Ok o ->
  0 < step o -> assets <> [] ->
  (e < s ->
   _get_generic_daily_df to_datetime start_date end_date assets freq
   = Err (ValueError "min() arg is an empty sequence")
   /\ is_ok (_get_verbose_daily_df to_datetime start_date end_date assets freq) = false)
  /\ (s <= e < s + step o ->
      _get_generic_daily_df to_datetime start_date end_date assets freq = Ok []
      /\ is_ok (_get_verbose_daily_df to_datetime start_date end_date assets freq)
         = false).
Proof.
  intros Hs He Ho Hpos Hassets.
  unfold _get_generic_daily_df, _get_verbose_daily_df, date_range_str, date_range,
    date_range_offset.
  rewrite Hs, He. cbn [mbind result_bind]. rewrite Ho. cbn [mbind result_bind].
  rewrite (proj2 (Z.eqb_neq _ _)) by lia.
  rewrite (proj2 (Z.ltb_lt _ _) Hpos). split.
  - intros Hlt. by rewrite (proj2 (Z.leb_gt _ _) Hlt).
  - intros [Hle Hlt]. rewrite (proj2 (Z.leb_le _ _) Hle).
    assert (Hq : (e - s) / step o = 0) by (apply Z.div_small; lia).
    unfold arith_range. rewrite Hq. cbn [Z.to_nat seq fmap list_fmap].
    cbn [mbind result_bind is_ok]. split; [|done].
    rewrite bool_decide_eq_false_2 by done. cbn [mbind result_bind].
    rewrite pd_concat_imap by done. f_equal.
    apply concat_imap_nil. intros idx asset. apply drop_tail_label_singleton.
Qed.

End GeneratorFacts.

(** *** The command line of the module's docstring *)

Module Example.

(** Days since the epoch of a proleptic Gregorian date. *)
Definition days_from_civil (y m d : Z) : Z :=
  let y' := if m <=? 2 then y - 1 else y in
  let era := y' / 400 in
  let yoe := y' - era * 400 in
  let mp := (m + 9) `mod` 12 in
  let doy := (153 * mp + 2) / 5 + d - 1 in
  let doe := yoe * 365 + yoe / 4 - yoe / 100 + doy in
  era * 146097 + doe - 719468.

(** Dates written "YYYY-MM-DD", read as midnight. *)
Definition parse_iso_date (s : string) : result Timestamp :=
  let bad := Err (ValueError ("Unknown string format: " +:+ s)) in
  let '(y, r1) := span_digits s in
  match r1 with
  | String "-"%char r2 =>
      let '(m, r3) := span_digits r2 in
      match r3 with
      | String "-"%char r4 =>
          let '(d, r5) := span_digits r4 in
          if bool_decide (r5 = EmptyString)
             && negb (bool_decide (y = EmptyString))
             && negb (bool_decide (m = EmptyString))
             && negb (bool_decide (d = EmptyString))
          then Ok (day (days_from_civil (digits_value y) (digits_value m)
                                        (digits_value d)))
          else bad
      | _ => bad
      end
  | _ => bad
  end.

Definition args_docstring : Args :=
  mkArgs "2021-11-23" "2021-11-25" "A,B,C" "test_data_by_date" None false.

Definition args_same_day : Args :=
  mkArgs "2021-11-23" "2021-11-23" "A,B,C" "test_data_by_date" None false.

Definition args_next_day : Args :=
  mkArgs "2021-11-23" "2021-11-24" "A,B,C" "test_data_by_date" None false.

End Example.

Lemma generate_main_spec_witness :
  _main Example.parse_iso_date Example.args_docstring
  = Ok (Generic (generic_rows ["A"; "B"; "C"]
                   (arith_range (day 18954) (day 18956) 3600)),
        "test_data_by_date")
  /\ _main Example.parse_iso_date Example.args_same_day = Err (AssertionError "")
  /\ _main Example.parse_iso_date Example.args_next_day = Err (AssertionError "").
Proof.
  split; [|split].
  - refine (proj1 (proj2 (proj2 (generate_main_spec Example.parse_iso_date
                                   Example.args_docstring))
                     (day 18954) (day 18956) [day 18954; day 18955; day 18956]
                     "1H" (mkOffset 1 3600) _ _ _ _ _ _ _ _ _));
      try reflexivity; try (simpl; lia).
  - apply (proj1 (generate_main_spec Example.parse_iso_date Example.args_same_day)).
    reflexivity.
  - refine (proj1 (proj2 (generate_main_spec Example.parse_iso_date
                            Example.args_next_day))
              (day 18954) (day 18955) [day 18954; day 18955] _ _ _ _ _);
      try reflexivity; try (simpl; lia).
Defined.

(** Two days at the default hourly frequency: 48 rows per asset, the row at
    midnight of the end date dropped, counters running from 0 to 47. *)
Example generate_docstring_rows :
  match _main Example.parse_iso_date Example.args_docstring with
  | Ok (Generic rows, _) =>
      length rows = 144%nat
      /\ rows !! 0%nat = Some (mkGenericRow (day 18954) 0 "A" 0 0)
      /\ rows !! 47%nat = Some (mkGenericRow (day 18956 - 3600) 0 "A" 47 47)
      /\ rows !! 48%nat = Some (mkGenericRow (day 18954) 1 "B" 0 0)
      /\ Forall (fun r => g_index r <> day 18956) rows
  | _ => False
  end.
Proof.
  vm_compute. repeat split. apply Forall_forall. intros r Hr.
  repeat (apply elem_of_cons in Hr as [->|Hr]; [discriminate|]).
  by apply elem_of_nil in Hr.
Qed.

(** Daily steps: two rows per asset, with an interval of 0 seconds. *)
Lemma verbose_daily_df_spec_witness :
  _get_verbose_daily_df Example.parse_iso_date "2021-11-23" "2021-11-25" ["A"; "B"] "1D"
  = Ok (verbose_rows ["A"; "B"] (arith_range (day 18954) (day 18956) 86400) 0).
Proof.
  exact (proj1 (verbose_daily_df_spec Example.parse_iso_date "2021-11-23" "2021-11-25"
                  ["A"; "B"] "1D" (day 18954) (day 18956) (mkOffset 1 86400)
                  eq_refl eq_refl eq_refl eq_refl ltac:(vm_compute; discriminate)
                  ltac:(discriminate))).
Defined.

Lemma generic_daily_df_shape_witness :
  exists rows,
    _get_generic_daily_df Example.parse_iso_date "2021-11-23" "2021-11-25"
                          ["A"; "B"; "C"] "1H" = Ok rows
    /\ length rows = 144%nat.
Proof.
  destruct (generic_daily_df_shape Example.parse_iso_date "2021-11-23" "2021-11-25"
              ["A"; "B"; "C"] "1H" (day 18954) (day 18956) (mkOffset 1 3600)
              eq_refl eq_refl eq_refl eq_refl ltac:(vm_compute; discriminate)
              ltac:(discriminate))
    as (rows & Hrows & Hlen & _).
  exists rows. split; [exact Hrows | exact Hlen].
Defined.

Lemma daily_df_degenerate_ranges_witness :
  _get_generic_daily_df Example.parse_iso_date "2021-11-25" "2021-11-23" ["A"] "1H"
  = Err (ValueError "min() arg is an empty sequence")
  /\ _get_generic_daily_df Example.parse_iso_date "2021-11-23" "2021-11-23" ["A"] "1H"
     = Ok [].
Proof.
  split.
  - apply (proj1 (daily_df_degenerate_ranges Example.parse_iso_date "2021-11-25"
                    "2021-11-23" ["A"] "1H" (day 18956) (day 18954) (mkOffset 1 3600)
                    eq_refl eq_refl eq_refl eq_refl ltac:(discriminate))).
    reflexivity.
  - apply (proj2 (daily_df_degenerate_ranges Example.parse_iso_date "2021-11-23"
                    "2021-11-23" ["A"] "1H" (day 18954) (day 18954) (mkOffset 1 3600)
                    eq_refl eq_refl eq_refl eq_refl ltac:(discriminate))).
    split; [vm_compute; discriminate | reflexivity].
Defined.

End GeneratePqExampleData.

(** ** Tables with named columns *)

Module Frame.
Import Pandas.

(** A cell holds a number or is missing (NaN).  Numbers are rationals: the
    arithmetic of the nodes is exact here, where the code computes in
    floating point. *)
Abbreviation Cell := (option Qc).

Abbreviation Column := (list (option Qc)).

(** Column names are integers or strings. *)
Inductive ColName : Type :=
| ColInt (z : Z)
| ColStr (s : string).

#[global] Instance ColName_eq_dec : EqDecision ColName.
Proof. solve_decision. Defined.

(** [str(y)] of a column name. *)
Definition str_col (c : ColName) : string :=
  match c with
  | ColInt z => pretty z
  | ColStr s => s
  end.

Record DataFrame : Type := mkDataFrame {
  df_index : list Timestamp;
  df_columns : list (ColName * Column)
}.

#[global] Instance DataFrame_eq_dec : EqDecision DataFrame.
Proof. solve_decision. Defined.

Record Series : Type := mkSeries {
  s_index : list Timestamp;
  s_values : Column
}.

Definition columns (df : DataFrame) : list ColName := fst <$> df_columns df.

Fixpoint assoc {A : Type} (c : ColName) (l : list (ColName * A)) : option A :=
  match l with
  | [] => None
  | (c', a) :: rest => if bool_decide (c' = c) then Some a else assoc c rest
  end.

(** [df[c]] for one column. *)
Definition get_column (df : DataFrame) (c : ColName) : result Series :=
  match assoc c (df_columns df) with
  | Some col => Ok (mkSeries (df_index df) col)
  | None => Err (KeyError (str_col c))
  end.

Fixpoint select_columns (cols : list (ColName * Column)) (names : list ColName)
  : result (list (ColName * Column)) :=
  match names with
  | [] => Ok []
  | c :: rest =>
      match assoc c cols with
      | Some col => tl ← select_columns cols rest; Ok ((c, col) :: tl)
      | None => Err (KeyError (str_col c))
      end
  end.

(** [df[names]] for a list of columns. *)
Definition select (df : DataFrame) (names : list ColName) : result DataFrame :=
  cols ← select_columns (df_columns df) names;
  Ok (mkDataFrame (df_index df) cols).

(** [df.rename(columns=mapper)]. *)
Definition rename (mapper : ColName -> ColName) (df : DataFrame) : DataFrame :=
  mkDataFrame (df_index df) ((fun x => (mapper (fst x), snd x)) <$> df_columns df).

(** [shift(periods)] without a frequency: the values move down by [periods]
    rows (up for a negative count), the index stays, and the rows that no
    value moves into are missing. *)
Definition shift_column (periods : Z) (col : Column) : Column :=
  let n := length col in
  if 0 <=? periods then
    let k := (Z.to_nat periods `min` n)%nat in
    replicate k None ++ take (n - k) col
  else
    let k := (Z.to_nat (- periods) `min` n)%nat in
    drop k col ++ replicate k None.

Definition shift (periods : Z) (df : DataFrame) : DataFrame :=
  mkDataFrame (df_index df) ((fun x => (fst x, shift_column periods (snd x))) <$> df_columns df).

Definition shift_series (periods : Z) (s : Series) : Series :=
  mkSeries (s_index s) (shift_column periods (s_values s)).

(** [s.dropna()]: the rows with a value. *)
Definition dropna_series (s : Series) : Series :=
  let rows := filter (fun r => is_Some (snd r)) (zip (s_index s) (s_values s)) in
  mkSeries (fst <$> rows) (snd <$> rows).

Definition cell_at (col : Column) (i : nat) : Cell := default None (col !! i).

Fixpoint position (t : Timestamp) (idx : list Timestamp) : option nat :=
  match idx with
  | [] => None
  | t' :: rest => if bool_decide (t' = t) then Some 0%nat else S <$> position t rest
  end.

(** The values of a series at the labels of another index; a label the
    series does not have gives a missing value.  When the two indexes are
    equal no lookup takes place. *)
Definition align (idx : list Timestamp) (s : Series) : Column :=
  if bool_decide (s_index s = idx) then s_values s
  else (fun t => match position t (s_index s) with
                 | Some i => cell_at (s_values s) i
                 | None => None
                 end) <$> idx.

Definition cell_div (a b : Cell) : Cell :=
  match a, b with
  | Some x, Some y => if bool_decide (y = 0%Qc) then None else Some (x / y)%Qc
  | _, _ => None
  end.

Definition cell_mul (a b : Cell) : Cell :=
  match a, b with
  | Some x, Some y => Some (x * y)%Qc
  | _, _ => None
  end.

(** [df.divide(s, axis=0)] and [df.multiply(s, axis=0)]: every column is
    combined row by row with the series aligned on the index. *)
Definition broadcast (op : Cell -> Cell -> Cell) (df : DataFrame) (s : Series) : DataFrame :=
  let aligned := align (df_index df) s in
  mkDataFrame (df_index df)
    ((fun x => (fst x, imap (fun i a => op a (cell_at aligned i)) (snd x)))
       <$> df_columns df).

Definition divide := broadcast cell_div.
Definition multiply := broadcast cell_mul.

(** [df.isna().any(axis=1)]: per row, whether some column is missing. *)
Definition isna_any (df : DataFrame) : list bool :=
  imap (fun i _ => existsb (fun c => bool_decide (cell_at (snd c) i = None))
                           (df_columns df))
       (df_index df).

(** [df[mask].index]. *)
Definition masked_index (df : DataFrame) (mask : list bool) : list Timestamp :=
  fst <$> filter (fun r => snd r = true) (zip (df_index df) mask).

(** [df.reindex(idx)]. *)
Definition reindex (idx : list Timestamp) (df : DataFrame) : DataFrame :=
  mkDataFrame idx
    ((fun x => (fst x, align idx (mkSeries (df_index df) (snd x)))) <$> df_columns df).

(** *** Facts about shifting *)

Lemma shift_column_length (periods : Z) (col : Column) :
  length (shift_column periods col) = length col.
Proof.
  unfold shift_column. destruct (0 <=? periods);
    rewrite length_app, length_replicate, ?length_take, ?length_drop; lia.
Qed.

(** Row [i] of a shifted column is row [i - periods] of the column, and is
    missing when there is no such row. *)
Lemma shift_column_lookup (periods : Z) (col : Column) (i : nat) :
  (i < length col)%nat ->
  shift_column periods col !! i
  = Some (if bool_decide (0 <= Z.of_nat i - periods < Z.of_nat (length col))
          then cell_at col (Z.to_nat (Z.of_nat i - periods))
          else None).
Proof.
  intros Hi. unfold shift_column, cell_at.
  destruct (0 <=? periods) eqn:Hp.
  - apply Z.leb_le in Hp.
    destruct (decide (Z.to_nat periods <= i)%nat) as [Hle|Hgt].
    + rewrite lookup_app_r, length_replicate by (rewrite length_replicate; lia).
      rewrite lookup_take_lt by lia.
      rewrite bool_decide_eq_true_2 by lia.
      replace (Z.to_nat (Z.of_nat i - periods))
        with (i - (Z.to_nat periods `min` length col))%nat by lia.
      destruct (col !! _) eqn:E; [done|].
      apply lookup_ge_None in E. lia.
    + rewrite lookup_app_l by (rewrite length_replicate; lia).
      rewrite lookup_replicate_2 by lia.
      by rewrite bool_decide_eq_false_2 by lia.
  - apply Z.leb_gt in Hp.
    destruct (decide (Z.of_nat i - periods < Z.of_nat (length col))) as [Hlt|Hge].
    + rewrite lookup_app_l by (rewrite length_drop; lia).
      rewrite lookup_drop, bool_decide_eq_true_2 by lia.
      replace (Z.to_nat (Z.of_nat i - periods))
        with ((Z.to_nat (- periods) `min` length col) + i)%nat by lia.
      destruct (col !! _) eqn:E; [done|].
      apply lookup_ge_None in E. lia.
    + rewrite lookup_app_r by (rewrite length_drop; lia).
      rewrite lookup_replicate_2 by (rewrite length_drop; lia).
      by rewrite bool_decide_eq_false_2 by lia.
Qed.

End Frame.

(** ** core/dataflow/models.py *)

Module Models.
Import Pandas Frame.

Definition non_causal_msg : string := "Non-causal prediction attempted! Aborting...".

(** A column-set specification: a list, or a function that returns one. *)
Inductive ToList : Type :=
| AsList (l : list ColName)
| AsCallable (f : unit -> list ColName).

(** [ToListMixin._to_list].  The [TypeError] for an argument that is neither
    is excluded by the type. *)
Definition _to_list (to_list : ToList) : list ColName :=
  match to_list with
  | AsList l => l
  | AsCallable f => f ()
  end.

(** [x or d] for an optional string: [None] and the empty string are falsy. *)
Definition str_or (x : option string) (d : string) : string :=
  match x with
  | Some s => if bool_decide (s = EmptyString) then d else s
  | None => d
  end.

(** The renaming of forward targets: [str(y) + "_%i" % steps_ahead]. *)
Definition fwd_mapper (steps_ahead : Z) (y : ColName) : ColName :=
  ColStr (str_col y +:+ "_" +:+ pretty steps_ahead).

(** [df[y_vars].shift(-steps_ahead).rename(columns=mapper)], the body shared
    by the three [_get_fwd_y_df] methods. *)
Definition get_fwd_y_df (y_vars : list ColName) (steps_ahead : Z) (df : DataFrame)
  : result DataFrame :=
  sel ← select df y_vars;
  Ok (rename (fwd_mapper steps_ahead) (shift (- steps_ahead) sel)).

(** [seq[:-k]] for [k >= 0]; note that [seq[:-0]] is [seq[:0]]. *)
Definition slice_to_minus {A : Type} (k : Z) (l : list A) : list A :=
  if k =? 0 then [] else take (length l - Z.to_nat k) l.

Section Nodes.
Context {ModelFunc ModelKwargs Model InitKwargs FitKwargs : Type}.

(** *** ContinuousSkLearnModel *)

Record ContinuousSkLearnModel : Type := mkContinuousSkLearnModel {
  csl_nid : string;
  csl_model_func : ModelFunc;
  csl_model_kwargs : option ModelKwargs;
  csl_x_vars : ToList;
  csl_y_vars : ToList;
  csl_model : option Model;
  csl_steps_ahead : Z;
  csl_col_mode : string;
  csl_nan_mode : string
}.



(** The index slice at the head of [fit]:
    [dassert_lt(steps_ahead, df.index.size); idx = df.index[:-steps_ahead]]. *)
Definition ContinuousSkLearnModel_fit_idx (self : ContinuousSkLearnModel)
  (df : DataFrame) : result (list Timestamp) :=
  _ ← dbg.dassert_lt (csl_steps_ahead self) (Z.of_nat (length (df_index df))) "";
  Ok (slice_to_minus (csl_steps_ahead self) (df_index df)).

(** *** SmaModel *)

Record SmaModel : Type := mkSmaModel {
  sma_nid : string;
  sma_col : list ColName;
  sma_steps_ahead : Z;
  sma_nan_mode : string;
  sma_col_mode : string;
  _must_learn_tau : bool;
  _tau : option Qc;
  _min_tau_periods : Qc;
  _min_depth : Z;
  _max_depth : Z
}.

Definition SmaModel_init (nid : string) (col : ToList) (steps_ahead : Z)
  (tau : option Qc) (min_tau_periods : option Qc) (col_mode nan_mode : option string)
  : result SmaModel :=
  let col := _to_list col in
  _ ← dbg.dassert_eq_nat (length col) 1 "";
  _ ← dbg.dassert_lte 0 steps_ahead non_causal_msg;
  let nan_mode := match nan_mode with None => "raise" | Some m => m end in
  let col_mode := str_or col_mode "replace_all" in
  _ ← dbg.dassert_in col_mode ["replace_all"; "merge_all"] "";
  let must_learn_tau := match tau with None => true | Some _ => false end in
  let min_tau_periods := default 0%Qc min_tau_periods in
  Ok (mkSmaModel nid col steps_ahead nan_mode col_mode must_learn_tau tau
        min_tau_periods 1 1).


(** *** ContinuousSarimaxModel *)

Record ContinuousSarimaxModel : Type := mkContinuousSarimaxModel {
  sar_nid : string;
  sar_y_vars : ToList;
  sar_steps_ahead : Z;
  sar_init_kwargs : option InitKwargs;
  sar_fit_kwargs : option FitKwargs;
  sar_x_vars : option ToList;
  sar_add_constant : bool;
  sar_model : option Model;
  sar_col_mode : string;
  sar_nan_mode : string;
  sar_disable_tqdm : bool
}.



End Nodes.

(** *** SkLearnModel *)

Section SkLearn.
Context {Model NdArray ModelKwargs Perf : Type}.

(** The data adapters of [core/data_adapters.py], the estimator, the
    column-merge mixin of [core/dataflow/nodes.py] and the performance
    statistics are collaborators outside the sources. *)
Variable transform_to_sklearn_old :
  DataFrame -> list ColName -> list ColName -> result (NdArray * NdArray).
Variable transform_from_sklearn :
  list Timestamp -> list ColName -> NdArray -> result DataFrame.
Variable estimator_fit : Model -> NdArray -> NdArray -> result Model.
Variable estimator_predict : Model -> NdArray -> result NdArray.
Variable _apply_col_mode :
  DataFrame -> DataFrame -> list ColName -> string -> result DataFrame.
Variable _model_perf : DataFrame -> DataFrame -> DataFrame -> result Perf.

Record SkLearnModel : Type := mkSkLearnModel {
  sk_nid : string;
  sk_model_func : ModelKwargs -> result Model;
  sk_model_kwargs : ModelKwargs;
  sk_x_vars : ToList;
  sk_y_vars : ToList;
  sk_model : option Model;
  sk_col_mode : string
}.

Definition sk_with_model (m : Model) (self : SkLearnModel) : SkLearnModel :=
  mkSkLearnModel (sk_nid self) (sk_model_func self) (sk_model_kwargs self)
                 (sk_x_vars self) (sk_y_vars self) (Some m) (sk_col_mode self).

(** [SkLearnModel._validate_input_df]: the column names are unique. *)
Definition SkLearnModel_validate_input_df (df : DataFrame) : result unit :=
  dbg.dassert (bool_decide (NoDup (columns df))) "duplicated columns".

Definition _to_sklearn_format (self : SkLearnModel) (df : DataFrame)
  : result (list ColName * NdArray * list ColName * NdArray) :=
  let x_vars := _to_list (sk_x_vars self) in
  let y_vars := _to_list (sk_y_vars self) in
  vals ← transform_to_sklearn_old df x_vars y_vars;
  Ok (x_vars, fst vals, y_vars, snd vals).

Definition hat (y : ColName) : ColName := ColStr (str_col y +:+ "_hat").

Definition _from_sklearn_format (idx : list Timestamp) (x_vars : list ColName)
  (x_vals : NdArray) (y_vars : list ColName) (y_vals y_hat : NdArray)
  : result (DataFrame * DataFrame * DataFrame) :=
  x ← transform_from_sklearn idx x_vars x_vals;
  y ← transform_from_sklearn idx y_vars y_vals;
  y_h ← transform_from_sklearn idx (hat <$> y_vars) y_hat;
  Ok (x, y, y_h).

Definition nan_msg : string := "NaNs detected at index".

Definition SkLearnModel_fit (self : SkLearnModel) (df_in : DataFrame)
  : result (DataFrame * SkLearnModel) :=
  _ ← SkLearnModel_validate_input_df df_in;
  _ ← dbg.dassert (bool_decide (masked_index df_in (isna_any df_in) = [])) nan_msg;
  let df := df_in in
  let idx := df_index df in
  f ← _to_sklearn_format self df;
  let '(x_vars, x_fit, y_vars, y_fit) := f in
  model ← sk_model_func self (sk_model_kwargs self);
  model ← estimator_fit model x_fit y_fit;
  y_hat ← estimator_predict model x_fit;
  g ← _from_sklearn_format idx x_vars x_fit y_vars y_fit y_hat;
  let '(x_fit, y_fit, y_hat) := g in
  let y_hat := reindex idx y_hat in
  df_out ← _apply_col_mode df y_hat y_vars (sk_col_mode self);
  Ok (df_out, sk_with_model model self).

Definition SkLearnModel_predict (self : SkLearnModel) (df_in : DataFrame)
  : result (DataFrame * SkLearnModel) :=
  _ ← SkLearnModel_validate_input_df df_in;
  let df := df_in in
  let idx := df_index df in
  f ← _to_sklearn_format self df;
  let '(x_vars, x_predict, y_vars, y_predict) := f in
  model ← match sk_model self with
          | Some m => Ok m
          | None => Err (AssertionError "Model not found! Check if `fit` has been run.")
          end;
  y_hat ← estimator_predict model x_predict;
  g ← _from_sklearn_format idx x_vars x_predict y_vars y_predict y_hat;
  let '(x_predict, y_predict, y_hat) := g in
  _ ← _model_perf x_predict y_predict y_hat;
  let y_hat := reindex idx y_hat in
  df_out ← _apply_col_mode df y_hat y_vars (sk_col_mode self);
  Ok (df_out, self).

End SkLearn.

(** *** SmaModel: learning tau *)

(** [np.rint]: the nearest integer, ties to the even one. *)
Definition rint (q : Qc) : Z :=
  let f := Qfloor q in
  match Qcompare (q - inject_Z f)%Q (1 # 2) with
  | Lt => f
  | Gt => f + 1
  | Eq => if Z.even f then f else f + 1
  end.

(** [int(q)]: truncation towards zero. *)
Definition int_trunc (q : Qc) : Z :=
  if bool_decide (0 ≤ q)%Qc then Qfloor q else Qceiling q.

(** [seq[k:]]. *)
Definition slice_from {A : Type} (k : Z) (l : list A) : list A :=
  if 0 <=? k then drop (Z.to_nat k) l
  else drop (length l - Z.to_nat (- k)) l.

Section SmaLearning.

(** [csigna.compute_smooth_moving_average], [sklearn.metrics.mean_absolute_error]
    and [scipy.optimize.minimize_scalar(..., method="bounded", bounds=...)]. *)
Variable compute_smooth_moving_average : list Qc -> Qc -> Z -> Z -> Z -> list Qc.
Variable mean_absolute_error : list Qc -> list Qc -> Qc.
Variable minimize_scalar_bounded : (Qc -> Qc) -> Qc -> Qc -> result Qc.

Definition _get_min_periods (self : SmaModel) (tau : Qc) : Z :=
  rint (_min_tau_periods self * tau)%Qc.

Definition score (self : SmaModel) (x y : list Qc) (tau : Qc) : Qc :=
  let sma := compute_smooth_moving_average x tau 0 (_min_depth self) (_max_depth self) in
  let min_periods := _get_min_periods self tau in
  mean_absolute_error (slice_from min_periods sma) (slice_from min_periods y).

(** The bracket handed to the optimizer. *)
Definition tau_bounds (self : SmaModel) (x : list Qc) : Qc * Qc :=
  let tau_lb := Qc_of_Z 1 in
  let tau_ub := Qc_of_Z 1000 in
  let tau_ub :=
    if bool_decide (0 < _min_tau_periods self)%Qc
    then Qc_of_Z (int_trunc (Qc_of_Z (Z.of_nat (length x))
                             / (Qc_of_Z 2 * _min_tau_periods self))%Qc)
    else tau_ub in
  (tau_lb, tau_ub).

Definition _learn_tau (self : SmaModel) (x y : list Qc) : result Qc :=
  let '(tau_lb, tau_ub) := tau_bounds self x in
  minimize_scalar_bounded (score self x y) tau_lb tau_ub.

(** The step "Define and fit model" of [fit], with the two diagnostics
    [info["tau"]] and [info["min_periods"]]. *)
Definition SmaModel_fit_model (self : SmaModel) (x_fit fwd_y_fit : list Qc)
  : result (SmaModel * (Qc * Z)) :=
  tau ← (if _must_learn_tau self then _learn_tau self x_fit fwd_y_fit
         else match _tau self with
              | Some tau => Ok tau
              | None => Err (TypeError "unsupported operand type(s) for *")
              end);
  let self := mkSmaModel (sma_nid self) (sma_col self) (sma_steps_ahead self)
                (sma_nan_mode self) (sma_col_mode self) (_must_learn_tau self)
                (Some tau) (_min_tau_periods self) (_min_depth self) (_max_depth self) in
  let min_periods := _get_min_periods self tau in
  Ok (self, (tau, min_periods)).

End SmaLearning.

(** *** VolatilityModulator *)

Record VolatilityModulator : Type := mkVolatilityModulator {
  vm_nid : string;
  _signal_cols : list ColName;
  _volatility_col : ColName;
  _signal_steps_ahead : Z;
  _volatility_steps_ahead : Z;
  _mode : string;
  _col_rename_func : ColName -> ColName;
  vm_col_mode : string;
  vm_nan_mode : string
}.

Definition VolatilityModulator_init (nid : string) (signal_cols : ToList)
  (volatility_col : ColName) (signal_steps_ahead volatility_steps_ahead : Z)
  (mode : string) (col_rename_func : option (ColName -> ColName))
  (col_mode nan_mode : option string) : result VolatilityModulator :=
  let signal_cols := _to_list signal_cols in
  _ ← dbg.dassert_lte 0 signal_steps_ahead "";
  _ ← dbg.dassert_lte 0 volatility_steps_ahead "";
  _ ← dbg.dassert_in mode ["modulate"; "demodulate"] "";
  Ok (mkVolatilityModulator nid signal_cols volatility_col signal_steps_ahead
        volatility_steps_ahead mode (default (fun x => x) col_rename_func)
        (str_or col_mode "replace_all") (str_or nan_mode "leave_unchanged")).

(** [_process_signal] up to the adjusted signal. *)
Definition adjusted_signal (self : VolatilityModulator) (df_in : DataFrame)
  : result DataFrame :=
  _ ← dbg.dassert (forallb (fun c => bool_decide (c ∈ columns df_in))
                           (_signal_cols self)) "";
  _ ← dbg.dassert (bool_decide (_volatility_col self ∈ columns df_in)) "";
  fwd_signal ← select df_in (_signal_cols self);
  fwd_volatility ← get_column df_in (_volatility_col self);
  let volatility_shift := _volatility_steps_ahead self - _signal_steps_ahead self in
  fwd_volatility ←
    (if bool_decide (vm_nan_mode self = "drop") then Ok (dropna_series fwd_volatility)
     else if bool_decide (vm_nan_mode self = "leave_unchanged") then Ok fwd_volatility
     else Err (ValueError ("Unrecognized `nan_mode` " +:+ vm_nan_mode self)));
  let volatility_aligned := shift_series volatility_shift fwd_volatility in
  if bool_decide (_mode self = "demodulate")
  then Ok (divide fwd_signal volatility_aligned)
  else if bool_decide (_mode self = "modulate")
  then Ok (multiply fwd_signal volatility_aligned)
  else Err (ValueError ("Invalid mode=`" +:+ _mode self +:+ "`")).

Section ProcessSignal.

(** [ColModeMixin._apply_col_mode] of [core/dataflow/nodes.py]. *)
Variable _apply_col_mode :
  DataFrame -> DataFrame -> list ColName -> (ColName -> ColName) -> string
  -> result DataFrame.

Definition _process_signal (self : VolatilityModulator) (df_in : DataFrame)
  : result DataFrame :=
  adjusted ← adjusted_signal self df_in;
  _apply_col_mode df_in adjusted (_signal_cols self) (_col_rename_func self)
                  (vm_col_mode self).

End ProcessSignal.

(** Modelled from the spec: [ColModeMixin._apply_col_mode], which is not
    among the sources.  ["replace_all"]: the output consists solely of the
    transformed columns; ["merge_all"]: the transformed columns are merged
    into the untouched input columns; ["replace_selected"]: the input
    columns [cols] are replaced, the rest of the input is kept.  The
    rename function is applied to the transformed columns first; a column
    name that would occur twice is a failure.  Both tables are taken to
    carry the same index. *)
Definition apply_col_mode (df_in df_out : DataFrame) (cols : list ColName)
  (col_rename_func : ColName -> ColName) (col_mode : string) : result DataFrame :=
  let df_out := rename col_rename_func df_out in
  _ ← dbg.dassert (bool_decide (df_index df_in = df_index df_out)) "index";
  merged ←
    (if bool_decide (col_mode = "merge_all") then
       Ok (mkDataFrame (df_index df_in) (df_columns df_in ++ df_columns df_out))
     else if bool_decide (col_mode = "replace_selected") then
       Ok (mkDataFrame (df_index df_in)
             (filter (fun x => fst x ∉ cols) (df_columns df_in) ++ df_columns df_out))
     else if bool_decide (col_mode = "replace_all") then Ok df_out
     else Err (AssertionError ("Invalid `col_mode`=" +:+ col_mode)));
  _ ← dbg.dassert (bool_decide (NoDup (columns merged))) "duplicated columns";
  Ok merged.




(** *** SkLearnModel: the names of the performance columns *)

(** [a in chars]. *)
Fixpoint str_mem (a : Ascii.ascii) (chars : string) : bool :=
  match chars with
  | EmptyString => false
  | String c r => bool_decide (c = a) || str_mem a r
  end.

(** Every character of [t] occurs in [chars]. *)
Fixpoint all_mem (chars t : string) : bool :=
  match t with
  | EmptyString => true
  | String a r => str_mem a chars && all_mem chars r
  end.

(** [s.lstrip(chars)], [s.rstrip(chars)] and [s.strip(chars)]: the leading
    and the trailing characters that occur in [chars] are removed. *)
Fixpoint lstrip (chars s : string) : string :=
  match s with
  | EmptyString => EmptyString
  | String a r => if str_mem a chars then lstrip chars r else s
  end.

Fixpoint rstrip (chars s : string) : string :=
  match s with
  | EmptyString => EmptyString
  | String a r =>
      match rstrip chars r with
      | EmptyString => if str_mem a chars then EmptyString else String a EmptyString
      | String b r' => String a (String b r')
      end
  end.

Definition strip (chars s : string) : string := rstrip chars (lstrip chars s).

(** The renaming in [SkLearnModel._model_perf]: [lambda x: x.strip("_hat")]. *)
Definition perf_mapper (x : string) : string := strip "_hat" x.

(** The columns of [y_hat.rename(columns=...)] in [_model_perf], where
    [y_hat] has the columns [f"{y}_hat"] of [_from_sklearn_format]. *)
Definition perf_columns (y_vars : list ColName) : list ColName :=
  (fun y => ColStr (perf_mapper (str_col (hat y)))) <$> y_vars.

Definition first_char (s : string) : option Ascii.ascii :=
  match s with
  | EmptyString => None
  | String a _ => Some a
  end.

Fixpoint last_char (s : string) : option Ascii.ascii :=
  match s with
  | EmptyString => None
  | String a r => match r with
                  | EmptyString => Some a
                  | String _ _ => last_char r
                  end
  end.

(** A string column name that is empty or neither starts nor ends with one
    of the characters of "_hat". *)
Definition keeps_name (y : ColName) : bool :=
  match y with
  | ColInt _ => false
  | ColStr s =>
      match first_char s, last_char s with
      | Some a, Some b => negb (str_mem a "_hat") && negb (str_mem b "_hat")
      | _, _ => true
      end
  end.

(** *** MultihorizonReturnsPredictionProcessor *)

Record MultihorizonReturnsPredictionProcessor : Type :=
  mkMultihorizonReturnsPredictionProcessor {
  mrp_nid : string;
  _target_col : ColName;
  _prediction_cols : list ColName;
  mrp_volatility_col : option ColName;
  _max_steps_ahead : nat
}.

Definition MultihorizonReturnsPredictionProcessor_init (nid : string)
  (target_col : ColName) (prediction_cols : ToList) (volatility_col : option ColName)
  : MultihorizonReturnsPredictionProcessor :=
  let prediction_cols := _to_list prediction_cols in
  mkMultihorizonReturnsPredictionProcessor nid target_col prediction_cols
    volatility_col (length prediction_cols).

Definition cell_add (a b : Cell) : Cell :=
  match a, b with
  | Some x, Some y => Some (x + y)%Qc
  | _, _ => None
  end.

(** [df.iloc[:, :i].sum(axis=1, skipna=False)]: per row, the sum of the
    first [i] columns, missing as soon as one of them is. *)
Definition sum_first (i : nat) (df : DataFrame) : Column :=
  imap (fun r _ => foldl (fun acc c => cell_add acc (cell_at (snd c) r))
                         (Some 0%Qc) (take i (df_columns df)))
       (df_index df).

(** [f"cumret_{i}_hat"]. *)
Definition cumret_hat (i : nat) : ColName :=
  ColStr ("cumret_" +:+ pretty i +:+ "_hat").

Definition _process_predictions (self : MultihorizonReturnsPredictionProcessor)
  (df_in : DataFrame) : result DataFrame :=
  predictions ← select df_in (_prediction_cols self);
  predictions ←
    match mrp_volatility_col self with
    | Some v => vol_1_hat ← get_column df_in v; Ok (multiply predictions vol_1_hat)
    | None => Ok predictions
    end;
  let cum_ret_hats :=
    (fun i => (cumret_hat i, sum_first i predictions)) <$> seq 1 (_max_steps_ahead self) in
  match cum_ret_hats with
  | [] => Err (ValueError "No objects to concatenate")
  | _ :: _ => Ok (mkDataFrame (df_index predictions) cum_ret_hats)
  end.

(** The single-step forecast of column [c] at row [r], times the volatility
    forecast of that row when a volatility column is given. *)
Definition step_forecast (df : DataFrame) (volatility_col : option ColName)
  (c : ColName) (r : nat) : Cell :=
  let p := cell_at (default [] (assoc c (df_columns df))) r in
  match volatility_col with
  | Some v => cell_mul p (cell_at (default [] (assoc v (df_columns df))) r)
  | None => p
  end.

(** The column of single-step forecasts that enters the sums. *)
Definition scaled_col (df : DataFrame) (volatility_col : option ColName) (c : ColName)
  : Column :=
  let col := default [] (assoc c (df_columns df)) in
  match volatility_col with
  | Some v => imap (fun i a => cell_mul a (cell_at (default [] (assoc v (df_columns df))) i))
                   col
  | None => col
  end.

(** The cell of the [k]-th column (from 0) of a table at row [r]. *)
Definition cell_of (df : DataFrame) (k r : nat) : Cell :=
  match df_columns df !! k with
  | Some (_, col) => cell_at col r
  | None => None
  end.

(** *** ContinuousSarimaxModel: the exogenous table *)

(** The positions at which an index carries the label [t]. *)
Definition positions (t : Timestamp) (idx : list Timestamp) : list nat :=
  filter (fun i => idx !! i = Some t) (seq 0 (length idx)).

(** The labels of an index at the positions [ps]. *)
Definition labels_at (idx : list Timestamp) (ps : list nat) : list Timestamp :=
  (fun p => default (0 : Timestamp) (idx !! p)) <$> ps.

(** The rows of a table at the positions [ps], in this order. *)
Definition take_rows (ps : list nat) (df : DataFrame) : DataFrame :=
  mkDataFrame (labels_at (df_index df) ps)
              ((fun c => (fst c, (fun p => cell_at (snd c) p) <$> ps)) <$> df_columns df).

(** [df.loc[labels]] for a list of labels: for each label the rows that
    carry it; [KeyError] when the index lacks one of the labels. *)
Definition loc_labels (labels : list Timestamp) (df : DataFrame) : result DataFrame :=
  if forallb (fun t => bool_decide (t ∈ df_index df)) labels
  then Ok (take_rows (labels ≫= (fun t => positions t (df_index df))) df)
  else Err (KeyError "labels not in index").

(** No column of the table is missing in row [i]. *)
Definition complete_at (df : DataFrame) (i : nat) : bool :=
  forallb (fun c => bool_decide (is_Some (cell_at (snd c) i))) (df_columns df).

(** [df.dropna()]: the rows without a missing value. *)
Definition dropna (df : DataFrame) : DataFrame :=
  take_rows (filter (fun i => complete_at df i = true) (seq 0 (length (df_index df)))) df.

(** [a.intersection(b)] for two ascending indexes without duplicates. *)
Definition index_intersection (a b : list Timestamp) : list Timestamp :=
  filter (fun t => t ∈ b) a.

(** *** The rows a forward-looking node is fitted on and predicts for *)

(** [df[names]] as a table. *)
Definition selected (names : list ColName) (df : DataFrame) : DataFrame :=
  mkDataFrame (df_index df) ((fun y => (y, default [] (assoc y (df_columns df)))) <$> names).

(** The forward targets as a table: column [y] moved up by [k] rows. *)
Definition fwd_targets (y_vars : list ColName) (k : Z) (df : DataFrame) : DataFrame :=
  mkDataFrame (df_index df)
    ((fun y => (fwd_mapper k y,
                shift_column (- k) (default [] (assoc y (df_columns df))))) <$> y_vars).

(** The value of column [c] of a table in row [i]. *)
Definition cell (df : DataFrame) (c : ColName) (i : nat) : Cell :=
  cell_at (default [] (assoc c (df_columns df))) i.

(** The positions of the rows fitted on: among the first [m] rows, those
    in which no selected column and no forward target is missing. *)
Definition fit_positions (x_vars y_vars : list ColName) (k : Z) (m : nat)
  (df : DataFrame) : list nat :=
  filter (fun i => complete_at (selected x_vars df) i
                   && complete_at (fwd_targets y_vars k df) i = true) (seq 0 m).

(** The positions of the rows predicted for: those in which no selected
    column is missing. *)
Definition predict_positions (x_vars : list ColName) (df : DataFrame) : list nat :=
  filter (fun i => complete_at (selected x_vars df) i = true)
         (seq 0 (length (df_index df))).


(** The three [_handle_nans]: [idx.shape[0] != non_nan_idx.shape[0]] is
    an error in mode "raise".  The rendering of the missing labels in the
    message is not modelled. *)
Definition ContinuousSkLearnModel_handle_nans (nan_mode : string)
  (idx non_nan_idx : list Timestamp) : result unit :=
  if bool_decide (nan_mode = "raise") then
    if bool_decide (length idx <> length non_nan_idx)
    then Err (ValueError "NaNs detected") else Ok ()
  else if bool_decide (nan_mode = "drop") then Ok ()
  else Err (ValueError ("Unrecognized nan_mode `" +:+ nan_mode +:+ "`")).

Definition SmaModel_handle_nans (nan_mode : string)
  (idx non_nan_idx : list Timestamp) : result unit :=
  if bool_decide (nan_mode = "raise") then
    if bool_decide (length idx <> length non_nan_idx)
    then Err (ValueError "NaNs detected") else Ok ()
  else if bool_decide (nan_mode = "drop") then Ok ()
  else if bool_decide (nan_mode = "leave_unchanged") then Ok ()
  else Err (ValueError ("Unrecognized nan_mode `" +:+ nan_mode +:+ "`")).

(** The lines that [ContinuousSkLearnModel.fit] and [SmaModel.fit] share,
    from the index slice [idx] to the tables handed to the adapter: the
    labels fitted on, the rows [df.loc[non_nan_idx]] and the forward
    targets [fwd_y_df]. *)
Definition fwd_fit_rows (x_vars y_vars : list ColName) (steps_ahead : Z)
  (handle_nans : list Timestamp -> list Timestamp -> result unit)
  (idx : list Timestamp) (df : DataFrame)
  : result (list Timestamp * DataFrame * DataFrame) :=
  x_rows ← loc_labels idx df;
  x_rows ← select x_rows x_vars;
  let non_nan_idx_x := df_index (dropna x_rows) in
  fwd_y_df ← get_fwd_y_df y_vars steps_ahead df;
  fwd_y_df ← loc_labels idx fwd_y_df;
  let fwd_y_df := dropna fwd_y_df in
  let non_nan_idx_fwd_y := df_index (dropna fwd_y_df) in
  let non_nan_idx := index_intersection non_nan_idx_x non_nan_idx_fwd_y in
  _ ← dbg.dassert (negb (bool_decide (non_nan_idx = []))) "";
  fwd_y_df ← loc_labels non_nan_idx fwd_y_df;
  _ ← handle_nans idx non_nan_idx;
  x_df ← loc_labels non_nan_idx df;
  Ok (non_nan_idx, x_df, fwd_y_df).

(** The lines that the two [predict] share: the labels predicted for and
    the rows [df.loc[non_nan_idx]]. *)
Definition fwd_predict_rows (x_vars : list ColName)
  (handle_nans : list Timestamp -> list Timestamp -> result unit) (df : DataFrame)
  : result (list Timestamp * DataFrame) :=
  let idx := df_index df in
  x_rows ← loc_labels idx df;
  x_rows ← select x_rows x_vars;
  let non_nan_idx := df_index (dropna x_rows) in
  _ ← handle_nans idx non_nan_idx;
  x_df ← loc_labels non_nan_idx df;
  Ok (non_nan_idx, x_df).

(** [str(y) + "_bkwd_%i" % shift]. *)
Definition bkwd_mapper (shift : Z) (y : ColName) : ColName :=
  ColStr (str_col y +:+ "_bkwd_" +:+ pretty shift).

Definition const_msg : string :=
  "A column name 'const' is already present, please rename column.".

Section Sarimax.
Context {Model InitKwargs FitKwargs : Type}.

(** The frequency of a [DatetimeIndex] in seconds, [statsmodels]'
    [add_constant], and the parts of [fit] and [predict] that build, fit
    and run the SARIMAX model and package its output are collaborators
    outside the sources. *)
Variable index_freq : list Timestamp -> option Z.
Variable sm_add_constant : option DataFrame -> result DataFrame.
Variable fit_model :
  @ContinuousSarimaxModel Model InitKwargs FitKwargs -> DataFrame -> DataFrame
  -> option DataFrame -> result (DataFrame * Model).
Variable predict_model :
  @ContinuousSarimaxModel Model InitKwargs FitKwargs -> DataFrame -> DataFrame
  -> option DataFrame -> result DataFrame.

(** [RegFreqMixin._validate_input_df]. *)
Definition RegFreqMixin_validate_input_df (df : DataFrame) : result unit :=
  _ ← dbg.dassert (bool_decide (NoDup (columns df))) "duplicated columns";
  dbg.dassert (bool_decide (is_Some (index_freq (df_index df)))) "".

(** [index.shift(n)]: every label moves by [n] periods of the frequency. *)
Definition index_shift (idx : list Timestamp) (n : Z) : result (list Timestamp) :=
  match index_freq idx with
  | Some f => Ok ((fun t => t + n * f) <$> idx)
  | None => Err (ValueError "Cannot shift with no freq")
  end.

Definition sar_with_x_vars (x_vars : option ToList)
  (self : @ContinuousSarimaxModel Model InitKwargs FitKwargs)
  : @ContinuousSarimaxModel Model InitKwargs FitKwargs :=
  mkContinuousSarimaxModel (sar_nid self) (sar_y_vars self) (sar_steps_ahead self)
    (sar_init_kwargs self) (sar_fit_kwargs self) x_vars (sar_add_constant self)
    (sar_model self) (sar_col_mode self) (sar_nan_mode self) (sar_disable_tqdm self).

Definition sar_with_model (m : Model)
  (self : @ContinuousSarimaxModel Model InitKwargs FitKwargs)
  : @ContinuousSarimaxModel Model InitKwargs FitKwargs :=
  mkContinuousSarimaxModel (sar_nid self) (sar_y_vars self) (sar_steps_ahead self)
    (sar_init_kwargs self) (sar_fit_kwargs self) (sar_x_vars self)
    (sar_add_constant self) (Some m) (sar_col_mode self) (sar_nan_mode self)
    (sar_disable_tqdm self).

Definition _get_bkwd_x_df (self : @ContinuousSarimaxModel Model InitKwargs FitKwargs)
  (df : DataFrame) : result DataFrame :=
  x_vars ← match sar_x_vars self with
           | Some x_vars => Ok (_to_list x_vars)
           | None => Err (TypeError "Data type=`<class 'NoneType'>`")
           end;
  let shift := sar_steps_ahead self in
  bkwd_x_df ← select df x_vars;
  idx ← index_shift (df_index bkwd_x_df) shift;
  Ok (rename (bkwd_mapper shift) (mkDataFrame idx (df_columns bkwd_x_df))).

(** [_add_constant_to_x] rebinds [self._x_vars]: the node is returned along
    with the table. *)
Definition _add_constant_to_x (self : @ContinuousSarimaxModel Model InitKwargs FitKwargs)
  (x : option DataFrame)
  : result (option DataFrame * @ContinuousSarimaxModel Model InitKwargs FitKwargs) :=
  if negb (sar_add_constant self) then Ok (x, self)
  else match sar_x_vars self with
       | Some x_vars =>
           let x_vars := _to_list x_vars in
           _ ← dbg.dassert (negb (bool_decide (ColStr "const" ∈ x_vars))) const_msg;
           let self := sar_with_x_vars (Some (AsList (x_vars ++ [ColStr "const"]))) self in
           x ← sm_add_constant x;
           Ok (Some x, self)
       | None => Ok (x, self)
       end.

(** [fit] and [predict] up to the point where the constant is added; what
    follows is [fit_model] and [predict_model]. *)
Definition ContinuousSarimaxModel_fit
  (self : @ContinuousSarimaxModel Model InitKwargs FitKwargs) (df_in : DataFrame)
  : result (DataFrame * @ContinuousSarimaxModel Model InitKwargs FitKwargs) :=
  _ ← RegFreqMixin_validate_input_df df_in;
  let df := df_in in
  let y_vars := _to_list (sar_y_vars self) in
  y_fit ← select df y_vars;
  x_fit ← match sar_x_vars self with
          | Some _ => x ← _get_bkwd_x_df self df; Ok (Some (dropna x))
          | None => Ok None
          end;
  r ← _add_constant_to_x self x_fit;
  let '(x_fit, self) := r in
  m ← fit_model self df y_fit x_fit;
  let '(df_out, model) := m in
  Ok (df_out, sar_with_model model self).

Definition ContinuousSarimaxModel_predict
  (self : @ContinuousSarimaxModel Model InitKwargs FitKwargs) (df_in : DataFrame)
  : result (DataFrame * @ContinuousSarimaxModel Model InitKwargs FitKwargs) :=
  _ ← RegFreqMixin_validate_input_df df_in;
  let df := df_in in
  let y_vars := _to_list (sar_y_vars self) in
  _ ← dbg.dassert_eq_nat (length y_vars) 1 "Only univariate `y` is supported";
  y_predict ← select df y_vars;
  xy ← match sar_x_vars self with
       | Some _ =>
           x ← _get_bkwd_x_df self df;
           let x_predict := dropna x in
           Ok (Some x_predict, reindex (df_index x_predict) y_predict)
       | None => Ok (None, y_predict)
       end;
  r ← _add_constant_to_x self (fst xy);
  let '(x_predict, self) := r in
  df_out ← predict_model self df (snd xy) x_predict;
  Ok (df_out, self).

End Sarimax.

Section FitRows.
Context {ModelFunc ModelKwargs Model : Type}.
Variable index_freq : list Timestamp -> option Z.

(** [ContinuousSkLearnModel.fit] and [predict] up to the call of the
    adapter. *)
Definition ContinuousSkLearnModel_fit_rows
  (self : @ContinuousSkLearnModel ModelFunc ModelKwargs Model) (df_in : DataFrame)
  : result (list Timestamp * DataFrame * DataFrame) :=
  _ ← RegFreqMixin_validate_input_df index_freq df_in;
  let df := df_in in
  idx ← ContinuousSkLearnModel_fit_idx self df;
  fwd_fit_rows (_to_list (csl_x_vars self)) (_to_list (csl_y_vars self))
    (csl_steps_ahead self) (ContinuousSkLearnModel_handle_nans (csl_nan_mode self))
    idx df.

Definition ContinuousSkLearnModel_predict_rows
  (self : @ContinuousSkLearnModel ModelFunc ModelKwargs Model) (df_in : DataFrame)
  : result (list Timestamp * DataFrame) :=
  _ ← RegFreqMixin_validate_input_df index_freq df_in;
  let df := df_in in
  fwd_predict_rows (_to_list (csl_x_vars self))
    (ContinuousSkLearnModel_handle_nans (csl_nan_mode self)) df.

(** [SmaModel.fit] and [predict] up to the call of the adapter. *)
Definition SmaModel_fit_rows (self : SmaModel) (df_in : DataFrame)
  : result (list Timestamp * DataFrame * DataFrame) :=
  _ ← RegFreqMixin_validate_input_df index_freq df_in;
  let df := df_in in
  _ ← dbg.dassert_lt (sma_steps_ahead self) (Z.of_nat (length (df_index df))) "";
  let idx := slice_to_minus (sma_steps_ahead self) (df_index df) in
  fwd_fit_rows (sma_col self) (sma_col self) (sma_steps_ahead self)
    (SmaModel_handle_nans (sma_nan_mode self)) idx df.

Definition SmaModel_predict_rows (self : SmaModel) (df_in : DataFrame)
  : result (list Timestamp * DataFrame) :=
  _ ← RegFreqMixin_validate_input_df index_freq df_in;
  let df := df_in in
  fwd_predict_rows (sma_col self) (SmaModel_handle_nans (sma_nan_mode self)) df.

End FitRows.

(** *** Facts about forward targets and the constructors *)

Lemma select_columns_ok (cols : list (ColName * Column)) (names : list ColName) :
  Forall (fun y => is_Some (assoc y cols)) names ->
  select_columns cols names
  = Ok ((fun y => (y, default [] (assoc y cols))) <$> names).
Proof.
  induction 1 as [|y names [col Hy] Hall IH]; [done|].
  cbn [select_columns fmap list_fmap]. rewrite Hy. cbn [default].
  fold (fmap (M := list) (fun y => (y, default [] (assoc y cols))) names).
  by rewrite IH.
Qed.

Lemma get_fwd_y_df_eq (y_vars : list ColName) (steps_ahead : Z) (df : DataFrame) :
  Forall (fun y => is_Some (assoc y (df_columns df))) y_vars ->
  get_fwd_y_df y_vars steps_ahead df
  = Ok (mkDataFrame (df_index df)
          ((fun y => (fwd_mapper steps_ahead y,
                      shift_column (- steps_ahead)
                                   (default [] (assoc y (df_columns df)))))
             <$> y_vars)).
Proof.
  intros Hall. unfold get_fwd_y_df, select.
  rewrite select_columns_ok by done. cbn [mbind result_bind].
  unfold rename, shift. cbn [df_index df_columns].
  by rewrite <- !list_fmap_compose.
Qed.

(** Shifting backward by [k] rows: row [i] holds what row [i + k] held. *)
Lemma shift_back_lookup (k : Z) (col : Column) (i : nat) :
  0 <= k -> (i < length col)%nat ->
  shift_column (- k) col !! i
  = Some (if bool_decide (i + Z.to_nat k < length col)%nat
          then cell_at col (i + Z.to_nat k) else None).
Proof.
  intros Hk Hi. rewrite shift_column_lookup by done.
  destruct (decide (i + Z.to_nat k < length col)%nat) as [Hlt|Hge].
  - rewrite !bool_decide_eq_true_2 by lia.
    by replace (Z.to_nat (Z.of_nat i - - k)) with (i + Z.to_nat k)%nat by lia.
  - by rewrite !bool_decide_eq_false_2 by lia.
Qed.

Section NodesFacts.
Context {ModelFunc ModelKwargs Model InitKwargs FitKwargs : Type}.


(** [fit] takes [idx = df.index[:-steps_ahead]]; for zero steps ahead this
    slice is empty, for [k >= 1] steps it leaves out the last [k] rows. *)
Lemma fit_idx_zero_steps (self : @ContinuousSkLearnModel ModelFunc ModelKwargs Model)
  (df : DataFrame) :
  csl_steps_ahead self = 0 -> df_index df <> [] ->
  ContinuousSkLearnModel_fit_idx self df = Ok [].
Proof.
  intros Hk Hne. unfold ContinuousSkLearnModel_fit_idx, dbg.dassert_lt, dbg.dassert.
  rewrite Hk. destruct (df_index df); [done|]. reflexivity.
Qed.

End NodesFacts.

(** *** Facts about SkLearnModel *)



Section SkLearnFacts.
Context {Model NdArray ModelKwargs Perf : Type}.
Variable transform_to_sklearn_old :
  DataFrame -> list ColName -> list ColName -> result (NdArray * NdArray).
Variable transform_from_sklearn :
  list Timestamp -> list ColName -> NdArray -> result DataFrame.
Variable estimator_fit : Model -> NdArray -> NdArray -> result Model.
Variable estimator_predict : Model -> NdArray -> result NdArray.
Variable _apply_col_mode :
  DataFrame -> DataFrame -> list ColName -> string -> result DataFrame.


End SkLearnFacts.

(** *** Facts about the learned tau *)

(** [rint] is a nearest integer. *)
Lemma rint_nearest (q : Qc) :
  (inject_Z (rint q) - (1 # 2) <= q <= inject_Z (rint q) + (1 # 2))%Q.
Proof.
  unfold rint.
  pose proof (Qfloor_le q) as Hlo. pose proof (Qlt_floor q) as Hhi.
  rewrite inject_Z_plus in Hhi.
  destruct (Qcompare _ _) eqn:E;
    [apply Qeq_alt in E; destruct (Z.even (Qfloor q))
    |apply Qlt_alt in E | apply Qgt_alt in E];
    rewrite ?inject_Z_plus; change (inject_Z 1) with 1%Q in *;
    generalize dependent (inject_Z (Qfloor q)); intros a;
    generalize (this q); intros b ? ? ?; split; lra.
Qed.

Section SmaFacts.

Variable compute_smooth_moving_average : list Qc -> Qc -> Z -> Z -> Z -> list Qc.
Variable mean_absolute_error : list Qc -> list Qc -> Qc.
Variable minimize_scalar_bounded : (Qc -> Qc) -> Qc -> Qc -> result Qc.

(** The contract of the bounded scalar minimizer: the minimizer it returns
    lies within the bounds, and it returns one when the bounds are in
    order. *)
Hypothesis minimize_within_bounds :
  forall f lb ub x, minimize_scalar_bounded f lb ub = Ok x -> (lb ≤ x ≤ ub)%Qc.
Hypothesis minimize_returns :
  forall f lb ub, (lb ≤ ub)%Qc -> exists x, minimize_scalar_bounded f lb ub = Ok x.

(** C4, as the code has it.  With [tau=None], [fit] learns tau over the
    bracket from 1 to [tau_ub], where [tau_ub] is 1000 when
    [min_tau_periods] is 0 and is replaced by
    [int(len(x) / (2 * min_tau_periods))] when [min_tau_periods > 0]; the
    learned tau lies within that bracket, and the reported [min_periods] is
    the integer nearest to [min_tau_periods * tau]. *)
Theorem sma_learned_tau_bracket (self : SmaModel) (x y : list Qc) :
  _must_learn_tau self = true ->
  (Qc_of_Z 1 ≤ snd (tau_bounds self x))%Qc ->
  tau_bounds self x
  = (Qc_of_Z 1,
     if bool_decide (0 < _min_tau_periods self)%Qc
     then Qc_of_Z (int_trunc (Qc_of_Z (Z.of_nat (length x))
                              / (Qc_of_Z 2 * _min_tau_periods self))%Qc)
     else Qc_of_Z 1000)
  /\ exists tau self',
       SmaModel_fit_model compute_smooth_moving_average mean_absolute_error
                          minimize_scalar_bounded self x y
       = Ok (self', (tau, rint (_min_tau_periods self * tau)%Qc))
       /\ _tau self' = Some tau
       /\ (Qc_of_Z 1 ≤ tau ≤ snd (tau_bounds self x))%Qc
       /\ (inject_Z (rint (_min_tau_periods self * tau)%Qc) - (1 # 2)
           <= (_min_tau_periods self * tau)%Qc
           <= inject_Z (rint (_min_tau_periods self * tau)%Qc) + (1 # 2))%Q.
Proof.
  intros Hlearn Hub. split; [reflexivity|].
  destruct (minimize_returns (score compute_smooth_moving_average mean_absolute_error
                                    self x y)
              (fst (tau_bounds self x)) (snd (tau_bounds self x)) Hub) as [tau Htau].
  exists tau. eexists.
  unfold SmaModel_fit_model, _learn_tau. rewrite Hlearn.
  destruct (tau_bounds self x) as [lb ub] eqn:Eb. cbn [fst snd] in *.
  rewrite Htau. cbn [mbind result_bind].
  split; [reflexivity|]. split; [reflexivity|].
  split.
  - assert (lb = Qc_of_Z 1) as <- by (by injection Eb).
    by apply (minimize_within_bounds _ _ _ _ Htau).
  - apply rint_nearest.
Qed.

End SmaFacts.

Module SmaExample.

(** A search that ends at the upper end of its bracket, as a bounded search
    does for a score that decreases throughout. *)
Definition ends_at_upper_bound (f : Qc -> Qc) (lb ub : Qc) : result Qc :=
  if bool_decide (lb ≤ ub)%Qc then Ok ub
  else Err (ValueError "The lower bound exceeds the upper bound.").

Definition no_smoothing (x : list Qc) (tau : Qc) (min_periods min_depth max_depth : Z)
  : list Qc := x.

Definition first_abs_error (a b : list Qc) : Qc :=
  match a, b with
  | u :: _, v :: _ => if bool_decide (u ≤ v)%Qc then (v - u)%Qc else (u - v)%Qc
  | _, _ => 0%Qc
  end.

(** [SmaModel(nid, ["ret_0"], steps_ahead=1)]: tau is learned and
    [min_tau_periods] has its default 2. *)
Definition sma : SmaModel :=
  mkSmaModel "sma" [ColStr "ret_0"] 1 "raise" "replace_all" true None (Qc_of_Z 2) 1 1.

Definition series (n : Z) : list Qc := replicate (Z.to_nat n) (Qc_of_Z 1).

Definition claimed_upper_bound (self : SmaModel) (x : list Qc) : Qc :=
  let b := (Qc_of_Z (Z.of_nat (length x)) / (Qc_of_Z 2 * _min_tau_periods self))%Qc in
  if bool_decide (Qc_of_Z 1000 ≤ b)%Qc then Qc_of_Z 1000 else b.

Definition learned (n : Z) : result (Qc * Z) :=
  snd <$> SmaModel_fit_model no_smoothing first_abs_error ends_at_upper_bound sma
            (series n) (series n).

End SmaExample.

Lemma ends_at_upper_bound_within (f : Qc -> Qc) (lb ub x : Qc) :
  SmaExample.ends_at_upper_bound f lb ub = Ok x -> (lb ≤ x ≤ ub)%Qc.
Proof.
  unfold SmaExample.ends_at_upper_bound.
  destruct (bool_decide (lb ≤ ub)%Qc) eqn:E; [|done].
  apply bool_decide_eq_true in E. by intros [= <-].
Qed.

Lemma ends_at_upper_bound_returns (f : Qc -> Qc) (lb ub : Qc) :
  (lb ≤ ub)%Qc -> exists x, SmaExample.ends_at_upper_bound f lb ub = Ok x.
Proof.
  intros H. exists ub. unfold SmaExample.ends_at_upper_bound.
  by rewrite bool_decide_eq_true_2.
Qed.

Example sma_init_default :
  SmaModel_init "sma" (AsList [ColStr "ret_0"]) 1 None (Some (Qc_of_Z 2)) None None
  = Ok SmaExample.sma.
Proof. reflexivity. Qed.

(** C4 as stated fails on a long series: with 8000 rows and the default
    [min_tau_periods = 2] the bracket is [1, 2000], and a search that ends
    at its upper end learns tau = 2000, above the claimed bound
    min(1000, 8000 / 4) = 1000. *)
Lemma sma_learned_tau_exceeds_1000 :
  tau_bounds SmaExample.sma (SmaExample.series 8000) = (Qc_of_Z 1, Qc_of_Z 2000)
  /\ SmaExample.learned 8000 = Ok (Qc_of_Z 2000, 4000)
  /\ SmaExample.claimed_upper_bound SmaExample.sma (SmaExample.series 8000)
     = Qc_of_Z 1000
  /\ ~ (Qc_of_Z 2000
        ≤ SmaExample.claimed_upper_bound SmaExample.sma (SmaExample.series 8000))%Qc.
Proof.
  assert (Hb : tau_bounds SmaExample.sma (SmaExample.series 8000)
               = (Qc_of_Z 1, Qc_of_Z 2000)).
  { apply (bool_decide_unpack _). by vm_compute. }
  assert (Hc : SmaExample.claimed_upper_bound SmaExample.sma (SmaExample.series 8000)
               = Qc_of_Z 1000).
  { apply (bool_decide_unpack _). by vm_compute. }
  split; [exact Hb|]. split.
  - unfold SmaExample.learned, SmaModel_fit_model, _learn_tau.
    cbn [_must_learn_tau SmaExample.sma]. rewrite Hb.
    unfold SmaExample.ends_at_upper_bound.
    rewrite bool_decide_eq_true_2 by (apply (bool_decide_unpack _); by vm_compute).
    cbn; repeat f_equal; try (by vm_compute).
  - split; [exact Hc|]. rewrite Hc.
    intros H. apply (bool_decide_pack _) in H. by vm_compute in H.
Qed.

Lemma sma_learned_tau_bracket_witness :
  _must_learn_tau SmaExample.sma = true
  /\ (Qc_of_Z 1 ≤ snd (tau_bounds SmaExample.sma (SmaExample.series 8)))%Qc
  /\ exists tau self',
       SmaModel_fit_model SmaExample.no_smoothing SmaExample.first_abs_error
                          SmaExample.ends_at_upper_bound SmaExample.sma
                          (SmaExample.series 8) (SmaExample.series 8)
       = Ok (self', (tau, rint (_min_tau_periods SmaExample.sma * tau)%Qc))
       /\ (Qc_of_Z 1 ≤ tau ≤ snd (tau_bounds SmaExample.sma (SmaExample.series 8)))%Qc.
Proof.
  assert (Hub : (Qc_of_Z 1 ≤ snd (tau_bounds SmaExample.sma (SmaExample.series 8)))%Qc).
  { apply (bool_decide_unpack _). by vm_compute. }
  split; [reflexivity|]. split; [exact Hub|].
  destruct (sma_learned_tau_bracket SmaExample.no_smoothing SmaExample.first_abs_error
              SmaExample.ends_at_upper_bound ends_at_upper_bound_within
              ends_at_upper_bound_returns SmaExample.sma (SmaExample.series 8)
              (SmaExample.series 8) eq_refl Hub)
    as (_ & tau & self' & Hfit & _ & Hin & _).
  by exists tau, self'.
Defined.

(** *** Facts about the volatility modulator *)

Lemma assoc_fmap_snd {A B : Type} (g : A -> B) (c : ColName) (l : list (ColName * A)) :
  assoc c ((fun x => (fst x, g (snd x))) <$> l) = g <$> assoc c l.
Proof.
  induction l as [|[c' a] l IH]; [done|].
  cbn. destruct (bool_decide (c' = c)); [done | exact IH].
Qed.


Lemma assoc_is_Some (c : ColName) (df : DataFrame) :
  is_Some (assoc c (df_columns df)) -> c ∈ columns df.
Proof.
  unfold columns. induction (df_columns df) as [|[c' col] l IH]; cbn.
  - by intros [? ?].
  - destruct (decide (c' = c)) as [->|Hne].
    + intros _. apply list_elem_of_here.
    + rewrite bool_decide_eq_false_2 by done. intros H.
      apply list_elem_of_further, IH, H.
Qed.








(** *** Three rows of returns and volatility *)

Module Example.

Definition ret : ColName := ColStr "ret_0".
Definition vol : ColName := ColStr "vol".

Definition num (z : Z) : Cell := Some (Qc_of_Z z).

Definition vol_values : Column := [num 2; num 2; num 2].

Definition df_in : DataFrame :=
  mkDataFrame [0; 60; 120] [(ret, [num 1; num 2; num 3]); (vol, vol_values)].




(** Two single-step forecasts, the first missing in the second row, and a
    volatility forecast. *)
Definition df_forecasts : DataFrame :=
  mkDataFrame [0; 60]
    [(ColStr "p1", [num 1; None]); (ColStr "p2", [num 2; num 3]); (vol, [num 2; num 2])].

(** [ContinuousSarimaxModel("sarimax", ["ret_0"], 1, x_vars=["vol"],
    add_constant=True)] on one-minute data, with stand-ins for statsmodels. *)
Definition sarimax : @ContinuousSarimaxModel unit unit unit :=
  mkContinuousSarimaxModel "sarimax" (AsList [ret]) 1 None None (Some (AsList [vol]))
                           true None "merge_all" "raise" false.

Definition minute_freq (idx : list Timestamp) : option Z := Some 60.

Definition add_const (x : option DataFrame) : result DataFrame :=
  match x with
  | Some d => Ok (mkDataFrame (df_index d)
                    ((ColStr "const", replicate (length (df_index d)) (num 1))
                       :: df_columns d))
  | None => Err (ValueError "no exog")
  end.

Definition sarimax_fit_model (self : @ContinuousSarimaxModel unit unit unit)
  (df y : DataFrame) (x : option DataFrame) : result (DataFrame * unit) :=
  Ok (df, ()).

Definition sarimax_predict_model (self : @ContinuousSarimaxModel unit unit unit)
  (df y : DataFrame) (x : option DataFrame) : result DataFrame :=
  Ok df.

(** A table with a missing value in its second row. *)
Definition x : ColName := ColStr "x".
Definition y : ColName := ColStr "y".

Definition df_nan : DataFrame :=
  mkDataFrame [0; 60; 120] [(x, [num 1; None; num 3]); (y, [num 2; num 4; num 6])].

(** Collaborators that look at no cell: the adapter hands the columns
    over as they are, and the estimator predicts a constant for every row
    it is given, the way a baseline regressor does. *)
Definition values_of (df : DataFrame) (x_vars y_vars : list ColName)
  : result (list Column * list Column) :=
  xs ← select df x_vars;
  ys ← select df y_vars;
  Ok (snd <$> df_columns xs, snd <$> df_columns ys).

Definition frame_of (idx : list Timestamp) (cols : list ColName) (vals : list Column)
  : result DataFrame := Ok (mkDataFrame idx (zip cols vals)).

Definition constant_fit (m : Qc) (x_vals y_vals : list Column) : result Qc := Ok m.

Definition constant_predict (m : Qc) (x_vals : list Column) : result (list Column) :=
  Ok [ (fun _ => Some m) <$> default [] (head x_vals) ].

Definition merge (df_in df_out : DataFrame) (cols : list ColName) (col_mode : string)
  : result DataFrame := apply_col_mode df_in df_out cols (fun c => c) col_mode.

Definition no_perf (a b c : DataFrame) : result unit := Ok ().

Definition fitted : @SkLearnModel Qc unit :=
  mkSkLearnModel "sk" (fun _ => Ok (Qc_of_Z 4)) () (AsList [x]) (AsList [y])
                 (Some (Qc_of_Z 4)) "replace_all".


(** [ContinuousSkLearnModel("csl", f, ["x"], ["y"], steps_ahead=1,
    nan_mode=...)] and [SmaModel("sma", ["x"], 1, tau=1, nan_mode=...)]. *)
Definition csl (nan_mode : string) : @ContinuousSkLearnModel unit unit unit :=
  mkContinuousSkLearnModel "csl" () None (AsList [x]) (AsList [y]) None 1
                           "replace_all" nan_mode.

Definition sma_x (nan_mode : string) : SmaModel :=
  mkSmaModel "sma" [x] 1 nan_mode "replace_all" false (Some (Qc_of_Z 1)) 0%Qc 1 1.

(** The same node before [fit]. *)
Definition unfitted : @SkLearnModel Qc unit :=
  mkSkLearnModel "sk" (fun _ => Ok (Qc_of_Z 4)) () (AsList [x]) (AsList [y])
                 None "replace_all".

End Example.






(** The forward target of ["ret_0"] two steps ahead. *)
Example fwd_target_ret_0_2 :
  get_fwd_y_df [Example.ret] 2 Example.df_in
  = Ok (mkDataFrame [0; 60; 120] [(ColStr "ret_0_2", [Example.num 3; None; None])]).
Proof. apply (bool_decide_unpack _). by vm_compute. Qed.


(** *** The modes of the volatility modulator *)

(** X13. The constructor of [VolatilityModulator] succeeds exactly when both
    horizons are not negative and [mode] is "modulate" or "demodulate"; it
    does not look at [nan_mode], which defaults to "leave_unchanged".  A
    node so built never reaches the "Invalid mode" error: given a table
    that has the signal and volatility columns, it computes the adjusted
    signal when [nan_mode] is "drop" or "leave_unchanged", and with any
    other value (such as "raise", which [SmaModel] accepts) every call
    fails with [ValueError] "Unrecognized `nan_mode`", whatever the data
    are. *)
Theorem volatility_modulator_modes (nid : string) (signal_cols : ToList)
  (volatility_col : ColName) (signal_steps_ahead volatility_steps_ahead : Z)
  (mode : string) (col_rename_func : option (ColName -> ColName))
  (col_mode nan_mode : option string) :
  let built := VolatilityModulator_init nid signal_cols volatility_col
                 signal_steps_ahead volatility_steps_ahead mode col_rename_func
                 col_mode nan_mode in
  (is_ok built = true
   <-> 0 <= signal_steps_ahead /\ 0 <= volatility_steps_ahead
       /\ (mode = "modulate" \/ mode = "demodulate"))
  /\ forall self,
       built = Ok self ->
       vm_nan_mode self = str_or nan_mode "leave_unchanged"
       /\ forall (apply : DataFrame -> DataFrame -> list ColName
                          -> (ColName -> ColName) -> string -> result DataFrame)
                 (df : DataFrame),
            Forall (fun c => is_Some (assoc c (df_columns df))) (_signal_cols self) ->
            is_Some (assoc (_volatility_col self) (df_columns df)) ->
            if bool_decide (vm_nan_mode self = "drop"
                            \/ vm_nan_mode self = "leave_unchanged")
            then is_ok (adjusted_signal self df) = true
            else _process_signal apply self df
                 = Err (ValueError ("Unrecognized `nan_mode` " +:+ vm_nan_mode self)).
Proof.
  intros built. subst built.
  unfold VolatilityModulator_init, dbg.dassert_lte, dbg.dassert_in, dbg.dassert.
  split.
  - destruct (0 <=? signal_steps_ahead) eqn:E1; cbn [mbind result_bind is_ok];
      [apply Z.leb_le in E1 | apply Z.leb_gt in E1; split; [done | lia]].
    destruct (0 <=? volatility_steps_ahead) eqn:E2; cbn [mbind result_bind is_ok];
      [apply Z.leb_le in E2 | apply Z.leb_gt in E2; split; [done | lia]].
    destruct (bool_decide (mode ∈ ["modulate"; "demodulate"])) eqn:E3;
      cbn [mbind result_bind is_ok].
    + apply bool_decide_eq_true in E3. split; [|done]. intros _.
      repeat split; try done.
      apply elem_of_cons in E3 as [->|E3]; [by left|].
      apply list_elem_of_singleton in E3 as ->. by right.
    + apply bool_decide_eq_false in E3. split; [done|].
      intros (_ & _ & [-> | ->]); exfalso; apply E3.
      * apply list_elem_of_here.
      * apply list_elem_of_further, list_elem_of_here.
  - intros self.
    destruct (0 <=? signal_steps_ahead); [|done]. cbn [mbind result_bind].
    destruct (0 <=? volatility_steps_ahead); [|done]. cbn [mbind result_bind].
    destruct (bool_decide (mode ∈ ["modulate"; "demodulate"])) eqn:E3; [|done].
    cbn [mbind result_bind]. intros [= <-]. cbn [vm_nan_mode].
    split; [done|]. intros apply df Hsig [vol Hvol].
    cbn [_signal_cols _volatility_col] in Hsig, Hvol.
    apply bool_decide_eq_true in E3.
    unfold _process_signal, adjusted_signal, dbg.dassert.
    cbn [_signal_cols _volatility_col vm_nan_mode _mode _volatility_steps_ahead
         _signal_steps_ahead].
    assert (Hsub : forallb (fun c => bool_decide (c ∈ columns df)) (_to_list signal_cols)
                   = true).
    { apply forallb_forall. intros c Hc. apply bool_decide_eq_true_2, assoc_is_Some.
      eapply Forall_forall in Hsig; [exact Hsig | by apply list_elem_of_In]. }
    rewrite Hsub. cbn [mbind result_bind].
    rewrite (bool_decide_eq_true_2 (volatility_col ∈ columns df))
      by (apply assoc_is_Some; rewrite Hvol; by eexists).
    cbn [mbind result_bind].
    unfold select. rewrite select_columns_ok by done. cbn [mbind result_bind].
    unfold get_column. rewrite Hvol. cbn [mbind result_bind].
    destruct (decide (str_or nan_mode "leave_unchanged" = "drop")) as [Hd|Hd].
    { rewrite (bool_decide_eq_true_2 _ (or_introl Hd)).
      rewrite (bool_decide_eq_true_2 _ Hd). cbn [mbind result_bind].
      apply elem_of_cons in E3 as [->|E3]; [done|].
      by apply list_elem_of_singleton in E3 as ->. }
    rewrite (bool_decide_eq_false_2 _ Hd).
    destruct (decide (str_or nan_mode "leave_unchanged" = "leave_unchanged")) as [Hl|Hl].
    { rewrite (bool_decide_eq_true_2 _ (or_intror Hl)).
      rewrite (bool_decide_eq_true_2 _ Hl). cbn [mbind result_bind].
      apply elem_of_cons in E3 as [->|E3]; [done|].
      by apply list_elem_of_singleton in E3 as ->. }
    rewrite (bool_decide_eq_false_2 _ Hl).
    rewrite bool_decide_eq_false_2 by (intros [?|?]; done).
    reflexivity.
Qed.

Lemma volatility_modulator_modes_witness :
  is_ok (VolatilityModulator_init "vm" (AsList [Example.ret]) Example.vol 0 1 "modulate"
           None None (Some "raise")) = true
  /\ forall apply,
       _process_signal apply
         (mkVolatilityModulator "vm" [Example.ret] Example.vol 0 1 "modulate"
            (fun x => x) "replace_all" "raise") Example.df_in
       = Err (ValueError "Unrecognized `nan_mode` raise").
Proof.
  pose proof (volatility_modulator_modes "vm" (AsList [Example.ret]) Example.vol 0 1
                "modulate" None None (Some "raise")) as H.
  cbv zeta in H. destruct H as [Hinit Hrun]. split.
  - apply Hinit. split; [lia|]. split; [lia|]. by left.
  - intros apply. destruct (Hrun _ eq_refl) as [_ Hsig].
    apply (Hsig apply Example.df_in).
    + repeat constructor. by eexists.
    + by eexists.
Defined.

(** *** The state of SkLearnModel *)

Section SkLearnState.
Context {Model NdArray ModelKwargs Perf : Type}.
Variable transform_to_sklearn_old :
  DataFrame -> list ColName -> list ColName -> result (NdArray * NdArray).
Variable transform_from_sklearn :
  list Timestamp -> list ColName -> NdArray -> result DataFrame.
Variable estimator_fit : Model -> NdArray -> NdArray -> result Model.
Variable estimator_predict : Model -> NdArray -> result NdArray.
Variable _apply_col_mode :
  DataFrame -> DataFrame -> list ColName -> string -> result DataFrame.
Variable _model_perf : DataFrame -> DataFrame -> DataFrame -> result Perf.

Let fit := SkLearnModel_fit (ModelKwargs := ModelKwargs) transform_to_sklearn_old
             transform_from_sklearn estimator_fit estimator_predict _apply_col_mode.
Let predict := SkLearnModel_predict (ModelKwargs := ModelKwargs)
                 transform_to_sklearn_old transform_from_sklearn estimator_predict
                 _apply_col_mode _model_perf.

(** X14. [SkLearnModel] holds no model until [fit] has run: [predict] on
    such a node never returns a table, and fails with the assertion "Model
    not found! Check if `fit` has been run." as soon as the input passes
    validation and the adapter.  [fit] does not look at a model the node
    already holds: it builds a fresh estimator from [model_func] and
    [model_kwargs], fits it on the adapter's arrays of the input, and the
    node it leaves behind holds exactly that fitted estimator, its other
    fields unchanged. *)
Theorem sklearn_model_state (self : @SkLearnModel Model ModelKwargs) (df : DataFrame) :
  (sk_model self = None ->
   is_ok (predict self df) = false
   /\ (NoDup (columns df) ->
       is_ok (transform_to_sklearn_old df (_to_list (sk_x_vars self))
                                       (_to_list (sk_y_vars self))) = true ->
       predict self df
       = Err (AssertionError "Model not found! Check if `fit` has been run.")))
  /\ (forall m, fit (sk_with_model m self) df
                = match fit self df with
                  | Ok (out, self') => Ok (out, self')
                  | Err e => Err e
                  end)
  /\ (forall out self',
        fit self df = Ok (out, self') ->
        exists fresh x y m,
          sk_model_func self (sk_model_kwargs self) = Ok fresh
          /\ transform_to_sklearn_old df (_to_list (sk_x_vars self))
                                      (_to_list (sk_y_vars self)) = Ok (x, y)
          /\ estimator_fit fresh x y = Ok m
          /\ self' = sk_with_model m self).
Proof.
  split; [|split].
  - intros Hnone. subst predict. unfold SkLearnModel_predict, _to_sklearn_format.
    destruct (SkLearnModel_validate_input_df df) as [[]|e] eqn:Ev;
      cbn [mbind result_bind is_ok].
    + destruct (transform_to_sklearn_old _ _ _) as [[x y]|e] eqn:Et;
        cbn [mbind result_bind is_ok fst snd].
      * rewrite Hnone. cbn [mbind result_bind is_ok]. by split.
      * split; [done|]. by intros _ H.
    + split; [done|]. intros Hnd. unfold SkLearnModel_validate_input_df, dbg.dassert in Ev.
      by rewrite bool_decide_eq_true_2 in Ev.
  - intros m. subst fit. unfold SkLearnModel_fit, _to_sklearn_format.
    cbn [sk_with_model sk_x_vars sk_y_vars sk_model_func sk_model_kwargs sk_col_mode].
    destruct (SkLearnModel_validate_input_df df); [|done]. cbn [mbind result_bind].
    destruct (dbg.dassert _ _); [|done]. cbn [mbind result_bind].
    destruct (transform_to_sklearn_old _ _ _) as [[x y]|]; [|done].
    cbn [mbind result_bind fst snd].
    destruct (sk_model_func self _) as [fresh|]; [|done]. cbn [mbind result_bind].
    destruct (estimator_fit _ _ _) as [m'|]; [|done]. cbn [mbind result_bind].
    destruct (estimator_predict _ _); [|done]. cbn [mbind result_bind].
    destruct (_from_sklearn_format _ _ _ _ _ _ _) as [[[fx fy] fh]|]; [|done].
    cbn [mbind result_bind].
    destruct (_apply_col_mode _ _ _ _); [|done]. cbn [mbind result_bind].
    by destruct self.
  - intros out self'. subst fit. unfold SkLearnModel_fit, _to_sklearn_format.
    destruct (SkLearnModel_validate_input_df df); [|done]. cbn [mbind result_bind].
    destruct (dbg.dassert _ _); [|done]. cbn [mbind result_bind].
    destruct (transform_to_sklearn_old _ _ _) as [[x y]|]; [|done].
    cbn [mbind result_bind fst snd].
    destruct (sk_model_func self _) as [fresh|]; [|done]. cbn [mbind result_bind].
    destruct (estimator_fit _ _ _) as [m'|] eqn:Ef; [|done]. cbn [mbind result_bind].
    destruct (estimator_predict _ _); [|done]. cbn [mbind result_bind].
    destruct (_from_sklearn_format _ _ _ _ _ _ _) as [[[fx fy] fh]|]; [|done].
    cbn [mbind result_bind].
    destruct (_apply_col_mode _ _ _ _); [|done]. cbn [mbind result_bind].
    intros [= _ <-]. by exists fresh, x, y, m'.
Qed.

End SkLearnState.

Lemma sklearn_model_state_witness :
  SkLearnModel_predict Example.values_of Example.frame_of Example.constant_predict
    Example.merge Example.no_perf Example.unfitted Example.df_nan
  = Err (AssertionError "Model not found! Check if `fit` has been run.").
Proof.
  apply (proj1 (sklearn_model_state Example.values_of Example.frame_of
                  Example.constant_fit Example.constant_predict Example.merge
                  Example.no_perf Example.unfitted Example.df_nan) eq_refl).
  - apply (bool_decide_unpack _). by vm_compute.
  - reflexivity.
Defined.

(** *** How much of the fit series the learned tau burns *)

Lemma Qc_of_Z_floor_le (q : Qc) : (Qc_of_Z (Qfloor q) ≤ q)%Qc.
Proof. apply Qfloor_le. Qed.

Lemma int_trunc_le (q : Qc) : (0 ≤ q)%Qc -> (Qc_of_Z (int_trunc q) ≤ q)%Qc.
Proof.
  intros Hq. unfold int_trunc. rewrite bool_decide_eq_true_2 by done.
  apply Qc_of_Z_floor_le.
Qed.

Section SmaBurnIn.

Variable compute_smooth_moving_average : list Qc -> Qc -> Z -> Z -> Z -> list Qc.
Variable mean_absolute_error : list Qc -> list Qc -> Qc.
Variable minimize_scalar_bounded : (Qc -> Qc) -> Qc -> Qc -> result Qc.

(** The bounded minimizer returns a point within its bounds. *)
Hypothesis minimize_within_bounds :
  forall f lb ub x, minimize_scalar_bounded f lb ub = Ok x -> (lb ≤ x ≤ ub)%Qc.

(** X15. What the tightened bracket is for.  When tau is learned with
    [min_tau_periods > 0], the learned tau satisfies
    [2 * min_tau_periods * tau <= len(x)], so the burn-in reported as
    [min_periods], the integer nearest to [min_tau_periods * tau], is not
    negative and is at most half of the fit series, up to the rounding:
    [2 * min_periods <= len(x) + 1]. *)
Theorem sma_learned_burn_in_bound (self self' : SmaModel) (x y : list Qc)
  (tau : Qc) (min_periods : Z) :
  _must_learn_tau self = true ->
  (0 < _min_tau_periods self)%Qc ->
  SmaModel_fit_model compute_smooth_moving_average mean_absolute_error
                     minimize_scalar_bounded self x y
  = Ok (self', (tau, min_periods)) ->
  (1 ≤ tau)%Qc
  /\ (Qc_of_Z 2 * (_min_tau_periods self * tau) ≤ Qc_of_Z (Z.of_nat (length x)))%Qc
  /\ 0 <= min_periods
  /\ 2 * min_periods <= Z.of_nat (length x) + 1.
Proof.
  intros Hlearn Hmtp Hfit.
  unfold SmaModel_fit_model, _learn_tau, tau_bounds in Hfit.
  rewrite Hlearn, (bool_decide_eq_true_2 _ Hmtp) in Hfit.
  destruct (minimize_scalar_bounded _ _ _) as [t|] eqn:Emin; [|done].
  cbn [mbind result_bind] in Hfit. injection Hfit as _ <- <-.
  apply minimize_within_bounds in Emin as [Hlb Hub].
  unfold _get_min_periods. cbn [_min_tau_periods].
  set (m := _min_tau_periods self) in *.
  set (len := Z.of_nat (length x)) in *.
  assert (H2m : (0 < Qc_of_Z 2 * m)%Qc).
  { apply Qcmult_pos_pos; [|done]. by apply (Z2Qc_inj_lt 0 2). }
  assert (Hq : (0 ≤ Qc_of_Z len / (Qc_of_Z 2 * m))%Qc).
  { apply Qcmult_nonneg_nonneg.
    - apply (Z2Qc_inj_le 0 len). lia.
    - apply Qclt_le_weak, Qcinv_pos, H2m. }
  assert (Htau : (t ≤ Qc_of_Z len / (Qc_of_Z 2 * m))%Qc).
  { etrans; [exact Hub|]. by apply int_trunc_le. }
  assert (Hhalf : (Qc_of_Z 2 * (m * t) ≤ Qc_of_Z len)%Qc).
  { replace (Qc_of_Z 2 * (m * t))%Qc with ((Qc_of_Z 2 * m) * t)%Qc by ring.
    replace (Qc_of_Z len)
      with ((Qc_of_Z 2 * m) * (Qc_of_Z len / (Qc_of_Z 2 * m)))%Qc.
    - by apply Qcmult_le_mono_nonneg_l; [apply Qclt_le_weak|].
    - field. split.
      + intros H0. rewrite H0 in Hmtp. by apply Qclt_not_eq in Hmtp.
      + intros H0. rewrite <- Z2Qc_inj_0 in H0. by apply Z2Qc_inj in H0. }
  assert (Hpos : (0 < m * t)%Qc).
  { apply Qcmult_pos_pos; [done|].
    eapply Qclt_le_trans; [|exact Hlb]. by apply (Z2Qc_inj_lt 0 1). }
  split; [by rewrite <- Z2Qc_inj_1|]. split; [exact Hhalf|].
  pose proof (rint_nearest (m * t)%Qc) as [Hlo Hhi].
  assert (Hhalf' : (2 * this (m * t)%Qc <= inject_Z len)%Q).
  { eapply Qle_trans; [|exact Hhalf].
    change (this (Qc_of_Z 2 * (m * t))%Qc) with (Qred (2 * this (m * t)%Qc)).
    rewrite Qred_correct. apply Qle_refl. }
  assert (Hpos' : (0 < this (m * t)%Qc)%Q) by exact Hpos.
  set (r := rint (m * t)%Qc) in *.
  generalize dependent (this (m * t)%Qc). intros p Hlo Hhi Hhalf' Hpos'.
  split.
  - destruct (Z_lt_le_dec r 0) as [Hneg|]; [|done]. exfalso.
    assert (Hz : (inject_Z r <= inject_Z (-1))%Q) by (rewrite <- Zle_Qle; lia).
    change (inject_Z (-1)) with (-1)%Q in Hz. lra.
  - destruct (Z_le_gt_dec (2 * r) (len + 1)) as [|Hgt]; [done|]. exfalso.
    assert (Hz : (inject_Z (len + 2) <= inject_Z (2 * r))%Q)
      by (rewrite <- Zle_Qle; lia).
    rewrite inject_Z_plus, inject_Z_mult in Hz.
    change (inject_Z 2) with 2%Q in *. lra.
Qed.

End SmaBurnIn.

Lemma sma_learned_burn_in_bound_witness :
  _must_learn_tau SmaExample.sma = true
  /\ (0 < _min_tau_periods SmaExample.sma)%Qc
  /\ SmaExample.learned 8 = Ok (Qc_of_Z 2, 4)
  /\ (1 ≤ Qc_of_Z 2)%Qc
  /\ (Qc_of_Z 2 * (_min_tau_periods SmaExample.sma * Qc_of_Z 2)
      ≤ Qc_of_Z (Z.of_nat (length (SmaExample.series 8))))%Qc
  /\ 0 <= 4
  /\ 2 * 4 <= Z.of_nat (length (SmaExample.series 8)) + 1.
Proof.
  assert (Hpos : (0 < _min_tau_periods SmaExample.sma)%Qc).
  { apply (bool_decide_unpack _). by vm_compute. }
  assert (Hb : tau_bounds SmaExample.sma (SmaExample.series 8)
               = (Qc_of_Z 1, Qc_of_Z 2)).
  { apply (bool_decide_unpack _). by vm_compute. }
  assert (Hfit : SmaModel_fit_model SmaExample.no_smoothing SmaExample.first_abs_error
                   SmaExample.ends_at_upper_bound SmaExample.sma
                   (SmaExample.series 8) (SmaExample.series 8)
                 = Ok (mkSmaModel "sma" [ColStr "ret_0"] 1 "raise" "replace_all" true
                         (Some (Qc_of_Z 2)) (Qc_of_Z 2) 1 1, (Qc_of_Z 2, 4))).
  { unfold SmaModel_fit_model, _learn_tau.
    cbn [_must_learn_tau SmaExample.sma]. rewrite Hb.
    unfold SmaExample.ends_at_upper_bound.
    rewrite bool_decide_eq_true_2 by (apply (bool_decide_unpack _); by vm_compute).
    cbn; repeat f_equal; try (by vm_compute). }
  split; [reflexivity|]. split; [exact Hpos|]. split.
  - unfold SmaExample.learned. by rewrite Hfit.
  - exact (sma_learned_burn_in_bound SmaExample.no_smoothing SmaExample.first_abs_error
             SmaExample.ends_at_upper_bound ends_at_upper_bound_within SmaExample.sma _
             (SmaExample.series 8) (SmaExample.series 8) (Qc_of_Z 2) 4
             eq_refl Hpos Hfit).
Defined.

(** *** The names of the performance columns of SkLearnModel *)

Lemma lstrip_all_mem (chars t : string) :
  all_mem chars t = true -> lstrip chars t = EmptyString.
Proof.
  induction t as [|a r IH]; [done|]. cbn. intros [Ha Hr]%andb_prop.
  rewrite Ha. by apply IH.
Qed.

Lemma rstrip_all_mem (chars t : string) :
  all_mem chars t = true -> rstrip chars t = EmptyString.
Proof.
  induction t as [|a r IH]; [done|]. cbn. intros [Ha Hr]%andb_prop.
  by rewrite (IH Hr), Ha.
Qed.

Lemma rstrip_app_all_mem (chars s t : string) :
  all_mem chars t = true -> rstrip chars (s +:+ t) = rstrip chars s.
Proof.
  intros Ht. induction s as [|a r IH].
  - change (EmptyString +:+ t) with t. by rewrite rstrip_all_mem.
  - rewrite append_cons. cbn [rstrip]. by rewrite IH.
Qed.

Lemma lstrip_length (chars s : string) :
  (String.length (lstrip chars s) <= String.length s)%nat.
Proof.
  induction s as [|a r IH]; [done|]. cbn [lstrip].
  destruct (str_mem a chars); cbn [String.length]; lia.
Qed.

Lemma rstrip_length (chars s : string) :
  (String.length (rstrip chars s) <= String.length s)%nat.
Proof.
  induction s as [|a r IH]; [done|]. cbn [rstrip].
  destruct (rstrip chars r) as [|b r'].
  - destruct (str_mem a chars); cbn [String.length]; lia.
  - cbn [String.length] in *. lia.
Qed.

Lemma lstrip_app_length (chars s t : string) :
  all_mem chars t = true ->
  (String.length (rstrip chars (lstrip chars (s +:+ t))) <= String.length s)%nat.
Proof.
  intros Ht. induction s as [|a r IH].
  - change (EmptyString +:+ t) with t. by rewrite lstrip_all_mem.
  - rewrite append_cons. cbn [lstrip]. destruct (str_mem a chars).
    + cbn [String.length]. lia.
    + rewrite <- append_cons, rstrip_app_all_mem by done. apply rstrip_length.
Qed.

Lemma rstrip_fixed (chars s : string) :
  rstrip chars s = s
  <-> match last_char s with
      | Some b => str_mem b chars = false
      | None => True
      end.
Proof.
  induction s as [|a r IH]; [done|]. cbn [rstrip last_char].
  destruct r as [|b r2].
  - cbn [rstrip]. destruct (str_mem a chars); split; done.
  - destruct (rstrip chars (String b r2)) as [|b' r'] eqn:E.
    + split.
      * destruct (str_mem a chars); discriminate.
      * intros H. apply IH in H. discriminate.
    + rewrite <- IH. split; [by intros [= -> ->] | by intros ->].
Qed.

Lemma last_char_cons (a : Ascii.ascii) (r : string) :
  exists b, last_char (String a r) = Some b.
Proof.
  revert a. induction r as [|c r IH]; intros a; [by exists a|].
  destruct (IH c) as [b Hb]. exists b. by rewrite <- Hb.
Qed.

(** X16. [SkLearnModel._model_perf] renames the prediction columns
    [f"{y}_hat"] with [strip("_hat")], which removes characters, not the
    suffix: the renamed column is [y] again exactly when [y] is a string
    that is empty or neither starts nor ends with one of the characters
    [_], [h], [a], [t].  So the renamed columns are the target columns
    exactly when every target name is of that kind; an integer name, or a
    name such as "target", is not restored. *)
Theorem sklearn_perf_names (y_vars : list ColName) :
  (forall y, ColStr (perf_mapper (str_col (hat y))) = y <-> keeps_name y = true)
  /\ (perf_columns y_vars = y_vars <-> Forall (fun y => keeps_name y = true) y_vars)
  /\ perf_mapper (str_col (hat (ColStr "target"))) = "rge".
Proof.
  assert (Hone : forall y, ColStr (perf_mapper (str_col (hat y))) = y
                           <-> keeps_name y = true).
  { intros [z|s]; [done|]. unfold hat, perf_mapper, strip. cbn [str_col keeps_name].
    destruct s as [|a r]; [done|]. cbn [first_char].
    destruct (last_char_cons a r) as [b Hb]. rewrite Hb.
    rewrite append_cons. cbn [lstrip].
    destruct (str_mem a "_hat") eqn:Ea; cbn [negb andb].
    - split; [|done]. intros H. apply (f_equal str_col) in H. cbn [str_col] in H.
      pose proof (lstrip_app_length "_hat" r "_hat" eq_refl) as Hlen.
      rewrite H in Hlen. cbn [String.length] in Hlen. lia.
    - rewrite <- append_cons, rstrip_app_all_mem by done.
      rewrite negb_true_iff. split.
      + intros H. apply (f_equal str_col) in H. cbn [str_col] in H.
        apply rstrip_fixed in H. by rewrite Hb in H.
      + intros H. f_equal. apply rstrip_fixed. by rewrite Hb. }
  split; [exact Hone|]. split; [|by vm_compute].
  unfold perf_columns. induction y_vars as [|y l IH]; [done|].
  cbn [fmap list_fmap]. split.
  - intros [= Hy Hl]. constructor; [by apply Hone | by apply IH].
  - intros H. apply Forall_cons in H as [Hy Hl]. f_equal; [by apply Hone | by apply IH].
Qed.

(** *** Cumulative multi-horizon forecasts *)

Lemma cell_add_0_l (x : Cell) : cell_add (Some 0%Qc) x = x.
Proof. destruct x as [q|]; [|done]. cbn. f_equal. ring. Qed.

Lemma cell_add_is_Some (a b : Cell) :
  is_Some (cell_add a b) <-> is_Some a /\ is_Some b.
Proof.
  destruct a, b; cbn; split; try (intros [? ?]); try done;
    try (by intros [[? ?] [? ?]]); by (split; eexists).
Qed.

Lemma cell_at_imap_mul (f : nat -> Cell) (col : Column) (r : nat) :
  cell_at (imap (fun i a => cell_mul a (f i)) col) r = cell_mul (cell_at col r) (f r).
Proof.
  unfold cell_at. rewrite list_lookup_imap. by destruct (col !! r).
Qed.

Lemma cell_at_scaled_col (df : DataFrame) (vol : option ColName) (c : ColName) (r : nat) :
  cell_at (scaled_col df vol c) r = step_forecast df vol c r.
Proof.
  unfold scaled_col, step_forecast. destruct vol; [|done]. apply cell_at_imap_mul.
Qed.

Lemma _process_predictions_eq (nid : string) (target_col : ColName)
  (prediction_cols : ToList) (volatility_col : option ColName) (df_in : DataFrame) :
  Forall (fun c => is_Some (assoc c (df_columns df_in))) (_to_list prediction_cols) ->
  (forall v, volatility_col = Some v -> is_Some (assoc v (df_columns df_in))) ->
  _to_list prediction_cols <> [] ->
  _process_predictions
    (MultihorizonReturnsPredictionProcessor_init nid target_col prediction_cols
       volatility_col) df_in
  = Ok (mkDataFrame (df_index df_in)
          ((fun i => (cumret_hat i,
                      sum_first i (mkDataFrame (df_index df_in)
                                     ((fun c => (c, scaled_col df_in volatility_col c))
                                        <$> _to_list prediction_cols))))
             <$> seq 1 (length (_to_list prediction_cols)))).
Proof.
  intros Hcols Hvol Hne.
  unfold _process_predictions, MultihorizonReturnsPredictionProcessor_init.
  cbn [_prediction_cols mrp_volatility_col _max_steps_ahead].
  unfold select. rewrite select_columns_ok by done. cbn [mbind result_bind].
  assert (Hseq : exists i l, seq 1 (length (_to_list prediction_cols)) = i :: l).
  { destruct (_to_list prediction_cols); [done|]. cbn. by eexists _, _. }
  destruct volatility_col as [v|].
  - destruct (Hvol v eq_refl) as [vcol Hv]. unfold get_column. rewrite Hv.
    cbn [mbind result_bind]. unfold multiply, broadcast, align.
    cbn [df_index df_columns s_index s_values].
    rewrite bool_decide_eq_true_2 by done.
    rewrite <- list_fmap_compose. unfold compose. cbn [fst snd].
    unfold scaled_col. rewrite Hv. cbn [default].
    destruct Hseq as (i & l & Hseq). rewrite Hseq. cbn [fmap list_fmap]. reflexivity.
  - cbn [mbind result_bind df_index df_columns]. unfold scaled_col.
    destruct Hseq as (i & l & Hseq). rewrite Hseq. cbn [fmap list_fmap]. reflexivity.
Qed.

Lemma cell_of_cumulative (idx : list Timestamp) (cols : list (ColName * Column))
  (n k r : nat) :
  (k < n)%nat -> (r < length idx)%nat ->
  cell_of (mkDataFrame idx ((fun i => (cumret_hat i, sum_first i (mkDataFrame idx cols)))
                              <$> seq 1 n)) k r
  = foldl (fun acc c => cell_add acc (cell_at (snd c) r)) (Some 0%Qc) (take (S k) cols).
Proof.
  intros Hk Hr. unfold cell_of. cbn [df_columns].
  rewrite list_lookup_fmap, lookup_seq_lt by done. cbn [fmap option_fmap option_map].
  unfold sum_first, cell_at. cbn [df_index df_columns].
  rewrite list_lookup_imap.
  destruct (idx !! r) eqn:E; [done|]. apply lookup_ge_None in E. lia.
Qed.

(** X17. [MultihorizonReturnsPredictionProcessor._process_predictions] on
    a table that has the prediction columns (and the volatility column, if
    one is set).  Without prediction columns it fails with [ValueError].
    Otherwise the result carries the index of the input and the columns
    [cumret_1_hat], ..., [cumret_n_hat] in this order; the first equals
    the first single-step forecast (times the volatility forecast of the
    row, if set), each later one is the one before plus the next
    single-step forecast, and a cumulative forecast is present exactly
    when all the single-step forecasts up to its horizon are. *)
Theorem multihorizon_cumulative_predictions (nid : string) (target_col : ColName)
  (prediction_cols : ToList) (volatility_col : option ColName) (df_in : DataFrame) :
  let self := MultihorizonReturnsPredictionProcessor_init nid target_col prediction_cols
                volatility_col in
  let forecast := step_forecast df_in volatility_col in
  Forall (fun c => is_Some (assoc c (df_columns df_in))) (_to_list prediction_cols) ->
  (forall v, volatility_col = Some v -> is_Some (assoc v (df_columns df_in))) ->
  (_to_list prediction_cols = [] ->
   _process_predictions self df_in = Err (ValueError "No objects to concatenate"))
  /\ (_to_list prediction_cols <> [] ->
      exists out,
        _process_predictions self df_in = Ok out
        /\ df_index out = df_index df_in
        /\ columns out = cumret_hat <$> seq 1 (length (_to_list prediction_cols))
        /\ (forall c r, _to_list prediction_cols !! 0%nat = Some c ->
                        (r < length (df_index df_in))%nat ->
                        cell_of out 0 r = forecast c r)
        /\ (forall k c r, _to_list prediction_cols !! S k = Some c ->
                          (r < length (df_index df_in))%nat ->
                          cell_of out (S k) r = cell_add (cell_of out k r) (forecast c r))
        /\ (forall k r, (k < length (_to_list prediction_cols))%nat ->
                        (r < length (df_index df_in))%nat ->
                        (is_Some (cell_of out k r)
                         <-> forall j c, (j <= k)%nat ->
                                         _to_list prediction_cols !! j = Some c ->
                                         is_Some (forecast c r)))).
Proof.
  intros self forecast Hcols Hvol. subst self forecast. split.
  - intros Hnil. unfold _process_predictions, MultihorizonReturnsPredictionProcessor_init.
    cbn [_prediction_cols mrp_volatility_col _max_steps_ahead]. rewrite Hnil.
    unfold select. cbn [select_columns mbind result_bind length seq fmap list_fmap].
    destruct volatility_col as [v|]; [|done].
    destruct (Hvol v eq_refl) as [vcol Hv]. unfold get_column. by rewrite Hv.
  - intros Hne. eexists. split; [by apply _process_predictions_eq|].
    set (P := _to_list prediction_cols) in *.
    set (cols := (fun c => (c, scaled_col df_in volatility_col c)) <$> P).
    assert (Hlook : forall k c, P !! k = Some c ->
                      cols !! k = Some (c, scaled_col df_in volatility_col c)).
    { intros k c Hk. unfold cols. by rewrite list_lookup_fmap, Hk. }
    assert (Hzero : forall c r, P !! 0%nat = Some c -> (r < length (df_index df_in))%nat ->
              cell_of (mkDataFrame (df_index df_in)
                         ((fun i => (cumret_hat i,
                                     sum_first i (mkDataFrame (df_index df_in) cols)))
                            <$> seq 1 (length P))) 0 r
              = step_forecast df_in volatility_col c r).
    { intros c r Hc Hr. apply lookup_lt_Some in Hc as Hlt.
      rewrite cell_of_cumulative by done.
      rewrite (take_S_r _ _ _ (Hlook _ _ Hc)), take_0. cbn [app foldl snd].
      by rewrite cell_add_0_l, cell_at_scaled_col. }
    assert (Hstep : forall k c r, P !! S k = Some c -> (r < length (df_index df_in))%nat ->
              cell_of (mkDataFrame (df_index df_in)
                         ((fun i => (cumret_hat i,
                                     sum_first i (mkDataFrame (df_index df_in) cols)))
                            <$> seq 1 (length P))) (S k) r
              = cell_add
                  (cell_of (mkDataFrame (df_index df_in)
                              ((fun i => (cumret_hat i,
                                          sum_first i (mkDataFrame (df_index df_in) cols)))
                                 <$> seq 1 (length P))) k r)
                  (step_forecast df_in volatility_col c r)).
    { intros k c r Hc Hr. apply lookup_lt_Some in Hc as Hlt.
      rewrite !cell_of_cumulative by lia.
      rewrite (take_S_r _ (S k) _ (Hlook _ _ Hc)), foldl_app. cbn [foldl snd].
      by rewrite cell_at_scaled_col. }
    split; [done|]. split.
    { unfold columns. cbn [df_columns]. rewrite <- list_fmap_compose.
      by apply list_fmap_ext. }
    split; [exact Hzero|]. split; [exact Hstep|].
    intros k r Hk Hr. induction k as [|k IH].
    + destruct (lookup_lt_is_Some_2 P 0%nat Hk) as [c Ec].
      rewrite (Hzero c r Ec Hr). split.
      * intros Hs j c' Hj Hc'. assert (j = 0)%nat as -> by lia.
        rewrite Ec in Hc'. by injection Hc' as <-.
      * intros H. by apply (H 0%nat c).
    + destruct (lookup_lt_is_Some_2 P (S k) Hk) as [c Ec].
      rewrite (Hstep k c r Ec Hr), cell_add_is_Some, IH by lia. split.
      * intros [Hprev Hs] j c' Hj Hc'. destruct (decide (j = S k)) as [->|Hneq].
        -- rewrite Ec in Hc'. by injection Hc' as <-.
        -- apply (Hprev j c'); [lia | done].
      * intros H. split; [|by apply (H (S k) c)].
        intros j c' Hj Hc'. apply (H j c'); [lia | done].
Qed.

Lemma multihorizon_cumulative_predictions_witness :
  exists out,
    _process_predictions
      (MultihorizonReturnsPredictionProcessor_init "mrp" Example.ret
         (AsList [ColStr "p1"; ColStr "p2"]) (Some Example.vol)) Example.df_forecasts
    = Ok out
    /\ columns out = [cumret_hat 1; cumret_hat 2]
    /\ cell_of out 0 0 = Example.num 2
    /\ cell_of out 1 0 = Example.num 6
    /\ cell_of out 1 1 = None.
Proof.
  assert (H1 : Forall (fun c => is_Some (assoc c (df_columns Example.df_forecasts)))
                      (_to_list (AsList [ColStr "p1"; ColStr "p2"]))).
  { repeat constructor; by eexists. }
  assert (H2 : forall v, Some Example.vol = Some v ->
                         is_Some (assoc v (df_columns Example.df_forecasts))).
  { intros v [= <-]. by eexists. }
  destruct (proj2 (multihorizon_cumulative_predictions "mrp" Example.ret
                     (AsList [ColStr "p1"; ColStr "p2"]) (Some Example.vol)
                     Example.df_forecasts H1 H2) ltac:(discriminate))
    as (out & Hout & _ & Hcols & Hzero & Hstep & _).
  exists out. split; [exact Hout|]. split; [exact Hcols|].
  assert (Hlt0 : (0 < length (df_index Example.df_forecasts))%nat) by (cbn; lia).
  assert (Hlt1 : (1 < length (df_index Example.df_forecasts))%nat) by (cbn; lia).
  split; [|split].
  - rewrite (Hzero (ColStr "p1") 0%nat eq_refl Hlt0).
    apply (bool_decide_unpack _). by vm_compute.
  - rewrite (Hstep 0%nat (ColStr "p2") 0%nat eq_refl Hlt0),
      (Hzero (ColStr "p1") 0%nat eq_refl Hlt0).
    apply (bool_decide_unpack _). by vm_compute.
  - rewrite (Hstep 0%nat (ColStr "p2") 1%nat eq_refl Hlt1),
      (Hzero (ColStr "p1") 1%nat eq_refl Hlt1).
    apply (bool_decide_unpack _). by vm_compute.
Defined.

(** *** The constant of ContinuousSarimaxModel *)

Section SarimaxState.
Context {Model InitKwargs FitKwargs : Type}.
Variable index_freq : list Timestamp -> option Z.
Variable sm_add_constant : option DataFrame -> result DataFrame.
Variable fit_model :
  @ContinuousSarimaxModel Model InitKwargs FitKwargs -> DataFrame -> DataFrame
  -> option DataFrame -> result (DataFrame * Model).
Variable predict_model :
  @ContinuousSarimaxModel Model InitKwargs FitKwargs -> DataFrame -> DataFrame
  -> option DataFrame -> result DataFrame.

Let fit := ContinuousSarimaxModel_fit index_freq sm_add_constant fit_model.
Let predict := ContinuousSarimaxModel_predict index_freq sm_add_constant predict_model.

Lemma _add_constant_to_x_present
  (self : @ContinuousSarimaxModel Model InitKwargs FitKwargs) (xv : ToList)
  (x : option DataFrame) :
  sar_add_constant self = true -> sar_x_vars self = Some xv ->
  ColStr "const" ∈ _to_list xv ->
  _add_constant_to_x sm_add_constant self x = Err (AssertionError const_msg).
Proof.
  intros Hadd Hx Hin. unfold _add_constant_to_x. rewrite Hadd, Hx. cbn [negb].
  by rewrite bool_decide_eq_true_2.
Qed.

(** X18. A [ContinuousSarimaxModel] with [add_constant=True] and exogenous
    variables can be used once.  A [fit] that succeeds has found no
    "const" among the [x_vars] and leaves the node with "const" appended
    to them; from then on [_add_constant_to_x] fails with the assertion
    "A column name 'const' is already present, please rename column.", so
    no later [predict] or [fit] of the node returns, whatever its input
    is. *)
Theorem sarimax_constant_added_once
  (self self' : @ContinuousSarimaxModel Model InitKwargs FitKwargs) (xv : ToList)
  (df df_out : DataFrame) :
  sar_add_constant self = true ->
  sar_x_vars self = Some xv ->
  fit self df = Ok (df_out, self') ->
  (ColStr "const" ∉ _to_list xv)
  /\ sar_x_vars self' = Some (AsList (_to_list xv ++ [ColStr "const"]))
  /\ (forall x, _add_constant_to_x sm_add_constant self' x
                = Err (AssertionError const_msg))
  /\ forall df', is_ok (predict self' df') = false /\ is_ok (fit self' df') = false.
Proof.
  intros Hadd Hx Hfit.
  assert (Hstate : (ColStr "const" ∉ _to_list xv)
                   /\ sar_x_vars self' = Some (AsList (_to_list xv ++ [ColStr "const"]))
                   /\ sar_add_constant self' = true).
  { subst fit. unfold ContinuousSarimaxModel_fit in Hfit.
    destruct (RegFreqMixin_validate_input_df _ _); [|done]. cbn [mbind result_bind] in Hfit.
    destruct (select _ _); [|done]. cbn [mbind result_bind] in Hfit.
    rewrite Hx in Hfit.
    destruct (_get_bkwd_x_df _ _ _); [|done]. cbn [mbind result_bind] in Hfit.
    unfold _add_constant_to_x in Hfit. rewrite Hadd, Hx in Hfit. cbn [negb] in Hfit.
    destruct (bool_decide (ColStr "const" ∈ _to_list xv)) eqn:Hin; [done|].
    apply bool_decide_eq_false in Hin.
    cbn [negb dbg.dassert mbind result_bind] in Hfit.
    destruct (sm_add_constant _); [|done]. cbn [mbind result_bind] in Hfit.
    destruct (fit_model _ _ _ _) as [[out m]|]; [|done]. cbn [mbind result_bind] in Hfit.
    injection Hfit as _ <-. cbn [sar_with_model sar_with_x_vars sar_x_vars sar_add_constant].
    done. }
  destruct Hstate as (Hnot & Hx' & Hadd').
  assert (Hin : ColStr "const" ∈ _to_list (AsList (_to_list xv ++ [ColStr "const"]))).
  { cbn [_to_list]. apply elem_of_app. right. apply list_elem_of_here. }
  split; [done|]. split; [done|]. split.
  { intros x. by apply (_add_constant_to_x_present self' _ x Hadd' Hx'). }
  intros df'. split.
  - subst predict. unfold ContinuousSarimaxModel_predict.
    destruct (RegFreqMixin_validate_input_df _ _); [|done]. cbn [mbind result_bind].
    destruct (dbg.dassert_eq_nat _ _ _); [|done]. cbn [mbind result_bind].
    destruct (select _ _); [|done]. cbn [mbind result_bind].
    rewrite Hx'.
    destruct (_get_bkwd_x_df _ _ _); [|done]. cbn [mbind result_bind fst].
    by rewrite (_add_constant_to_x_present self' _ _ Hadd' Hx' Hin).
  - subst fit. unfold ContinuousSarimaxModel_fit.
    destruct (RegFreqMixin_validate_input_df _ _); [|done]. cbn [mbind result_bind].
    destruct (select _ _); [|done]. cbn [mbind result_bind].
    rewrite Hx'.
    destruct (_get_bkwd_x_df _ _ _); [|done]. cbn [mbind result_bind].
    by rewrite (_add_constant_to_x_present self' _ _ Hadd' Hx' Hin).
Qed.

End SarimaxState.

Lemma sarimax_constant_added_once_witness :
  exists df_out self',
    ContinuousSarimaxModel_fit Example.minute_freq Example.add_const
      Example.sarimax_fit_model Example.sarimax Example.df_in = Ok (df_out, self')
    /\ sar_x_vars self' = Some (AsList [Example.vol; ColStr "const"])
    /\ is_ok (ContinuousSarimaxModel_predict Example.minute_freq Example.add_const
                Example.sarimax_predict_model self' Example.df_in) = false.
Proof.
  assert (Hok : is_ok (ContinuousSarimaxModel_fit Example.minute_freq Example.add_const
                         Example.sarimax_fit_model Example.sarimax Example.df_in) = true)
    by (vm_compute; reflexivity).
  destruct (ContinuousSarimaxModel_fit Example.minute_freq Example.add_const
              Example.sarimax_fit_model Example.sarimax Example.df_in)
    as [[df_out self']|] eqn:Hfit; [|discriminate].
  exists df_out, self'. split; [reflexivity|].
  destruct (sarimax_constant_added_once Example.minute_freq Example.add_const
              Example.sarimax_fit_model Example.sarimax_predict_model
              Example.sarimax self' (AsList [Example.vol]) Example.df_in df_out
              eq_refl eq_refl Hfit) as (_ & Hx & _ & Hall).
  split; [exact Hx|]. apply Hall.
Defined.

(** *** The rows fitted on and predicted for *)

Lemma filter_none {A : Type} (P : A -> Prop) `{!forall x, Decision (P x)} (l : list A) :
  Forall (fun x => ~ P x) l -> filter P l = [].
Proof.
  induction 1 as [|x l Hx Hl IH]; [done|].
  by rewrite filter_cons_False.
Qed.

Lemma filter_eq_seq (i a n : nat) :
  (a <= i < a + n)%nat -> filter (fun j => j = i) (seq a n) = [i].
Proof.
  revert a. induction n as [|n IH]; intros a Hi; [lia|].
  cbn [seq]. rewrite filter_cons. destruct (decide (a = i)) as [->|Hne].
  - f_equal. apply filter_none, Forall_forall.
    intros j Hj%elem_of_seq. lia.
  - apply IH. lia.
Qed.

Lemma positions_lookup (idx : list Timestamp) (i : nat) (t : Timestamp) :
  NoDup idx -> idx !! i = Some t -> positions t idx = [i].
Proof.
  intros Hnd Hi. unfold positions.
  rewrite (list_filter_iff _ (fun j => j = i)).
  - apply filter_eq_seq. apply lookup_lt_Some in Hi. lia.
  - intros j. split; [|by intros ->].
    intros Hj. by apply (NoDup_lookup idx j i t).
Qed.

Lemma labels_at_positions (idx : list Timestamp) (ps : list nat) :
  NoDup idx -> Forall (fun p => (p < length idx)%nat) ps ->
  labels_at idx ps ≫= (fun t => positions t idx) = ps.
Proof.
  intros Hnd. induction 1 as [|p ps Hp Hps IH]; [done|].
  cbn [labels_at fmap list_fmap mbind list_bind].
  destruct (lookup_lt_is_Some_2 idx p Hp) as [t Ht]. rewrite Ht. cbn [default].
  unfold id. rewrite (positions_lookup idx p t Hnd Ht). cbn [app]. f_equal. exact IH.
Qed.

Lemma labels_at_elem (idx : list Timestamp) (ps : list nat) :
  Forall (fun p => (p < length idx)%nat) ps ->
  forallb (fun t => bool_decide (t ∈ idx)) (labels_at idx ps) = true.
Proof.
  induction 1 as [|p ps Hp Hps IH]; [done|].
  cbn [labels_at fmap list_fmap forallb]. rewrite andb_true_iff. split; [|exact IH].
  apply bool_decide_eq_true_2.
  destruct (lookup_lt_is_Some_2 idx p Hp) as [t Ht]. rewrite Ht. cbn [default].
  by apply list_elem_of_lookup_2 in Ht.
Qed.

(** With an index without duplicates, [df.loc[...]] of the labels at some
    positions gives the rows at these positions. *)
Lemma loc_labels_at (df : DataFrame) (ps : list nat) :
  NoDup (df_index df) -> Forall (fun p => (p < length (df_index df))%nat) ps ->
  loc_labels (labels_at (df_index df) ps) df = Ok (take_rows ps df).
Proof.
  intros Hnd Hps. unfold loc_labels.
  by rewrite labels_at_elem, labels_at_positions.
Qed.

Lemma filter_ext_in {A : Type} (P Q : A -> Prop) `{!forall x, Decision (P x)}
  `{!forall x, Decision (Q x)} (l : list A) :
  (forall x, x ∈ l -> P x <-> Q x) -> filter P l = filter Q l.
Proof.
  induction l as [|x l IH]; intros Hext; [done|].
  rewrite !filter_cons.
  rewrite IH by (intros y Hy; apply Hext; by apply list_elem_of_further).
  pose proof (Hext x (list_elem_of_here _ _)) as Hx.
  destruct (decide (P x)), (decide (Q x)); tauto.
Qed.

(** Picking by position and then filtering is filtering the list. *)
Lemma filter_positions {A : Type} (d : A) (P : A -> Prop) `{!forall x, Decision (P x)}
  (l : list A) :
  (fun j => default d (l !! j))
    <$> filter (fun j => P (default d (l !! j))) (seq 0 (length l))
  = filter P l.
Proof.
  induction l as [|x l IH] using rev_ind; [done|].
  rewrite length_app, Nat.add_comm. cbn [length Nat.add].
  rewrite seq_S, !filter_app, fmap_app. cbn [Nat.add]. f_equal.
  - rewrite <- IH.
    rewrite (filter_ext_in (fun j => P (default d ((l ++ [x]) !! j)))
               (fun j => P (default d (l !! j)))).
    + apply Forall_fmap_ext, Forall_forall.
      intros j [_ Hj%elem_of_seq]%list_elem_of_filter.
      by rewrite lookup_app_l by lia.
    + intros j Hj%elem_of_seq. by rewrite lookup_app_l by lia.
  - rewrite !filter_cons, !filter_nil.
    rewrite lookup_app_r, Nat.sub_diag by lia. cbn [lookup list_lookup default].
    unfold id. destruct (decide (P x)); [|done].
    cbn [fmap list_fmap]. by rewrite lookup_app_r, Nat.sub_diag by lia.
Qed.

Lemma labels_at_labels_at (idx : list Timestamp) (qs ps : list nat) :
  Forall (fun p => (p < length qs)%nat) ps ->
  labels_at (labels_at idx qs) ps
  = labels_at idx ((fun p => default 0%nat (qs !! p)) <$> ps).
Proof.
  intros Hps. unfold labels_at. rewrite <- list_fmap_compose.
  apply Forall_fmap_ext. eapply Forall_impl; [exact Hps|].
  intros p Hp. cbn [compose]. rewrite list_lookup_fmap.
  by destruct (lookup_lt_is_Some_2 qs p Hp) as [q ->].
Qed.

Lemma cell_at_fmap (col : Column) (qs : list nat) (p : nat) :
  (p < length qs)%nat ->
  cell_at ((fun q => cell_at col q) <$> qs) p = cell_at col (default 0%nat (qs !! p)).
Proof.
  intros Hp. unfold cell_at at 1. rewrite list_lookup_fmap.
  by destruct (lookup_lt_is_Some_2 qs p Hp) as [q ->].
Qed.

Lemma take_rows_take_rows (df : DataFrame) (qs ps : list nat) :
  Forall (fun p => (p < length qs)%nat) ps ->
  take_rows ps (take_rows qs df)
  = take_rows ((fun p => default 0%nat (qs !! p)) <$> ps) df.
Proof.
  intros Hps. unfold take_rows. cbn [df_index df_columns].
  rewrite labels_at_labels_at by done. f_equal.
  rewrite <- list_fmap_compose. apply list_fmap_ext. intros i [c col] _.
  cbn [compose fst snd]. f_equal. rewrite <- list_fmap_compose.
  apply Forall_fmap_ext. eapply Forall_impl; [exact Hps|].
  intros p Hp. cbn [compose]. by apply cell_at_fmap.
Qed.

Lemma complete_at_take_rows (df : DataFrame) (qs : list nat) (j : nat) :
  (j < length qs)%nat ->
  complete_at (take_rows qs df) j = complete_at df (default 0%nat (qs !! j)).
Proof.
  intros Hj. unfold complete_at, take_rows. cbn [df_columns].
  induction (df_columns df) as [|[c col] cols IH]; [done|].
  cbn [fmap list_fmap forallb fst snd]. rewrite cell_at_fmap by done. by rewrite IH.
Qed.

Lemma labels_at_length (idx : list Timestamp) (ps : list nat) :
  length (labels_at idx ps) = length ps.
Proof. unfold labels_at. by rewrite length_fmap. Qed.

(** Dropping the incomplete rows of selected rows selects the complete
    ones among them. *)
Lemma dropna_take_rows (df : DataFrame) (qs : list nat) :
  dropna (take_rows qs df)
  = take_rows (filter (fun i => complete_at df i = true) qs) df.
Proof.
  unfold dropna. cbn [take_rows df_index]. rewrite labels_at_length.
  rewrite take_rows_take_rows.
  2:{ apply Forall_forall. intros j [_ Hj%elem_of_seq]%list_elem_of_filter. lia. }
  f_equal.
  rewrite (filter_ext_in (fun i => complete_at (take_rows qs df) i = true)
             (fun j => complete_at df (default 0%nat (qs !! j)) = true)).
  - exact (filter_positions 0%nat (fun i => complete_at df i = true) qs).
  - intros j Hj%elem_of_seq. by rewrite complete_at_take_rows by lia.
Qed.

Lemma select_take_rows (df : DataFrame) (names : list ColName) (qs : list nat) :
  Forall (fun y => is_Some (assoc y (df_columns df))) names ->
  select (take_rows qs df) names = Ok (take_rows qs (selected names df)).
Proof.
  intros Hall. unfold select, take_rows, selected. cbn [df_index df_columns].
  rewrite select_columns_ok.
  2:{ eapply Forall_impl; [exact Hall|]. intros y [col Hy].
      rewrite (assoc_fmap_snd (fun col => (fun p => cell_at col p) <$> qs)), Hy.
      by eexists. }
  cbn [mbind result_bind]. do 2 f_equal. rewrite <- list_fmap_compose.
  apply Forall_fmap_ext. eapply Forall_impl; [exact Hall|]. intros y [col Hy].
  cbn [compose fst snd].
  by rewrite (assoc_fmap_snd (fun col => (fun p => cell_at col p) <$> qs)), Hy.
Qed.

Lemma take_labels_at (idx : list Timestamp) (m : nat) :
  (m <= length idx)%nat -> take m idx = labels_at idx (seq 0 m).
Proof.
  intros Hm. apply list_eq. intros i. unfold labels_at.
  rewrite list_lookup_fmap. destruct (decide (i < m)%nat) as [Hi|Hi].
  - rewrite lookup_take_lt, lookup_seq_lt by done. cbn.
    by destruct (lookup_lt_is_Some_2 idx i ltac:(lia)) as [t ->].
  - rewrite lookup_take_ge, lookup_seq_ge by lia. done.
Qed.

Lemma labels_at_inj (idx : list Timestamp) (p q : nat) :
  NoDup idx -> (p < length idx)%nat -> (q < length idx)%nat ->
  default (0 : Timestamp) (idx !! p) = default (0 : Timestamp) (idx !! q) -> p = q.
Proof.
  intros Hnd Hp Hq.
  destruct (lookup_lt_is_Some_2 idx p Hp) as [t Ht].
  destruct (lookup_lt_is_Some_2 idx q Hq) as [t' Ht'].
  rewrite Ht, Ht'. cbn. intros ->. by apply (NoDup_lookup idx p q t').
Qed.

Lemma labels_at_elem_of (idx : list Timestamp) (ps : list nat) (p : nat) :
  NoDup idx -> (p < length idx)%nat -> Forall (fun q => (q < length idx)%nat) ps ->
  default (0 : Timestamp) (idx !! p) ∈ labels_at idx ps <-> p ∈ ps.
Proof.
  intros Hnd Hp Hps. unfold labels_at. rewrite list_elem_of_fmap. split.
  - intros (q & Heq & Hq). eapply Forall_forall in Hps as Hq'; [|exact Hq].
    by rewrite (labels_at_inj idx p q Hnd Hp Hq' Heq).
  - intros Hin. by exists p.
Qed.

Lemma index_intersection_labels (idx : list Timestamp) (ps qs : list nat) :
  NoDup idx -> Forall (fun p => (p < length idx)%nat) ps ->
  Forall (fun q => (q < length idx)%nat) qs ->
  index_intersection (labels_at idx ps) (labels_at idx qs)
  = labels_at idx (filter (fun p => p ∈ qs) ps).
Proof.
  intros Hnd Hps Hqs. unfold index_intersection.
  induction Hps as [|p ps Hp Hps IH]; [done|].
  cbn [labels_at fmap list_fmap]. rewrite !filter_cons.
  fold (labels_at idx ps). fold (labels_at idx qs).
  destruct (decide (p ∈ qs)) as [Hin|Hnin].
  - rewrite decide_True by (by apply labels_at_elem_of).
    cbn [labels_at fmap list_fmap]. f_equal. exact IH.
  - rewrite decide_False by (by rewrite labels_at_elem_of).
    exact IH.
Qed.

Lemma labels_at_NoDup (idx : list Timestamp) (ps : list nat) :
  NoDup idx -> Forall (fun p => (p < length idx)%nat) ps -> NoDup ps ->
  NoDup (labels_at idx ps).
Proof.
  intros Hnd Hps Hnps. unfold labels_at. apply NoDup_fmap_2_strong; [|done].
  intros p q Hp Hq Heq.
  eapply Forall_forall in Hps as Hp'; [|exact Hp].
  eapply Forall_forall in Hps as Hq'; [|exact Hq].
  by apply (labels_at_inj idx).
Qed.

(** [.loc] on selected rows, for labels of a part of these rows. *)
Lemma loc_labels_filter (df : DataFrame) (qs : list nat) (P : nat -> Prop)
  `{!forall i, Decision (P i)} :
  NoDup (df_index df) -> Forall (fun p => (p < length (df_index df))%nat) qs ->
  NoDup qs ->
  loc_labels (labels_at (df_index df) (filter P qs)) (take_rows qs df)
  = Ok (take_rows (filter P qs) df).
Proof.
  intros Hnd Hqs Hnq.
  pose proof (filter_positions 0%nat P qs) as Hpos.
  set (js := filter (fun j => P (default 0%nat (qs !! j))) (seq 0 (length qs))) in *.
  assert (Hjs : Forall (fun j => (j < length qs)%nat) js).
  { apply Forall_forall. intros j [_ Hj%elem_of_seq]%list_elem_of_filter. lia. }
  rewrite <- Hpos, <- labels_at_labels_at by done.
  change (labels_at (df_index df) qs) with (df_index (take_rows qs df)).
  rewrite loc_labels_at.
  - by rewrite take_rows_take_rows.
  - cbn [take_rows df_index]. by apply labels_at_NoDup.
  - cbn [take_rows df_index]. by rewrite labels_at_length.
Qed.

Lemma fit_positions_valid (x_vars y_vars : list ColName) (k : Z) (m : nat)
  (df : DataFrame) :
  (m <= length (df_index df))%nat ->
  Forall (fun p => (p < length (df_index df))%nat) (fit_positions x_vars y_vars k m df).
Proof.
  intros Hm. apply Forall_forall.
  intros j [_ Hj%elem_of_seq]%list_elem_of_filter. lia.
Qed.

Lemma fwd_fit_rows_eq (x_vars y_vars : list ColName) (k : Z)
  (handle_nans : list Timestamp -> list Timestamp -> result unit) (m : nat)
  (df : DataFrame) :
  NoDup (df_index df) ->
  Forall (fun c => is_Some (assoc c (df_columns df))) x_vars ->
  Forall (fun c => is_Some (assoc c (df_columns df))) y_vars ->
  (m <= length (df_index df))%nat ->
  let G := fit_positions x_vars y_vars k m df in
  fwd_fit_rows x_vars y_vars k handle_nans (take m (df_index df)) df
  = if bool_decide (G = []) then Err (AssertionError "")
    else (_ ← handle_nans (take m (df_index df)) (labels_at (df_index df) G);
          Ok (labels_at (df_index df) G, take_rows G df,
              take_rows G (fwd_targets y_vars k df))).
Proof.
  intros Hnd Hx Hy Hm G.
  assert (Hseq : Forall (fun p => (p < length (df_index df))%nat) (seq 0 m)).
  { apply Forall_forall. intros j Hj%elem_of_seq. lia. }
  set (cX := fun i => complete_at (selected x_vars df) i = true).
  set (cF := fun i => complete_at (fwd_targets y_vars k df) i = true).
  assert (HG : G = filter cX (filter cF (seq 0 m))).
  { rewrite list_filter_filter. subst G. unfold fit_positions.
    apply list_filter_iff. intros i. unfold cX, cF. by rewrite andb_true_iff. }
  assert (HG' : filter (fun p => p ∈ filter cF (seq 0 m)) (filter cX (seq 0 m)) = G).
  { rewrite list_filter_filter. subst G. unfold fit_positions.
    apply filter_ext_in. intros i Hi. rewrite list_elem_of_filter. unfold cX, cF.
    rewrite andb_true_iff. tauto. }
  assert (Hvalid : forall P `{!forall i, Decision (P i)},
             Forall (fun p => (p < length (df_index df))%nat) (filter P (seq 0 m))).
  { intros P ?. apply Forall_forall.
    intros j [_ Hj%elem_of_seq]%list_elem_of_filter. lia. }
  unfold fwd_fit_rows. rewrite take_labels_at by done.
  rewrite loc_labels_at by done. cbn [mbind result_bind].
  rewrite select_take_rows by done. cbn [mbind result_bind].
  rewrite get_fwd_y_df_eq by done. cbn [mbind result_bind].
  fold (fwd_targets y_vars k df).
  change (df_index df) with (df_index (fwd_targets y_vars k df)) at 2.
  rewrite loc_labels_at by done. cbn [mbind result_bind].
  rewrite !dropna_take_rows. fold cX cF.
  rewrite (filter_all cF (filter cF (seq 0 m))).
  2:{ apply Forall_forall. by intros j [Hj _]%list_elem_of_filter. }
  cbn [take_rows df_index selected fwd_targets].
  rewrite index_intersection_labels by (done || apply Hvalid).
  rewrite HG'.
  assert (Hnil : bool_decide (labels_at (df_index df) G = []) = bool_decide (G = [])).
  { apply bool_decide_ext. unfold labels_at. split; [apply fmap_nil_inv | by intros ->]. }
  unfold dbg.dassert. rewrite Hnil.
  destruct (bool_decide (G = [])); [done|]. cbn [negb mbind result_bind].
  rewrite HG.
  pose proof (loc_labels_filter (fwd_targets y_vars k df) (filter cF (seq 0 m)) cX
                Hnd (Hvalid cF _) (NoDup_filter _ _ (NoDup_seq 0 m))) as Hloc.
  change (df_index (fwd_targets y_vars k df)) with (df_index df) in Hloc.
  rewrite Hloc.
  cbn [mbind result_bind].
  destruct (handle_nans _ _) as [[]|e]; [|done]. cbn [mbind result_bind].
  rewrite loc_labels_at; [done | done |]. rewrite <- HG.
  by apply fit_positions_valid.
Qed.

Lemma fwd_predict_rows_eq (x_vars : list ColName)
  (handle_nans : list Timestamp -> list Timestamp -> result unit) (df : DataFrame) :
  NoDup (df_index df) ->
  Forall (fun c => is_Some (assoc c (df_columns df))) x_vars ->
  let H := filter (fun i => complete_at (selected x_vars df) i = true)
                  (seq 0 (length (df_index df))) in
  fwd_predict_rows x_vars handle_nans df
  = (_ ← handle_nans (df_index df) (labels_at (df_index df) H);
     Ok (labels_at (df_index df) H, take_rows H df)).
Proof.
  intros Hnd Hx H.
  assert (Hseq : Forall (fun p => (p < length (df_index df))%nat)
                        (seq 0 (length (df_index df)))).
  { apply Forall_forall. intros j Hj%elem_of_seq. lia. }
  assert (HH : Forall (fun p => (p < length (df_index df))%nat) H).
  { apply Forall_forall. intros j [_ Hj%elem_of_seq]%list_elem_of_filter. lia. }
  pose proof (loc_labels_at df _ Hnd Hseq) as Hloc.
  rewrite <- take_labels_at, take_ge in Hloc by lia.
  unfold fwd_predict_rows. rewrite Hloc. cbn [mbind result_bind].
  rewrite select_take_rows by done. cbn [mbind result_bind].
  rewrite dropna_take_rows. fold H. cbn [take_rows df_index selected].
  destruct (handle_nans _ _) as [[]|e]; [|done]. cbn [mbind result_bind].
  by rewrite loc_labels_at.
Qed.

Lemma complete_at_selected (names : list ColName) (df : DataFrame) (i : nat) :
  complete_at (selected names df) i = true
  <-> forall c, c ∈ names -> is_Some (cell df c i).
Proof.
  unfold complete_at, selected, cell. cbn [df_columns].
  induction names as [|y names IH].
  - split; [|done]. intros _ c Hc. by apply elem_of_nil in Hc.
  - cbn [fmap list_fmap forallb snd]. rewrite andb_true_iff, IH, bool_decide_eq_true.
    split.
    + intros [Hy Hrest] c [->|Hc]%elem_of_cons; [done | by apply Hrest].
    + intros Hall. split; [apply Hall, list_elem_of_here|].
      intros c Hc. by apply Hall, list_elem_of_further.
Qed.

Lemma cell_at_shift_back (k : Z) (col : Column) (i : nat) :
  0 <= k -> cell_at (shift_column (- k) col) i = cell_at col (i + Z.to_nat k).
Proof.
  intros Hk. unfold cell_at at 1.
  destruct (decide (i < length col)%nat) as [Hi|Hi].
  - rewrite shift_back_lookup by done. cbn [default]. case_bool_decide; [done|].
    unfold cell_at. by rewrite lookup_ge_None_2 by lia.
  - rewrite lookup_ge_None_2 by (rewrite shift_column_length; lia).
    unfold cell_at. by rewrite lookup_ge_None_2 by lia.
Qed.

Lemma complete_at_fwd_targets (y_vars : list ColName) (k : Z) (df : DataFrame) (i : nat) :
  0 <= k ->
  complete_at (fwd_targets y_vars k df) i = true
  <-> forall c, c ∈ y_vars -> is_Some (cell df c (i + Z.to_nat k)).
Proof.
  intros Hk. unfold complete_at, fwd_targets, cell. cbn [df_columns].
  induction y_vars as [|y names IH].
  - split; [|done]. intros _ c Hc. by apply elem_of_nil in Hc.
  - cbn [fmap list_fmap forallb snd].
    rewrite andb_true_iff, IH, bool_decide_eq_true, cell_at_shift_back by done.
    split.
    + intros [Hy Hrest] c [->|Hc]%elem_of_cons; [done | by apply Hrest].
    + intros Hall. split; [apply Hall, list_elem_of_here|].
      intros c Hc. by apply Hall, list_elem_of_further.
Qed.

(** A row is fitted on exactly when it is among the first [m], none of
    its [x_vars] is missing, and no [y_vars] is missing [k] rows later. *)
Lemma fit_positions_spec (x_vars y_vars : list ColName) (k : Z) (m : nat)
  (df : DataFrame) (i : nat) :
  0 <= k ->
  i ∈ fit_positions x_vars y_vars k m df
  <-> (i < m)%nat
      /\ (forall c, c ∈ x_vars -> is_Some (cell df c i))
      /\ (forall c, c ∈ y_vars -> is_Some (cell df c (i + Z.to_nat k))).
Proof.
  intros Hk. unfold fit_positions.
  rewrite list_elem_of_filter, andb_true_iff, complete_at_selected,
    complete_at_fwd_targets, elem_of_seq by done.
  split; [intros [[? ?] ?] | intros (? & ? & ?)]; repeat split; (done || lia).
Qed.

Lemma cell_take_rows (df : DataFrame) (ps : list nat) (c : ColName) (j i : nat) :
  ps !! j = Some i -> cell (take_rows ps df) c j = cell df c i.
Proof.
  intros Hj. unfold cell, take_rows. cbn [df_columns].
  rewrite (assoc_fmap_snd (fun col => (fun p => cell_at col p) <$> ps)).
  destruct (assoc c (df_columns df)) as [col|]; cbn [fmap option_fmap option_map default];
    unfold id.
  - rewrite cell_at_fmap by (by apply lookup_lt_Some in Hj). by rewrite Hj.
  - unfold cell_at. by rewrite !lookup_nil.
Qed.

Lemma cell_of_take_rows_fwd (df : DataFrame) (ps : list nat) (y_vars : list ColName)
  (k : Z) (q j i : nat) (y : ColName) :
  0 <= k -> y_vars !! q = Some y -> ps !! j = Some i ->
  cell_of (take_rows ps (fwd_targets y_vars k df)) q j = cell df y (i + Z.to_nat k).
Proof.
  intros Hk Hq Hj. unfold cell_of, take_rows, fwd_targets, cell. cbn [df_columns].
  rewrite !list_lookup_fmap, Hq. cbn [fmap option_fmap option_map fst snd]. unfold id.
  rewrite cell_at_fmap by (by apply lookup_lt_Some in Hj). rewrite Hj. cbn [default].
  by apply cell_at_shift_back.
Qed.

Lemma StronglySorted_lt_NoDup (l : list Z) : StronglySorted Z.lt l -> NoDup l.
Proof.
  induction 1 as [|x l Hs IH Hall]; constructor; [|done].
  intros Hin. eapply Forall_forall in Hall; [|exact Hin]. lia.
Qed.

Lemma slice_to_minus_take {A : Type} (k : Z) (l : list A) :
  0 <= k ->
  slice_to_minus k l = take (length (slice_to_minus k l)) l
  /\ length (slice_to_minus k l)
     = if bool_decide (k = 0) then 0%nat else (length l - Z.to_nat k)%nat.
Proof.
  intros Hk. unfold slice_to_minus. destruct (k =? 0) eqn:E.
  - apply Z.eqb_eq in E. by rewrite bool_decide_eq_true_2.
  - apply Z.eqb_neq in E. rewrite bool_decide_eq_false_2 by done.
    rewrite length_take. split; [f_equal; lia | lia].
Qed.

Lemma labels_at_lookup (idx : list Timestamp) (ps : list nat) (j i : nat) :
  ps !! j = Some i -> (i < length idx)%nat -> labels_at idx ps !! j = idx !! i.
Proof.
  intros Hj Hi. unfold labels_at. rewrite list_lookup_fmap, Hj. cbn.
  by destruct (lookup_lt_is_Some_2 idx i Hi) as [t ->].
Qed.

Section FitRowsFacts.
Context {ModelFunc ModelKwargs Model : Type}.
Variable index_freq : list Timestamp -> option Z.

(** X21. Which rows [ContinuousSkLearnModel.fit] trains on, for an input
    that passes validation, with an ascending index, the [x_vars] and
    [y_vars] among its columns and [0 <= k < n] rows ahead.  Row [i] is
    used exactly when it is among the first [n - k] rows (none for
    [k = 0]), none of its [x_vars] is missing and no [y_vars] is missing
    [k] rows later.  If there is no such row, [fit] fails with an
    assertion; in mode "raise" it fails with [ValueError] unless every one
    of the first [n - k] rows is used; in mode "drop" it goes on, and any
    other mode is rejected only here.  The adapter receives, for each
    used row [i] in order, the label and the columns of row [i], and as
    targets the [y_vars] of row [i + k]. *)
Theorem continuous_sklearn_fit_rows
  (self : @ContinuousSkLearnModel ModelFunc ModelKwargs Model) (df : DataFrame) :
  let x_vars := _to_list (csl_x_vars self) in
  let y_vars := _to_list (csl_y_vars self) in
  let k := csl_steps_ahead self in
  let m := length (slice_to_minus k (df_index df)) in
  let G := fit_positions x_vars y_vars k m df in
  let rows := (labels_at (df_index df) G, take_rows G df,
               take_rows G (fwd_targets y_vars k df)) in
  RegFreqMixin_validate_input_df index_freq df = Ok () ->
  StronglySorted Z.lt (df_index df) ->
  Forall (fun c => is_Some (assoc c (df_columns df))) x_vars ->
  Forall (fun c => is_Some (assoc c (df_columns df))) y_vars ->
  0 <= k < Z.of_nat (length (df_index df)) ->
  m = (if bool_decide (k = 0) then 0%nat else (length (df_index df) - Z.to_nat k)%nat)
  /\ (forall i, i ∈ G
                <-> (i < m)%nat
                    /\ (forall c, c ∈ x_vars -> is_Some (cell df c i))
                    /\ (forall c, c ∈ y_vars -> is_Some (cell df c (i + Z.to_nat k))))
  /\ ContinuousSkLearnModel_fit_rows index_freq self df
     = (if bool_decide (G = []) then Err (AssertionError "")
        else if bool_decide (csl_nan_mode self = "raise") then
          if bool_decide (length G = m) then Ok rows
          else Err (ValueError "NaNs detected")
        else if bool_decide (csl_nan_mode self = "drop") then Ok rows
        else Err (ValueError ("Unrecognized nan_mode `" +:+ csl_nan_mode self +:+ "`")))
  /\ (forall j i, G !! j = Some i ->
        labels_at (df_index df) G !! j = df_index df !! i
        /\ (forall c, cell (take_rows G df) c j = cell df c i)
        /\ (forall q y, y_vars !! q = Some y ->
              cell_of (take_rows G (fwd_targets y_vars k df)) q j
              = cell df y (i + Z.to_nat k))).
Proof.
  intros x_vars y_vars k m G rows Hv Hsorted Hx Hy Hk.
  destruct (slice_to_minus_take k (df_index df) (proj1 Hk)) as [Hslice Hm].
  fold m in Hslice, Hm.
  assert (Hmn : (m <= length (df_index df))%nat).
  { rewrite Hm. case_bool_decide; lia. }
  pose proof (StronglySorted_lt_NoDup _ Hsorted) as Hnd.
  split; [exact Hm|]. split; [intros i; apply fit_positions_spec; lia|]. split.
  - unfold ContinuousSkLearnModel_fit_rows, ContinuousSkLearnModel_fit_idx.
    rewrite Hv. cbn [mbind result_bind]. fold k.
    unfold dbg.dassert_lt, dbg.dassert.
    rewrite (proj2 (Z.ltb_lt _ _) (proj2 Hk)). cbn [mbind result_bind].
    rewrite Hslice. fold x_vars y_vars.
    rewrite (fwd_fit_rows_eq x_vars y_vars k _ m df Hnd Hx Hy Hmn). fold G.
    destruct (bool_decide (G = [])); [done|].
    unfold ContinuousSkLearnModel_handle_nans.
    rewrite labels_at_length, length_take, Nat.min_l by done.
    destruct (bool_decide (csl_nan_mode self = "raise")).
    + destruct (decide (length G = m)) as [Heq|Hne].
      * rewrite bool_decide_eq_false_2 by (intros Hne; by apply Hne).
        by rewrite bool_decide_eq_true_2.
      * rewrite bool_decide_eq_true_2 by (intros Heq; by apply Hne).
        by rewrite bool_decide_eq_false_2.
    + by destruct (bool_decide (csl_nan_mode self = "drop")).
  - intros j i Hj.
    assert (Hi : (i < length (df_index df))%nat).
    { apply list_elem_of_lookup_2 in Hj.
      apply fit_positions_spec in Hj as [Hi _]; [lia | lia]. }
    split; [by apply labels_at_lookup|]. split.
    + intros c. by apply cell_take_rows.
    + intros q y Hq. by apply cell_of_take_rows_fwd; [lia | |].
Qed.

End FitRowsFacts.

Lemma continuous_sklearn_fit_rows_witness :
  ContinuousSkLearnModel_fit_rows Example.minute_freq (Example.csl "drop") Example.df_nan
  = Ok ([0], take_rows [0%nat] Example.df_nan,
        take_rows [0%nat] (fwd_targets [Example.y] 1 Example.df_nan))
  /\ ContinuousSkLearnModel_fit_rows Example.minute_freq (Example.csl "raise")
       Example.df_nan
     = Err (ValueError "NaNs detected").
Proof.
  assert (Hs : StronglySorted Z.lt (df_index Example.df_nan)).
  { repeat constructor; lia. }
  assert (Hx : Forall (fun c => is_Some (assoc c (df_columns Example.df_nan)))
                      [Example.x]) by (repeat constructor; by eexists).
  assert (Hy : Forall (fun c => is_Some (assoc c (df_columns Example.df_nan)))
                      [Example.y]) by (repeat constructor; by eexists).
  split.
  - destruct (continuous_sklearn_fit_rows Example.minute_freq (Example.csl "drop")
                Example.df_nan eq_refl Hs Hx Hy ltac:(cbn; lia)) as (_ & _ & Heq & _).
    etrans; [exact Heq|]. vm_compute. reflexivity.
  - destruct (continuous_sklearn_fit_rows Example.minute_freq (Example.csl "raise")
                Example.df_nan eq_refl Hs Hx Hy ltac:(cbn; lia)) as (_ & _ & Heq & _).
    etrans; [exact Heq|]. vm_compute. reflexivity.
Defined.

Lemma filter_length_eq {A : Type} (P : A -> Prop) `{!forall x, Decision (P x)}
  (l : list A) :
  length (filter P l) = length l -> filter P l = l.
Proof.
  induction l as [|x l IH]; [done|]. rewrite filter_cons.
  pose proof (length_filter P l) as Hle.
  destruct (decide (P x)); cbn [length]; intros Hlen; [|lia].
  f_equal. apply IH. lia.
Qed.

Lemma predict_positions_spec (x_vars : list ColName) (df : DataFrame) (i : nat) :
  i ∈ predict_positions x_vars df
  <-> (i < length (df_index df))%nat /\ (forall c, c ∈ x_vars -> is_Some (cell df c i)).
Proof.
  unfold predict_positions.
  rewrite list_elem_of_filter, complete_at_selected, elem_of_seq.
  split; [intros [? ?] | intros [? ?]]; (split; [done || lia | done || lia]).
Qed.

Lemma predict_positions_all (x_vars : list ColName) (df : DataFrame) :
  length (predict_positions x_vars df) = length (df_index df) ->
  labels_at (df_index df) (predict_positions x_vars df) = df_index df.
Proof.
  intros Hlen. unfold predict_positions in *.
  rewrite filter_length_eq by (by rewrite length_seq).
  by rewrite <- take_labels_at, take_ge by lia.
Qed.

Section PredictRowsFacts.
Context {ModelFunc ModelKwargs Model : Type}.
Variable index_freq : list Timestamp -> option Z.

(** X22. Which rows [ContinuousSkLearnModel.predict] predicts for, for an
    input that passes validation, with an ascending index and the
    [x_vars] among its columns: the rows in which no [x_vars] is missing;
    the [y_vars] play no part.  In mode "raise" the input is rejected with
    [ValueError] exactly when some row lacks an [x_vars]; otherwise the
    labels predicted for are the whole index.  In mode "drop" the
    incomplete rows are left out and, unlike in [fit], an input without
    any complete row is accepted.  Any other mode is rejected. *)
Theorem continuous_sklearn_predict_rows
  (self : @ContinuousSkLearnModel ModelFunc ModelKwargs Model) (df : DataFrame) :
  let x_vars := _to_list (csl_x_vars self) in
  let H := predict_positions x_vars df in
  RegFreqMixin_validate_input_df index_freq df = Ok () ->
  StronglySorted Z.lt (df_index df) ->
  Forall (fun c => is_Some (assoc c (df_columns df))) x_vars ->
  (forall i, i ∈ H <-> (i < length (df_index df))%nat
                       /\ (forall c, c ∈ x_vars -> is_Some (cell df c i)))
  /\ ContinuousSkLearnModel_predict_rows index_freq self df
     = (if bool_decide (csl_nan_mode self = "raise") then
          if bool_decide (length H = length (df_index df))
          then Ok (df_index df, take_rows H df)
          else Err (ValueError "NaNs detected")
        else if bool_decide (csl_nan_mode self = "drop")
        then Ok (labels_at (df_index df) H, take_rows H df)
        else Err (ValueError ("Unrecognized nan_mode `" +:+ csl_nan_mode self +:+ "`")))
  /\ (forall j i, H !! j = Some i ->
        labels_at (df_index df) H !! j = df_index df !! i
        /\ forall c, cell (take_rows H df) c j = cell df c i).
Proof.
  intros x_vars H Hv Hsorted Hx.
  pose proof (StronglySorted_lt_NoDup _ Hsorted) as Hnd.
  split; [intros i; apply predict_positions_spec|]. split.
  - unfold ContinuousSkLearnModel_predict_rows. rewrite Hv. cbn [mbind result_bind].
    fold x_vars. rewrite (fwd_predict_rows_eq x_vars _ df Hnd Hx).
    fold (predict_positions x_vars df). fold H.
    unfold ContinuousSkLearnModel_handle_nans. rewrite labels_at_length.
    destruct (bool_decide (csl_nan_mode self = "raise")).
    + destruct (decide (length H = length (df_index df))) as [Heq|Hne].
      * rewrite bool_decide_eq_false_2 by (intros Hne; by apply Hne).
        rewrite bool_decide_eq_true_2 by done. cbn [mbind result_bind].
        subst H. by rewrite predict_positions_all.
      * rewrite bool_decide_eq_true_2 by (intros Heq; by apply Hne).
        by rewrite bool_decide_eq_false_2.
    + by destruct (bool_decide (csl_nan_mode self = "drop")).
  - intros j i Hj.
    assert (Hi : (i < length (df_index df))%nat).
    { apply list_elem_of_lookup_2 in Hj. by apply predict_positions_spec in Hj as [Hi _]. }
    split; [by apply labels_at_lookup|]. intros c. by apply cell_take_rows.
Qed.

(** X23. [SmaModel] selects its rows as [ContinuousSkLearnModel] does,
    with [col] both as predictor and as target: [fit] uses row [i] of the
    first [n - k] when [col] is present in rows [i] and [i + k], [predict]
    the rows where [col] is present.  Its third mode "leave_unchanged"
    leaves nothing unchanged: the rows with a missing value are left out
    exactly as in mode "drop". *)
Theorem sma_fit_predict_rows (self : SmaModel) (df : DataFrame) :
  let col := sma_col self in
  let k := sma_steps_ahead self in
  let m := length (slice_to_minus k (df_index df)) in
  let G := fit_positions col col k m df in
  let H := predict_positions col df in
  let fit_rows := (labels_at (df_index df) G, take_rows G df,
                   take_rows G (fwd_targets col k df)) in
  let drops := bool_decide (sma_nan_mode self = "drop"
                            \/ sma_nan_mode self = "leave_unchanged") in
  RegFreqMixin_validate_input_df index_freq df = Ok () ->
  StronglySorted Z.lt (df_index df) ->
  Forall (fun c => is_Some (assoc c (df_columns df))) col ->
  0 <= k < Z.of_nat (length (df_index df)) ->
  (forall i, i ∈ G
             <-> (i < m)%nat
                 /\ (forall c, c ∈ col -> is_Some (cell df c i))
                 /\ (forall c, c ∈ col -> is_Some (cell df c (i + Z.to_nat k))))
  /\ SmaModel_fit_rows index_freq self df
     = (if bool_decide (G = []) then Err (AssertionError "")
        else if bool_decide (sma_nan_mode self = "raise") then
          if bool_decide (length G = m) then Ok fit_rows
          else Err (ValueError "NaNs detected")
        else if drops then Ok fit_rows
        else Err (ValueError ("Unrecognized nan_mode `" +:+ sma_nan_mode self +:+ "`")))
  /\ SmaModel_predict_rows index_freq self df
     = (if bool_decide (sma_nan_mode self = "raise") then
          if bool_decide (length H = length (df_index df))
          then Ok (df_index df, take_rows H df)
          else Err (ValueError "NaNs detected")
        else if drops then Ok (labels_at (df_index df) H, take_rows H df)
        else Err (ValueError ("Unrecognized nan_mode `" +:+ sma_nan_mode self +:+ "`"))).
Proof.
  intros col k m G H fit_rows drops Hv Hsorted Hx Hk.
  destruct (slice_to_minus_take k (df_index df) (proj1 Hk)) as [Hslice Hm].
  fold m in Hslice, Hm.
  assert (Hmn : (m <= length (df_index df))%nat).
  { rewrite Hm. case_bool_decide; lia. }
  pose proof (StronglySorted_lt_NoDup _ Hsorted) as Hnd.
  assert (Hdrops : drops = bool_decide (sma_nan_mode self = "drop")
                           || bool_decide (sma_nan_mode self = "leave_unchanged")).
  { subst drops. repeat case_bool_decide; tauto. }
  split; [intros i; apply fit_positions_spec; lia|]. split.
  - unfold SmaModel_fit_rows. rewrite Hv. cbn [mbind result_bind]. fold k.
    unfold dbg.dassert_lt, dbg.dassert.
    rewrite (proj2 (Z.ltb_lt _ _) (proj2 Hk)). cbn [mbind result_bind].
    rewrite Hslice. fold col.
    rewrite (fwd_fit_rows_eq col col k _ m df Hnd Hx Hx Hmn). fold G.
    destruct (bool_decide (G = [])); [done|].
    unfold SmaModel_handle_nans.
    rewrite labels_at_length, length_take, Nat.min_l by done. rewrite Hdrops.
    destruct (bool_decide (sma_nan_mode self = "raise")).
    + destruct (decide (length G = m)) as [Heq|Hne].
      * rewrite bool_decide_eq_false_2 by (intros Hne; by apply Hne).
        by rewrite bool_decide_eq_true_2.
      * rewrite bool_decide_eq_true_2 by (intros Heq; by apply Hne).
        by rewrite bool_decide_eq_false_2.
    + destruct (bool_decide (sma_nan_mode self = "drop")); [done|].
      by destruct (bool_decide (sma_nan_mode self = "leave_unchanged")).
  - unfold SmaModel_predict_rows. rewrite Hv. cbn [mbind result_bind].
    fold col. rewrite (fwd_predict_rows_eq col _ df Hnd Hx).
    fold (predict_positions col df). fold H.
    unfold SmaModel_handle_nans. rewrite labels_at_length, Hdrops.
    destruct (bool_decide (sma_nan_mode self = "raise")).
    + destruct (decide (length H = length (df_index df))) as [Heq|Hne].
      * rewrite bool_decide_eq_false_2 by (intros Hne; by apply Hne).
        rewrite bool_decide_eq_true_2 by done. cbn [mbind result_bind].
        subst H. by rewrite predict_positions_all.
      * rewrite bool_decide_eq_true_2 by (intros Heq; by apply Hne).
        by rewrite bool_decide_eq_false_2.
    + destruct (bool_decide (sma_nan_mode self = "drop")); [done|].
      by destruct (bool_decide (sma_nan_mode self = "leave_unchanged")).
Qed.

End PredictRowsFacts.

Lemma continuous_sklearn_predict_rows_witness :
  ContinuousSkLearnModel_predict_rows Example.minute_freq (Example.csl "drop")
    Example.df_nan
  = Ok ([0; 120], take_rows [0%nat; 2%nat] Example.df_nan)
  /\ ContinuousSkLearnModel_predict_rows Example.minute_freq (Example.csl "raise")
       Example.df_nan
     = Err (ValueError "NaNs detected").
Proof.
  assert (Hs : StronglySorted Z.lt (df_index Example.df_nan)).
  { repeat constructor; lia. }
  assert (Hx : Forall (fun c => is_Some (assoc c (df_columns Example.df_nan)))
                      [Example.x]) by (repeat constructor; by eexists).
  split.
  - destruct (continuous_sklearn_predict_rows Example.minute_freq (Example.csl "drop")
                Example.df_nan eq_refl Hs Hx) as (_ & Heq & _).
    etrans; [exact Heq|]. vm_compute. reflexivity.
  - destruct (continuous_sklearn_predict_rows Example.minute_freq (Example.csl "raise")
                Example.df_nan eq_refl Hs Hx) as (_ & Heq & _).
    etrans; [exact Heq|]. vm_compute. reflexivity.
Defined.

Lemma sma_fit_predict_rows_witness :
  SmaModel_fit_rows Example.minute_freq (Example.sma_x "leave_unchanged") Example.df_nan
  = SmaModel_fit_rows Example.minute_freq (Example.sma_x "drop") Example.df_nan
  /\ SmaModel_predict_rows Example.minute_freq (Example.sma_x "leave_unchanged")
       Example.df_nan
     = Ok ([0; 120], take_rows [0%nat; 2%nat] Example.df_nan).
Proof.
  assert (Hs : StronglySorted Z.lt (df_index Example.df_nan)).
  { repeat constructor; lia. }
  assert (Hx : Forall (fun c => is_Some (assoc c (df_columns Example.df_nan)))
                      [Example.x]) by (repeat constructor; by eexists).
  destruct (sma_fit_predict_rows Example.minute_freq (Example.sma_x "leave_unchanged")
              Example.df_nan eq_refl Hs Hx ltac:(cbn; lia)) as (_ & Hfit & Hpred).
  destruct (sma_fit_predict_rows Example.minute_freq (Example.sma_x "drop")
              Example.df_nan eq_refl Hs Hx ltac:(cbn; lia)) as (_ & Hfit' & _).
  split.
  - etrans; [exact Hfit|]. symmetry. etrans; [exact Hfit'|]. vm_compute. reflexivity.
  - etrans; [exact Hpred|]. vm_compute. reflexivity.
Defined.

End Models.
